(** * Study sessions, tasks and analytics: the state machine and its folds

    A shallow embedding of the timer page, the analytics page and the
    persistence client of the study application, and the properties of
    the specification that can be settled on it.

    - [Client]        : [utils/supabase/client.tsx], the calls that read and
                        write the tables [sessions], [todos] and [analytics];
    - [TimerPage]     : the Pomodoro timer component (phase machine, session
                        reconciliation after a reload);
    - [AnalyticsPage] : the analytics component (daily hours, streak
                        calendar, fallback on a failed fetch);
    - [Auth]          : the validators of [client.tsx] and the sign-up and
                        sign-in calls built on them;
    - [Profile]       : reading and creating the row of [users];
    - [Setup]         : the setup checker and its instructions.

    Numbers the code keeps integral (minutes, seconds, counters, epoch
    milliseconds) are [Z]; the table store is one that answers: a query
    fails only where the code itself looks at the failure (no row for
    [.single()], a duplicate key on insert, no signed-in user) and where
    the schema refuses what a session is written with, or the counters a
    closed session is folded into. *)

From Equations Require Import Equations.
From Stdlib Require Import ZArith QArith Qround Lia Ascii String DecimalString.
From stdpp Require Import base option list strings gmap fin_maps infinite.

Local Open Scope Z_scope.

(** ** Errors and the state-and-exception monad

    An [async] function either resolves to a value or rejects with the
    thrown object; what it wrote to the store or to the component state
    before it threw stays written. *)

Inductive error : Type :=
| Error (message : string)           (* [throw new Error(message)] *)
| PostgrestError (code : string)     (* the [error] a query resolves with *)
| TypeError (message : string).      (* raised by the language itself *)

Inductive result (A : Type) : Type :=
| Ok (a : A)
| Throw (e : error).
Arguments Ok {A} a.
Arguments Throw {A} e.

Definition M (S A : Type) : Type := S -> S * result A.

Definition ret {S A} (a : A) : M S A := fun s => (s, Ok a).
Definition throw {S A} (e : error) : M S A := fun s => (s, Throw e).
Definition bind {S A B} (m : M S A) (k : A -> M S B) : M S B :=
  fun s => match m s with
           | (s', Ok a) => k a s'
           | (s', Throw e) => (s', Throw e)
           end.
Definition get {S} : M S S := fun s => (s, Ok s).
Definition modify {S} (f : S -> S) : M S unit := fun s => (f s, Ok tt).
Definition try_catch {S A} (m : M S A) (handler : error -> M S A) : M S A :=
  fun s => match m s with
           | (s', Ok a) => (s', Ok a)
           | (s', Throw e) => handler e s'
           end.

Notation "x <- m ;; k" := (bind m (fun x => k))
  (at level 100, m at next level, right associativity).
Notation "m ;;; k" := (bind m (fun _ => k))
  (at level 100, right associativity).

(** ** Values of the language

    A string of the running program is the sequence of its UTF-16 code
    units ([jsstring]); this is what [trim] and property keys see.  The
    text of the program itself (property names, error messages and error
    codes) is written as [string]. *)

Definition code_unit := N.
Definition jsstring := list code_unit.

(** [s.split(c)[0]]: the part of [s] before the first [c]. *)
Fixpoint before (c : code_unit) (s : jsstring) : jsstring :=
  match s with
  | d :: s' => if (d =? c)%N then [] else d :: before c s'
  | [] => []
  end.

(** A literal of the program text, as the string it denotes (the literals
    of the program are ASCII). *)
Definition utf16 (literal : string) : jsstring :=
  N_of_ascii <$> list_ascii_of_string literal.

(** [String.prototype.trim] removes white space and line terminators:
    TAB, LF, VT, FF, CR, SP, NBSP, U+1680, U+2000..U+200A, LS, PS,
    U+202F, U+205F, U+3000 and the byte-order mark. *)
Definition isWhiteSpace (c : code_unit) : bool :=
  ((9 <=? c) && (c <=? 13) || (c =? 32) || (c =? 160) || (c =? 5760)
   || (8192 <=? c) && (c <=? 8202) || (c =? 8232) || (c =? 8233)
   || (c =? 8239) || (c =? 8287) || (c =? 12288) || (c =? 65279))%N.

Fixpoint trimStart (s : jsstring) : jsstring :=
  match s with
  | c :: s' => if isWhiteSpace c then trimStart s' else s
  | [] => []
  end.
Definition trimEnd (s : jsstring) : jsstring := rev (trimStart (rev s)).
Definition trim (s : jsstring) : jsstring := trimEnd (trimStart s).

(** A number that is an integer or [NaN]: what the timer computes with. *)
Inductive jsnumber : Type :=
| Num (z : Z)
| NaN.

Definition lift2 (f : Z -> Z -> Z) (a b : jsnumber) : jsnumber :=
  match a, b with
  | Num x, Num y => Num (f x y)
  | _, _ => NaN
  end.

(** [Math.floor(a / b)] for a positive integer [b]: the quotient rounded
    towards minus infinity, which is [Z.div]. *)
Definition floor_div (a : jsnumber) (b : Z) : jsnumber := lift2 Z.div a (Num b).

(** [Math.max(a, b)]: [NaN] as soon as an argument is. *)
Definition Math_max (a b : jsnumber) : jsnumber := lift2 Z.max a b.

(** A number of the analytics page, where hours and averages are
    fractions: an exact rational, kept in lowest terms, or [NaN]. *)
Inductive number : Type :=
| Finite (q : Q)
| NotANumber.

Definition number_op (f : Q -> Q -> Q) (a b : number) : number :=
  match a, b with
  | Finite x, Finite y => Finite (Qred (f x y))
  | _, _ => NotANumber
  end.
Definition number_add : number -> number -> number := number_op Qplus.
Definition number_sub : number -> number -> number := number_op Qminus.
Definition number_mul : number -> number -> number := number_op Qmult.
(** [a / b]; a division by zero (an infinity, or [NaN]) is [NotANumber]. *)
Definition number_div (a b : number) : number :=
  match b with
  | Finite y => if Qeq_bool y 0 then NotANumber else number_op Qdiv a b
  | NotANumber => NotANumber
  end.
(** [Math.round(a)]: the integer nearest to [a], a half going up. *)
Definition Math_round (a : number) : number :=
  match a with
  | Finite x => Finite (inject_Z (Qfloor (x + (1 # 2))))
  | NotANumber => NotANumber
  end.
Definition of_Z (z : Z) : number := Finite (inject_Z z).
Definition of_nat (n : nat) : number := of_Z (Z.of_nat n).
(** [a > b]; false as soon as an operand is [NaN]. *)
Definition number_gt (a b : number) : bool :=
  match a, b with
  | Finite x, Finite y => negb (Qle_bool x y)
  | _, _ => false
  end.

(** A value: a primitive, or an object with its own properties in the
    order they were written. *)
#[warnings="-register-all"]
Inductive jsval : Type :=
| Undefined
| Null
| Boolean (b : bool)
| Number (n : number)
| String (s : jsstring)
| Object (props : list (string * jsval)).

Definition object := list (string * jsval).

(** [o.key] for an object [o]: the value of the property, [undefined]
    when [o] has none of that name. *)
Fixpoint get_own (o : object) (key : string) : jsval :=
  match o with
  | (k, v) :: o' => if String.eqb k key then v else get_own o' key
  | [] => Undefined
  end.

(** [v.key] for any value: a [TypeError] on [undefined] and [null]. *)
Definition get_prop {S} (v : jsval) (key : string) : M S jsval :=
  match v with
  | Undefined => throw (TypeError "Cannot read properties of undefined")
  | Null => throw (TypeError "Cannot read properties of null")
  | Object o => ret (get_own o key)
  | _ => ret Undefined
  end.

(** [{ ...o, key: v }] *)
Fixpoint set_own (o : object) (key : string) (v : jsval) : object :=
  match o with
  | (k, w) :: o' => if String.eqb k key then (k, v) :: o' else (k, w) :: set_own o' key v
  | [] => [(key, v)]
  end.

(** [{ ...v }]: the own properties of an object, none for a primitive. *)
Definition spread (v : jsval) : object :=
  match v with
  | Object o => o
  | _ => []
  end.

Definition truthy (v : jsval) : bool :=
  match v with
  | Undefined | Null => false
  | Boolean b => b
  | Number (Finite q) => negb (Qeq_bool q 0)
  | Number NotANumber => false
  | String s => negb (bool_decide (s = []))
  | Object _ => true
  end.

Inductive DateFormat : Type :=
| WeekdayShort          (* [{ weekday: 'short' }] *)
| MonthShortDayNumeric  (* [{ month: 'short', day: 'numeric' }] *)
| LocaleDefault.        (* no options *)

(** What the programs below take from the platform.  Times are
    milliseconds since the epoch, [NaN] for an invalid date.
    - [Date_parse s] is [new Date(s).getTime()];
    - [Date_setHours t h m s ms] is what [setHours(h, m, s, ms)] returns on
      a date of time [t]: the time of that local clock reading on the local
      day of [t];
    - [toLocaleDateString t f] is [toLocaleDateString('en-US', f)] (or, for
      [LocaleDefault], without arguments) on a date of time [t];
    - [toISOString t] likewise;
    - [StringToNumber s] is the number a string converts to. *)
Class Platform := {
  Date_parse : jsstring -> jsnumber;
  Date_setHours : Z -> Z -> Z -> Z -> Z -> Z;
  toLocaleDateString : jsnumber -> DateFormat -> jsstring;
  toISOString : Z -> jsstring;
  StringToNumber : jsstring -> number
}.

(** The outcome of an awaited call made elsewhere. *)
Definition await {S A} (outcome : result A) : M S A := fun s => (s, outcome).

(** ** The persistence client *)

Module Client.

(** *** Rows, as the interfaces of [client.tsx] declare them *)

Record StudySession := mkStudySession {
  session_id : jsstring;
  session_user_id : jsstring;
  session_name : jsstring;
  subject : jsstring;
  duration : Z;                      (* in minutes *)
  start_time : jsstring;
  end_time : option jsstring;
  session_created_at : jsstring
}.

Inductive TodoStatus := pending | completed.

Record Todo := mkTodo {
  todo_id : jsstring;
  todo_user_id : jsstring;
  title : jsstring;
  description : option jsstring;
  status : TodoStatus;
  todo_created_at : jsstring;
  completed_at : option jsstring
}.

(** A value of [subjects_breakdown].  The interface declares
    [Record<string, number>], subject to minutes; the column is JSONB, and
    what [+] makes of a value that is not a number is a string, which is
    stored like a number. *)
Inductive breakdown_value : Type :=
| Minutes (m : Z)
| Text (s : jsstring).

Record Analytics := mkAnalytics {
  analytics_id : jsstring;
  analytics_user_id : jsstring;
  total_sessions : Z;
  total_study_time : Z;              (* in minutes *)
  total_completed_tasks : Z;
  subjects_breakdown : gmap jsstring breakdown_value; (* the own properties *)
  updated_at : jsstring
}.

#[global] Instance TodoStatus_eq_dec : EqDecision TodoStatus.
Proof. solve_decision. Defined.

(** *** The store: one table per entity.

    [sessions] and [todos] are keyed by their primary key [id];
    [analytics] by [user_id], which the schema declares [UNIQUE NOT NULL]
    (one aggregate per owner). *)

Record Db := mkDb {
  sessions : gmap jsstring StudySession;
  todos : gmap jsstring Todo;
  analytics : gmap jsstring Analytics
}.

(** What a call sees of the outside: the signed-in user
    ([supabase.auth.getUser()]); the clock, already printed as the
    timestamp [new Date().toISOString()] / [NOW()] gives; the strings
    PostgreSQL reads as a [TIMESTAMPTZ]; and the text the engine gives for
    the built-in function that [Object.prototype] holds under a name
    ([Function.prototype.toString], whose result for a built-in function is
    left to the engine). *)
Record Env := mkEnv {
  auth_user : option jsstring;
  now_iso : jsstring;
  timestamptz : jsstring -> bool;
  Function_toString : jsstring -> jsstring
}.

Definition set_sessions (f : gmap jsstring StudySession -> gmap jsstring StudySession)
    (db : Db) : Db :=
  {| sessions := f (sessions db); todos := todos db; analytics := analytics db |}.
Definition set_todos (f : gmap jsstring Todo -> gmap jsstring Todo) (db : Db) : Db :=
  {| sessions := sessions db; todos := f (todos db); analytics := analytics db |}.
Definition set_analytics (f : gmap jsstring Analytics -> gmap jsstring Analytics)
    (db : Db) : Db :=
  {| sessions := sessions db; todos := todos db; analytics := f (analytics db) |}.

(** [const { data: { user }, error } = await supabase.auth.getUser();
     if (authError || !user) throw new Error('Not authenticated');] *)
Definition getUser (env : Env) : M Db jsstring :=
  match auth_user env with
  | Some uid => ret uid
  | None => throw (Error "Not authenticated")
  end.

(** The identifiers [uuid_generate_v4()] has not used yet. *)
Definition analytics_ids (db : Db) : gset jsstring :=
  list_to_set (analytics_id ∘ snd <$> map_to_list (analytics db)).

(** [initializeUserAnalytics]: insert a zeroed row; a duplicate key
    (code 23505) is ignored, so is (after logging) any other error. *)
Definition zeroed (env : Env) (userId : jsstring) (db : Db) : Analytics :=
  {| analytics_id := fresh (analytics_ids db);
     analytics_user_id := userId;
     total_sessions := 0;
     total_study_time := 0;
     total_completed_tasks := 0;
     subjects_breakdown := ∅;
     updated_at := now_iso env |}.

Definition initializeUserAnalytics (env : Env) (userId : jsstring) : M Db unit :=
  fun db =>
    match analytics db !! userId with
    | Some _ => (db, Ok tt)
    | None => (set_analytics <[userId := zeroed env userId db]> db, Ok tt)
    end.

(** How many calls of [getAnalytics] it takes to find the row. *)
Definition missing_row (env : Env) (db : Db) : nat :=
  match auth_user env with
  | Some uid => match analytics db !! uid with Some _ => 0%nat | None => 1%nat end
  | None => 0%nat
  end.

Definition inspect {A} (a : A) : {b : A | a = b} := exist _ a eq_refl.

(** [getAnalytics]: select the caller's row; when there is none
    ([PGRST116]) create it and call [getAnalytics] again. *)
Equations? getAnalytics (env : Env) (db : Db) : Db * result Analytics
  by wf (missing_row env db) lt :=
  getAnalytics env db with inspect (auth_user env) := {
    | exist _ None _ => (db, Throw (Error "Not authenticated"))
    | exist _ (Some uid) Hu with inspect (analytics db !! uid) := {
        | exist _ (Some data) _ => (db, Ok data)
        | exist _ None Hrow =>
            getAnalytics env (fst (initializeUserAnalytics env uid db)) } }.
Proof.
  unfold missing_row, initializeUserAnalytics.
  rewrite Hu, Hrow. simpl. rewrite lookup_insert_eq. lia.
Qed.

(** *** A plain object used as a map

    [subjects_breakdown] comes back from the store as a plain object and
    [{ ...analytics.subjects_breakdown }] is a plain object with the same
    own properties.  A plain object inherits from [Object.prototype]: a
    name that is no own property is looked up there. *)

(** [String(n)] for a whole number [n] (below 10^21 in size, as a number
    that fits an [INTEGER] column is). *)
Definition Number_toString (n : Z) : jsstring :=
  utf16 (NilZero.string_of_int (Z.to_int n)).

(** The names under which [Object.prototype] holds a function. *)
Definition Object_prototype_functions : list string :=
  [ "constructor"; "hasOwnProperty"; "isPrototypeOf"; "propertyIsEnumerable";
    "toLocaleString"; "toString"; "valueOf"; "__defineGetter__";
    "__defineSetter__"; "__lookupGetter__"; "__lookupSetter__" ]%string.

Definition inherited_function (key : jsstring) : bool :=
  bool_decide (key ∈ utf16 <$> Object_prototype_functions).

(** The name of the accessor of [Object.prototype]: read, it gives the
    prototype of the object; written with a value that is no object, it
    does nothing. *)
Definition proto (key : jsstring) : bool := bool_decide (key = utf16 "__proto__").

(** [(o[key] || 0) + duration] for a plain object with the own properties
    [own].  A number, 0 included, has the duration added.  A string that is
    not empty is truthy and [+] appends the duration to it; so it is with
    an inherited function, which [+] turns into its text, and with the
    prototype that [__proto__] gives, which [+] turns into
    ["[object Object]"]. *)
Definition plus_duration (env : Env) (own : gmap jsstring breakdown_value)
    (key : jsstring) (duration : Z) : breakdown_value :=
  match own !! key with
  | Some (Minutes m) => Minutes (m + duration)
  | Some (Text []) => Minutes (0 + duration)
  | Some (Text (c :: s)) => Text ((c :: s) ++ Number_toString duration)
  | None =>
      if proto key then Text (utf16 "[object Object]" ++ Number_toString duration)
      else if inherited_function key
      then Text (Function_toString env key ++ Number_toString duration)
      else Minutes (0 + duration)
  end.

(** [o[key] = v] for a number or a string [v]: the own property is written
    or created, except that [__proto__], when it is no own property, is the
    accessor of [Object.prototype] and ignores [v]. *)
Definition assign (own : gmap jsstring breakdown_value) (key : jsstring)
    (v : breakdown_value) : gmap jsstring breakdown_value :=
  match own !! key with
  | Some _ => <[key := v]> own
  | None => if proto key then own else <[key := v]> own
  end.

(** A key under which minutes are counted: an own property that is a
    number, or a name that is neither an own property nor a property of
    [Object.prototype]. *)
Definition counts (own : gmap jsstring breakdown_value) (key : jsstring) : bool :=
  match own !! key with
  | Some (Minutes _) => true
  | Some (Text _) => false
  | None => negb (proto key) && negb (inherited_function key)
  end.

(** *** What the tables take (database-schema.sql)

    A request that a table refuses resolves with the error of the
    database, which the client throws ([if (error) throw error]); nothing is
    written.  A value that does not fit the type of its column is refused
    before the [CHECK] constraints are looked at.  The columns of type TEXT
    and JSONB are given every string of the model, and the row of [users]
    that the foreign keys ask for is there ([getUserProfile] makes it when
    the user signs in). *)

(** [INTEGER] *)
Definition integer (z : Z) : bool := (-2147483648 <=? z) && (z <=? 2147483647).

(** The table [sessions]: [duration INTEGER], [start_time] and [end_time]
    [TIMESTAMPTZ], for the values a request carries; then
    [CHECK (duration >= 0)] on the row it would leave. *)
Definition sessions_types (env : Env) (duration : option Z)
    (start_time end_time : option jsstring) : option error :=
  if negb (from_option integer true duration)
  then Some (PostgrestError "22003")
  else if negb (from_option (timestamptz env) true start_time
                && from_option (timestamptz env) true end_time)
  then Some (PostgrestError "22007")
  else None.

Definition sessions_check (row : StudySession) : option error :=
  if 0 <=? duration row then None else Some (PostgrestError "23514").

Definition sessions_refuse (env : Env) (duration : option Z)
    (start_time end_time : option jsstring) (row : StudySession) : option error :=
  match sessions_types env duration start_time end_time with
  | Some e => Some e
  | None => sessions_check row
  end.

(** The table [analytics], for the two counters [updateAnalyticsAfterSession]
    writes: [INTEGER], then [CHECK (total_sessions >= 0)] and
    [CHECK (total_study_time >= 0)]. *)
Definition analytics_refuse (total_sessions total_study_time : Z) : option error :=
  if negb (integer total_sessions && integer total_study_time)
  then Some (PostgrestError "22003")
  else if negb ((0 <=? total_sessions) && (0 <=? total_study_time))
  then Some (PostgrestError "23514")
  else None.

(** [updateAnalyticsAfterSession(subject, duration)]: read the aggregate,
    then write back the three fields computed from what was read.
    [updatedSubjectsBreakdown[subject] =
       (updatedSubjectsBreakdown[subject] || 0) + duration] is an
    assignment to a plain object.  The update names the row by [user_id]
    and selects nothing back, so it raises no error when no row matches;
    the error of an update the table refuses is thrown. *)
Definition updateAnalyticsAfterSession (env : Env) (subject : jsstring) (duration : Z)
    : M Db unit :=
  uid <- getUser env ;;
  analytics <- getAnalytics env ;;
  let updatedSubjectsBreakdown :=
    assign (subjects_breakdown analytics) subject
      (plus_duration env (subjects_breakdown analytics) subject duration) in
  match analytics_refuse (total_sessions analytics + 1)
          (total_study_time analytics + duration) with
  | Some error => throw error
  | None =>
      modify (set_analytics (fun tbl =>
        match tbl !! uid with
        | Some row =>
            <[uid := {| analytics_id := analytics_id row;
                        analytics_user_id := analytics_user_id row;
                        total_sessions := total_sessions analytics + 1;
                        total_study_time := total_study_time analytics + duration;
                        total_completed_tasks := total_completed_tasks row;
                        subjects_breakdown := updatedSubjectsBreakdown;
                        updated_at := now_iso env |}]> tbl
        | None => tbl
        end))
  end.

(** [updateAnalyticsAfterTaskCompletion()] *)
Definition updateAnalyticsAfterTaskCompletion (env : Env) : M Db unit :=
  uid <- getUser env ;;
  analytics <- getAnalytics env ;;
  modify (set_analytics (fun tbl =>
    match tbl !! uid with
    | Some row =>
        <[uid := {| analytics_id := analytics_id row;
                    analytics_user_id := analytics_user_id row;
                    total_sessions := total_sessions row;
                    total_study_time := total_study_time row;
                    total_completed_tasks := total_completed_tasks analytics + 1;
                    subjects_breakdown := subjects_breakdown row;
                    updated_at := now_iso env |}]> tbl
    | None => tbl
    end)).

(** *** Study sessions *)

(** [Omit<StudySession, 'id' | 'user_id' | 'created_at'>] *)
Record StudySessionInput := mkStudySessionInput {
  in_session_name : jsstring;
  in_subject : jsstring;
  in_duration : Z;
  in_start_time : jsstring;
  in_end_time : option jsstring
}.

(** [Partial<StudySession>], on the columns a caller may change: an
    absent field ([None]) is left out of the request and keeps the
    stored value. *)
Record StudySessionUpdates := mkStudySessionUpdates {
  upd_session_name : option jsstring;
  upd_subject : option jsstring;
  upd_duration : option Z;
  upd_start_time : option jsstring;
  upd_end_time : option jsstring
}.

Definition apply_session_updates (u : StudySessionUpdates) (row : StudySession)
    : StudySession :=
  {| session_id := session_id row;
     session_user_id := session_user_id row;
     session_name := default (session_name row) (upd_session_name u);
     subject := default (subject row) (upd_subject u);
     duration := default (duration row) (upd_duration u);
     start_time := default (start_time row) (upd_start_time u);
     end_time := match upd_end_time u with Some e => Some e | None => end_time row end;
     session_created_at := session_created_at row |}.

(** Truthiness of an optional string and of an optional number. *)
Definition truthy_string (s : option jsstring) : bool :=
  match s with
  | Some s => negb (bool_decide (s = []))
  | None => false
  end.
Definition truthy_number (n : option Z) : bool :=
  match n with
  | Some n => negb (n =? 0)
  | None => false
  end.

(** A value used as a property key: [undefined] becomes the key
    ["undefined"]. *)
Definition property_key (s : option jsstring) : jsstring := default (utf16 "undefined") s.

(** [createStudySession(sessionData)]: the row is inserted for the caller,
    unless the table refuses it.  The sessions already stored play no
    part. *)
Definition createStudySession (env : Env) (sessionData : StudySessionInput)
    : M Db StudySession :=
  uid <- getUser env ;;
  db <- get ;;
  let data :=
    {| session_id := fresh (dom (sessions db));
       session_user_id := uid;
       session_name := in_session_name sessionData;
       subject := in_subject sessionData;
       duration := in_duration sessionData;
       start_time := in_start_time sessionData;
       end_time := in_end_time sessionData;
       session_created_at := now_iso env |} in
  match sessions_refuse env (Some (in_duration sessionData))
          (Some (in_start_time sessionData)) (in_end_time sessionData) data with
  | Some error => throw error
  | None =>
      modify (set_sessions <[session_id data := data]>) ;;;
      ret data
  end.

(** [.update(updates).eq('id', sessionId).eq('user_id', user.id)
     .select().single()]: no matching row is the error [PGRST116]; a
    matching row is updated unless the table refuses the values or the row
    they would leave. *)
Definition update_session_row (env : Env) (uid sessionId : jsstring)
    (updates : StudySessionUpdates) : M Db StudySession :=
  db <- get ;;
  match sessions db !! sessionId with
  | Some row =>
      if decide (session_user_id row = uid) then
        let data := apply_session_updates updates row in
        match sessions_refuse env (upd_duration updates) (upd_start_time updates)
                (upd_end_time updates) data with
        | Some error => throw error
        | None =>
            modify (set_sessions <[sessionId := data]>) ;;;
            ret data
        end
      else throw (PostgrestError "PGRST116")
  | None => throw (PostgrestError "PGRST116")
  end.

(** [updateStudySession(sessionId, updates)] *)
Definition updateStudySession (env : Env) (sessionId : jsstring)
    (updates : StudySessionUpdates) : M Db StudySession :=
  uid <- getUser env ;;
  data <- update_session_row env uid sessionId updates ;;
  (if truthy_string (upd_end_time updates) && truthy_number (upd_duration updates)
   then updateAnalyticsAfterSession env (property_key (upd_subject updates))
          (default 0 (upd_duration updates))
   else ret tt) ;;;
  ret data.

(** *** Todos *)

(** [Omit<Todo, 'id' | 'user_id' | 'created_at'>] *)
Record TodoInput := mkTodoInput {
  in_title : jsstring;
  in_description : option jsstring;
  in_status : TodoStatus;
  in_completed_at : option jsstring
}.

(** [Partial<Todo>], on the columns a caller may change. *)
Record TodoUpdates := mkTodoUpdates {
  upd_title : option jsstring;
  upd_description : option jsstring;
  upd_status : option TodoStatus;
  upd_completed_at : option jsstring
}.

(** [createTodo(todo)]: an empty string is falsy, so a title that trims
    to nothing is refused before anything is written. *)
Definition createTodo (env : Env) (todo : TodoInput) : M Db Todo :=
  uid <- getUser env ;;
  match trim (in_title todo) with
  | [] => throw (Error "Todo title is required")
  | _ :: _ =>
      db <- get ;;
      let data :=
        {| todo_id := fresh (dom (todos db));
           todo_user_id := uid;
           title := trim (in_title todo);
           description := in_description todo;
           status := in_status todo;
           todo_created_at := now_iso env;
           completed_at := in_completed_at todo |} in
      modify (set_todos <[todo_id data := data]>) ;;;
      ret data
  end.

Definition apply_todo_updates (u : TodoUpdates) (row : Todo) : Todo :=
  {| todo_id := todo_id row;
     todo_user_id := todo_user_id row;
     title := default (title row) (upd_title u);
     description :=
       match upd_description u with Some d => Some d | None => description row end;
     status := default (status row) (upd_status u);
     todo_created_at := todo_created_at row;
     completed_at :=
       match upd_completed_at u with Some c => Some c | None => completed_at row end |}.

(** The trigger [update_todo_completed_at] of the schema, run before
    each update of a row of [todos]. *)
Definition update_todo_completed_at (env : Env) (OLD NEW : Todo) : Todo :=
  let with_completed_at c :=
    {| todo_id := todo_id NEW; todo_user_id := todo_user_id NEW;
       title := title NEW; description := description NEW;
       status := status NEW; todo_created_at := todo_created_at NEW;
       completed_at := c |} in
  match status NEW, status OLD with
  | completed, pending => with_completed_at (Some (now_iso env))
  | pending, completed => with_completed_at None
  | _, _ => NEW
  end.

Definition update_todo_row (env : Env) (uid todoId : jsstring) (updates : TodoUpdates)
    : M Db Todo :=
  db <- get ;;
  match todos db !! todoId with
  | Some row =>
      if decide (todo_user_id row = uid) then
        let data := update_todo_completed_at env row (apply_todo_updates updates row) in
        modify (set_todos <[todoId := data]>) ;;;
        ret data
      else throw (PostgrestError "PGRST116")
  | None => throw (PostgrestError "PGRST116")
  end.

(** [updateTodo(todoId, updates)] *)
Definition updateTodo (env : Env) (todoId : jsstring) (updates : TodoUpdates)
    : M Db Todo :=
  uid <- getUser env ;;
  data <- update_todo_row env uid todoId updates ;;
  (if decide (upd_status updates = Some completed)
   then updateAnalyticsAfterTaskCompletion env
   else ret tt) ;;;
  ret data.

(** What the table [analytics] answers while the completion of a todo is
    counted.  The store of this model answers every request; a store that
    does not lets the select of [getAnalytics] or the update resolve with
    an error, which is thrown (lines 463 and 505) when the todo has been
    written already. *)
Inductive analytics_answer : Type :=
| Answers
| SelectFails (e : error)
| UpdateFails (e : error).

Definition updateAnalyticsAfterTaskCompletion_on (answer : analytics_answer) (env : Env)
    : M Db unit :=
  match answer with
  | Answers => updateAnalyticsAfterTaskCompletion env
  | SelectFails e => uid <- getUser env ;; throw e
  | UpdateFails e => uid <- getUser env ;; analytics <- getAnalytics env ;; throw e
  end.

(** [updateTodo(todoId, updates)] with the table [analytics] answering as
    said. *)
Definition updateTodo_on (answer : analytics_answer) (env : Env) (todoId : jsstring)
    (updates : TodoUpdates) : M Db Todo :=
  uid <- getUser env ;;
  data <- update_todo_row env uid todoId updates ;;
  (if decide (upd_status updates = Some completed)
   then updateAnalyticsAfterTaskCompletion_on answer env
   else ret tt) ;;;
  ret data.

(** [deleteTodo(todoId)]: deleting no row is not an error. *)
Definition deleteTodo (env : Env) (todoId : jsstring) : M Db unit :=
  uid <- getUser env ;;
  modify (set_todos (fun tbl =>
    match tbl !! todoId with
    | Some row => if decide (todo_user_id row = uid) then delete todoId tbl else tbl
    | None => tbl
    end)).

(** *** The calls of the client that write to the store *)

Inductive call : Type :=
| CreateStudySession (sessionData : StudySessionInput)
| UpdateStudySession (sessionId : jsstring) (updates : StudySessionUpdates)
| CreateTodo (todo : TodoInput)
| UpdateTodo (todoId : jsstring) (updates : TodoUpdates)
| DeleteTodo (todoId : jsstring)
| GetAnalytics.

(** The store a call leaves behind, whether it resolved or threw. *)
Definition run (env : Env) (c : call) (db : Db) : Db :=
  match c with
  | CreateStudySession d => fst (createStudySession env d db)
  | UpdateStudySession i u => fst (updateStudySession env i u db)
  | CreateTodo t => fst (createTodo env t db)
  | UpdateTodo i u => fst (updateTodo env i u db)
  | DeleteTodo i => fst (deleteTodo env i db)
  | GetAnalytics => fst (getAnalytics env db)
  end.

(** The aggregate of an owner as a reader finds it: the stored row, or
    the zeroed one the first read creates. *)
Definition current (env : Env) (uid : jsstring) (db : Db) : Analytics :=
  match analytics db !! uid with
  | Some row => row
  | None => zeroed env uid db
  end.

(** The row [updateAnalyticsAfterSession] leaves for an aggregate read
    as [a], and the one [updateAnalyticsAfterTaskCompletion] leaves. *)
Definition after_session (env : Env) (subject : jsstring) (duration : Z)
    (a : Analytics) : Analytics :=
  {| analytics_id := analytics_id a;
     analytics_user_id := analytics_user_id a;
     total_sessions := total_sessions a + 1;
     total_study_time := total_study_time a + duration;
     total_completed_tasks := total_completed_tasks a;
     subjects_breakdown :=
       assign (subjects_breakdown a) subject
         (plus_duration env (subjects_breakdown a) subject duration);
     updated_at := now_iso env |}.

Definition after_task_completion (env : Env) (a : Analytics) : Analytics :=
  {| analytics_id := analytics_id a;
     analytics_user_id := analytics_user_id a;
     total_sessions := total_sessions a;
     total_study_time := total_study_time a;
     total_completed_tasks := total_completed_tasks a + 1;
     subjects_breakdown := subjects_breakdown a;
     updated_at := now_iso env |}.

(** The minutes counted under a subject: the own property when it is a
    number, and 0 otherwise. *)
Definition minutes_of (subject : jsstring) (a : Analytics) : Z :=
  match subjects_breakdown a !! subject with
  | Some (Minutes m) => m
  | _ => 0
  end.

(** The minutes of a value, a string counting for none. *)
Definition minutes (v : breakdown_value) : Z :=
  match v with
  | Minutes m => m
  | Text _ => 0
  end.

(** The minutes of all subjects of an aggregate, added up. *)
Definition breakdown_total (a : Analytics) : Z :=
  map_fold (fun _ v total => minutes v + total) 0 (subjects_breakdown a).

(** An aggregate whose breakdown holds numbers only. *)
Definition numeric (a : Analytics) : Prop :=
  forall key v, subjects_breakdown a !! key = Some v -> exists m, v = Minutes m.

(** An aggregate whose breakdown holds numbers only, and whose study time
    is their sum. *)
Definition balanced (a : Analytics) : Prop :=
  numeric a /\ total_study_time a = breakdown_total a.

(** A call that names no property of [Object.prototype] as the subject of
    a session. *)
Definition ordinary (c : call) : Prop :=
  match c with
  | UpdateStudySession _ updates =>
      proto (property_key (upd_subject updates)) = false
      /\ inherited_function (property_key (upd_subject updates)) = false
  | _ => True
  end.

(** A todo whose completion time is set exactly when it is completed. *)
Definition dated (t : Todo) : Prop :=
  status t = completed <-> is_Some (completed_at t).

(** A store whose sessions and todos are filed under their own [id]. *)
Definition keyed (db : Db) : Prop :=
  (forall i row, sessions db !! i = Some row -> session_id row = i)
  /\ (forall i row, todos db !! i = Some row -> todo_id row = i).

(** A session that has not been closed. *)
Definition still_open (s : StudySession) : Prop := end_time s = None.

End Client.

(** ** The timer page *)

Module TimerPage.
Import Client.

Inductive PomodoroPhase := work | short_break | long_break.

(** The component state ([useState]), the three configured durations
    (in minutes) and what was written to [console.error]. *)
Record State := mkState {
  timeLeft : jsnumber;               (* in seconds *)
  isActive : bool;
  currentPhase : PomodoroPhase;
  cycleCount : Z;
  currentSession : option StudySession;
  showSessionDialog : bool;
  sessionName : jsstring;
  sessionSubject : jsstring;
  workDuration : Z;
  shortBreakDuration : Z;
  longBreakDuration : Z;
  console : list error
}.

Definition setTimeLeft (v : jsnumber) (st : State) : State :=
  mkState v (isActive st) (currentPhase st) (cycleCount st) (currentSession st)
    (showSessionDialog st) (sessionName st) (sessionSubject st) (workDuration st)
    (shortBreakDuration st) (longBreakDuration st) (console st).
Definition setIsActive (v : bool) (st : State) : State :=
  mkState (timeLeft st) v (currentPhase st) (cycleCount st) (currentSession st)
    (showSessionDialog st) (sessionName st) (sessionSubject st) (workDuration st)
    (shortBreakDuration st) (longBreakDuration st) (console st).
Definition setCurrentPhase (v : PomodoroPhase) (st : State) : State :=
  mkState (timeLeft st) (isActive st) v (cycleCount st) (currentSession st)
    (showSessionDialog st) (sessionName st) (sessionSubject st) (workDuration st)
    (shortBreakDuration st) (longBreakDuration st) (console st).
Definition setCycleCount (v : Z) (st : State) : State :=
  mkState (timeLeft st) (isActive st) (currentPhase st) v (currentSession st)
    (showSessionDialog st) (sessionName st) (sessionSubject st) (workDuration st)
    (shortBreakDuration st) (longBreakDuration st) (console st).
Definition setCurrentSession (v : option StudySession) (st : State) : State :=
  mkState (timeLeft st) (isActive st) (currentPhase st) (cycleCount st) v
    (showSessionDialog st) (sessionName st) (sessionSubject st) (workDuration st)
    (shortBreakDuration st) (longBreakDuration st) (console st).
Definition setShowSessionDialog (v : bool) (st : State) : State :=
  mkState (timeLeft st) (isActive st) (currentPhase st) (cycleCount st)
    (currentSession st) v (sessionName st) (sessionSubject st) (workDuration st)
    (shortBreakDuration st) (longBreakDuration st) (console st).
Definition setSessionName (v : jsstring) (st : State) : State :=
  mkState (timeLeft st) (isActive st) (currentPhase st) (cycleCount st)
    (currentSession st) (showSessionDialog st) v (sessionSubject st) (workDuration st)
    (shortBreakDuration st) (longBreakDuration st) (console st).
Definition setSessionSubject (v : jsstring) (st : State) : State :=
  mkState (timeLeft st) (isActive st) (currentPhase st) (cycleCount st)
    (currentSession st) (showSessionDialog st) (sessionName st) v (workDuration st)
    (shortBreakDuration st) (longBreakDuration st) (console st).
Definition console_error (e : error) (st : State) : State :=
  mkState (timeLeft st) (isActive st) (currentPhase st) (cycleCount st)
    (currentSession st) (showSessionDialog st) (sessionName st) (sessionSubject st)
    (workDuration st) (shortBreakDuration st) (longBreakDuration st)
    (console st ++ [e]).

(** The update [handleToggleTask(taskId, completed)] sends. *)
Definition toggleUpdates (now_iso : jsstring) (completed : bool) : TodoUpdates :=
  {| upd_title := None;
     upd_description := None;
     upd_status := Some (if completed then Client.completed else pending);
     upd_completed_at := if completed then Some now_iso else None |}.

(** The todo [handleCreateTask] asks for:
    [{ title: newTaskTitle, description: newTaskDescription || undefined,
       status: 'pending' }]. *)
Definition newTaskInput (newTaskTitle newTaskDescription : jsstring) : TodoInput :=
  {| in_title := newTaskTitle;
     in_description :=
       match newTaskDescription with
       | [] => None
       | _ :: _ => Some newTaskDescription
       end;
     in_status := pending;
     in_completed_at := None |}.

(** [phases[phase].duration] *)
Definition phase_duration (st : State) (phase : PomodoroPhase) : Z :=
  match phase with
  | work => workDuration st
  | short_break => shortBreakDuration st
  | long_break => longBreakDuration st
  end.

(** A start time a reconciliation should refuse: one that is not a date,
    or one that lies after [now]. *)
Definition future_or_unparsable (now : Z) (sessionStart : jsnumber) : Prop :=
  match sessionStart with
  | Num t0 => now < t0
  | NaN => True
  end.


(** The four lines of [checkActiveSession] that compute the time left:
    [elapsedMinutes = Math.floor((now - sessionStart) / 60000)],
    [remainingTime = Math.max(0, workDuration * 60 - elapsedMinutes * 60)]. *)
Definition remainingTime `{Platform} (workDuration : Z) (now : Z) (start_time : jsstring)
    : jsnumber :=
  let sessionStart := Date_parse start_time in
  let elapsedMinutes := floor_div (lift2 Z.sub (Num now) sessionStart) 60000 in
  Math_max (Num 0)
    (lift2 Z.sub (Num (workDuration * 60)) (lift2 Z.mul elapsedMinutes (Num 60))).

(** [checkActiveSession]: [active] is what [getActiveStudySession()]
    resolves to or rejects with, [now] is [new Date().getTime()].  A
    rejection is caught and logged; nothing else in the body throws. *)
Definition checkActiveSession `{Platform} (active : result (option StudySession))
    (now : Z) : M State unit :=
  try_catch
    (activeSession <- await active ;;
     match activeSession with
     | Some activeSession =>
         modify (setCurrentSession (Some activeSession)) ;;;
         modify (setSessionName (session_name activeSession)) ;;;
         modify (setSessionSubject (subject activeSession)) ;;;
         st <- get ;;
         modify (setTimeLeft
                   (remainingTime (workDuration st) now (start_time activeSession)))
     | None => ret tt
     end)
    (fun e => modify (console_error e)).

(** The update [handlePhaseComplete] sends at the end of a work phase:
    [{ duration: (currentSession.duration || 0) + workDuration }]. *)
Definition phaseCompleteUpdates (st : State) (session : StudySession)
    : StudySessionUpdates :=
  {| upd_session_name := None; upd_subject := None;
     upd_duration := Some (duration session + workDuration st);
     upd_start_time := None; upd_end_time := None |}.

(** The update [handleEndSession] sends, for a time left of [t] seconds:
    [{ end_time: new Date().toISOString(),
       duration: (currentSession.duration || 0)
                 + Math.floor((phases[currentPhase].duration * 60 - timeLeft) / 60) }].
    It names no subject. *)
Definition endSessionUpdates (now_iso : jsstring) (st : State) (session : StudySession)
    (t : Z) : StudySessionUpdates :=
  {| upd_session_name := None; upd_subject := None;
     upd_duration :=
       Some (duration session + (phase_duration st (currentPhase st) * 60 - t) / 60);
     upd_start_time := None; upd_end_time := Some now_iso |}.

(** [handlePhaseComplete]: [persisted] is the outcome of the
    [updateStudySession] awaited in the work branch; a rejection there
    leaves the handler before the phase is changed.  [%] keeps the sign
    of the dividend, as [Z.rem] does. *)
Definition handlePhaseComplete `{Platform} (persisted : result StudySession)
    (active : result (option StudySession)) (now : Z) : M State unit :=
  modify (setIsActive false) ;;;
  st <- get ;;
  match currentSession st with
  | Some _ =>
      next <- match currentPhase st with
              | work =>
                  let newCycleCount := cycleCount st + 1 in
                  let nextPhase :=
                    if Z.rem newCycleCount 4 =? 0 then long_break else short_break in
                  _ <- await persisted ;;
                  ret (nextPhase, newCycleCount)
              | _ => ret (work, cycleCount st)
              end ;;
      let '(nextPhase, newCycleCount) := next in
      modify (setCycleCount newCycleCount) ;;;
      modify (setCurrentPhase nextPhase) ;;;
      modify (setTimeLeft (Num (phase_duration st nextPhase * 60))) ;;;
      checkActiveSession active now
  | None => ret tt
  end.

(** [startSession]: [created] is the outcome of [createStudySession]. *)
Definition startSession (created : result StudySession) : M State unit :=
  st <- get ;;
  match trim (sessionName st) with
  | [] => modify (setShowSessionDialog true)
  | _ :: _ =>
      try_catch
        (session <- await created ;;
         modify (setCurrentSession (Some session)) ;;;
         modify (setCurrentPhase work) ;;;
         modify (setTimeLeft (Num (workDuration st * 60))) ;;;
         modify (setIsActive true) ;;;
         modify (setShowSessionDialog false))
        (fun e => modify (console_error e))
  end.

Definition handleStart : M State unit :=
  st <- get ;;
  match currentSession st with
  | None => modify (setShowSessionDialog true)
  | Some _ => modify (setIsActive true)
  end.

Definition handlePause : M State unit := modify (setIsActive false).

Definition handleReset : M State unit :=
  modify (setIsActive false) ;;;
  st <- get ;;
  modify (setTimeLeft (Num (phase_duration st (currentPhase st) * 60))).

(** [handleEndSession]: [persisted] is the outcome of the closing
    [updateStudySession]. *)
Definition handleEndSession (persisted : result StudySession) : M State unit :=
  st <- get ;;
  match currentSession st with
  | None => ret tt
  | Some _ =>
      try_catch
        (_ <- await persisted ;;
         modify (setCurrentSession None) ;;;
         modify (setIsActive false) ;;;
         modify (setCurrentPhase work) ;;;
         modify (setTimeLeft (Num (workDuration st * 60))) ;;;
         modify (setCycleCount 0) ;;;
         modify (setSessionName []) ;;;
         modify (setSessionSubject (utf16 "General Study")))
        (fun e => modify (console_error e))
  end.

(** The effect on [[isActive, timeLeft]]: while the timer runs and time
    is left, one second goes by; when it runs and none is left, the
    phase completes. *)
Definition positive (n : jsnumber) : bool :=
  match n with Num z => 0 <? z | NaN => false end.
Definition is_zero (n : jsnumber) : bool :=
  match n with Num z => z =? 0 | NaN => false end.

Definition tick `{Platform} (persisted : result StudySession)
    (active : result (option StudySession)) (now : Z) : M State unit :=
  st <- get ;;
  if isActive st && positive (timeLeft st) then
    modify (setTimeLeft (lift2 Z.sub (timeLeft st) (Num 1)))
  else if is_zero (timeLeft st) && isActive st then
    handlePhaseComplete persisted active now
  else ret tt.

(** What can happen to the page. *)
Inductive event : Type :=
| Mounted (active : result (option StudySession)) (now : Z)
| Tick (persisted : result StudySession) (active : result (option StudySession))
       (now : Z)
| StartSession (created : result StudySession)
| Start
| Pause
| Reset
| EndSession (persisted : result StudySession)
| TypeSessionName (name : jsstring)
| TypeSessionSubject (subject : jsstring).

Definition handle `{Platform} (e : event) : M State unit :=
  match e with
  | Mounted active now => checkActiveSession active now
  | Tick persisted active now => tick persisted active now
  | StartSession created => startSession created
  | Start => handleStart
  | Pause => handlePause
  | Reset => handleReset
  | EndSession persisted => handleEndSession persisted
  | TypeSessionName name => modify (setSessionName name)
  | TypeSessionSubject subject => modify (setSessionSubject subject)
  end.

(** The page as it is first rendered for a user with the given default
    durations. *)
Definition initial (defaultPomodoroTime defaultShortBreak defaultLongBreak : Z)
    : State :=
  {| timeLeft := Num (25 * 60); isActive := false; currentPhase := work;
     cycleCount := 0; currentSession := None; showSessionDialog := false;
     sessionName := []; sessionSubject := utf16 "General Study";
     workDuration := defaultPomodoroTime;
     shortBreakDuration := defaultShortBreak;
     longBreakDuration := defaultLongBreak; console := [] |}.

Inductive reachable `{Platform} (init : State) : State -> Prop :=
| reachable_init : reachable init init
| reachable_step st e :
    reachable init st -> reachable init (fst (handle e st)).

(** The callback the effect hands to [setInterval]:
    [setTimeLeft(prev => prev - 1)].  The callback tests nothing.  The
    effect sets the interval when it finds [isActive && timeLeft > 0], and
    its cleanup clears the interval when [isActive] or [timeLeft] has
    changed. *)
Definition intervalCallback : M State unit :=
  st <- get ;;
  modify (setTimeLeft (lift2 Z.sub (timeLeft st) (Num 1))).


(** *** What the page shows of the timer *)

(** [n.toString()] for an integer or [NaN]. *)
Definition toString (n : jsnumber) : jsstring :=
  match n with
  | Num z => utf16 (NilZero.string_of_int (Z.to_int z))
  | NaN => utf16 "NaN"
  end.

(** [s.padStart(2, '0')] *)
Definition padStart2 (s : jsstring) : jsstring :=
  repeat 48%N (2 - length s) ++ s.

(** [formatTime(seconds)]: [Math.floor(seconds / 60)] and [seconds % 60],
    each printed on two places at least, with a colon between. *)
Definition formatTime (seconds : jsnumber) : jsstring :=
  let mins := floor_div seconds 60 in
  let secs := lift2 Z.rem seconds (Num 60) in
  padStart2 (toString mins) ++ [58%N] ++ padStart2 (toString secs).

Definition to_number (n : jsnumber) : number :=
  match n with
  | Num z => of_Z z
  | NaN => NotANumber
  end.

(** [progressPercentage]:
    [((phases[currentPhase].duration * 60 - timeLeft)
      / (phases[currentPhase].duration * 60)) * 100]. *)
Definition progressPercentage (st : State) : number :=
  let full := of_Z (phase_duration st (currentPhase st) * 60) in
  number_mul (number_div (number_sub full (to_number (timeLeft st))) full) (of_Z 100).

(** *** The task panel

    The store the page talks to, the list of tasks it shows, the form for
    a new task, and its console. *)
Record Panel := mkPanel {
  store : Db;
  tasks : list Todo;
  newTaskTitle : jsstring;
  newTaskDescription : jsstring;
  showTaskForm : bool;
  panel_console : list error
}.

Definition setTasks (f : list Todo -> list Todo) (p : Panel) : Panel :=
  mkPanel (store p) (f (tasks p)) (newTaskTitle p) (newTaskDescription p)
    (showTaskForm p) (panel_console p).
Definition setNewTaskTitle (v : jsstring) (p : Panel) : Panel :=
  mkPanel (store p) (tasks p) v (newTaskDescription p) (showTaskForm p)
    (panel_console p).
Definition setNewTaskDescription (v : jsstring) (p : Panel) : Panel :=
  mkPanel (store p) (tasks p) (newTaskTitle p) v (showTaskForm p) (panel_console p).
Definition setShowTaskForm (v : bool) (p : Panel) : Panel :=
  mkPanel (store p) (tasks p) (newTaskTitle p) (newTaskDescription p) v
    (panel_console p).
Definition panel_error (e : error) (p : Panel) : Panel :=
  mkPanel (store p) (tasks p) (newTaskTitle p) (newTaskDescription p)
    (showTaskForm p) (panel_console p ++ [e]).

(** A call of the client, made from the page. *)
Definition call {A} (m : M Db A) : M Panel A :=
  fun p =>
    let r := m (store p) in
    (mkPanel (fst r) (tasks p) (newTaskTitle p) (newTaskDescription p)
       (showTaskForm p) (panel_console p),
     snd r).

(** [handleCreateTask]: nothing happens for a blank title; otherwise the
    todo is created and put at the end of the list, and the form is
    cleared and closed. *)
Definition handleCreateTask (env : Env) : M Panel unit :=
  p <- get ;;
  match trim (newTaskTitle p) with
  | [] => ret tt
  | _ :: _ =>
      try_catch
        (task <- call (createTodo env
                         (newTaskInput (newTaskTitle p) (newTaskDescription p))) ;;
         modify (setTasks (fun prev => prev ++ [task])) ;;;
         modify (setNewTaskTitle []) ;;;
         modify (setNewTaskDescription []) ;;;
         modify (setShowTaskForm false))
        (fun e => modify (panel_error e))
  end.

(** [handleToggleTask(taskId, checked)]: the todo is updated and takes
    the place of the tasks of that id in the list; when the call throws,
    the error is logged and the list stays.  [analytics] is what the table
    of that name answers during the call. *)
Definition handleToggleTask (env : Env) (taskId : jsstring) (checked : bool)
    (analytics : analytics_answer) : M Panel unit :=
  try_catch
    (updatedTask <- call (updateTodo_on analytics env taskId
                            (toggleUpdates (now_iso env) checked)) ;;
     modify (setTasks (fun prev =>
       (fun task => if decide (todo_id task = taskId) then updatedTask else task)
         <$> prev)))
    (fun e => modify (panel_error e)).

(** [handleDeleteTask(taskId)]: the todo is deleted and the tasks of that
    id leave the list. *)
Definition handleDeleteTask (env : Env) (taskId : jsstring) : M Panel unit :=
  try_catch
    (call (deleteTodo env taskId) ;;;
     modify (setTasks (fun prev => filter (fun task => todo_id task <> taskId) prev)))
    (fun e => modify (panel_error e)).

(** [completedTasks] and [activeTasks] *)
Definition completedTasks (p : Panel) : list Todo :=
  filter (fun t => status t = completed) (tasks p).
Definition activeTasks (p : Panel) : list Todo :=
  filter (fun t => status t = pending) (tasks p).

Inductive panel_event : Type :=
| CreateTask
| ToggleTask (taskId : jsstring) (checked : bool) (analytics : analytics_answer)
| DeleteTask (taskId : jsstring)
| TypeTaskTitle (title : jsstring)
| TypeTaskDescription (description : jsstring).

Definition panel_handle (env : Env) (e : panel_event) : M Panel unit :=
  match e with
  | CreateTask => handleCreateTask env
  | ToggleTask taskId checked analytics => handleToggleTask env taskId checked analytics
  | DeleteTask taskId => handleDeleteTask env taskId
  | TypeTaskTitle title => modify (setNewTaskTitle title)
  | TypeTaskDescription description => modify (setNewTaskDescription description)
  end.

(** A list that shows todos as they are stored. *)
Definition mirrors (p : Panel) : Prop :=
  forall t, t ∈ tasks p -> todos (store p) !! todo_id t = Some t.

(** A list that does so but for the todos of one id. *)
Definition mirrors_but (taskId : jsstring) (p : Panel) : Prop :=
  forall t, t ∈ tasks p -> todo_id t <> taskId ->
            todos (store p) !! todo_id t = Some t.

(** A toggle during which the table [analytics] answered with an error
    after the todo was written: the completion of a todo of the caller. *)
Definition fails_late (env : Env) (e : panel_event) (p : Panel) : Prop :=
  match e with
  | ToggleTask taskId true (SelectFails _ | UpdateFails _) =>
      exists row, todos (store p) !! taskId = Some row
                  /\ Some (todo_user_id row) = auth_user env
  | _ => False
  end.

End TimerPage.

(** ** The analytics page *)

Module AnalyticsPage.
Import Client.

(** *** What the page is given

    The page receives the signed-in user's row of [users] and, from
    [getStudySessions()], rows of [sessions]: objects whose properties are
    the columns the interfaces [User] and [StudySession] declare. *)

Inductive AuthProvider := email_provider | google | apple.

Record Preferences := mkPreferences {
  darkMode : bool;
  notifications : bool;
  defaultPomodoroTime : Z;
  defaultShortBreak : Z;
  defaultLongBreak : Z;
  studyGoal : Z
}.

Record User := mkUser {
  user_id : jsstring;
  email : jsstring;
  full_name : jsstring;
  avatar_url : option jsstring;
  auth_provider : AuthProvider;
  user_created_at : jsstring;
  preferences : Preferences
}.

Definition nullable (s : option jsstring) : jsval :=
  match s with
  | Some s => String s
  | None => Null
  end.

Definition user_row (u : User) : object :=
  [ ("id", String (user_id u));
    ("email", String (email u));
    ("full_name", String (full_name u));
    ("avatar_url", nullable (avatar_url u));
    ("auth_provider",
       String (utf16 match auth_provider u with
                     | email_provider => "email"
                     | google => "google"
                     | apple => "apple"
                     end));
    ("created_at", String (user_created_at u));
    ("preferences",
       Object [ ("darkMode", Boolean (darkMode (preferences u)));
                ("notifications", Boolean (notifications (preferences u)));
                ("defaultPomodoroTime", Number (of_Z (defaultPomodoroTime (preferences u))));
                ("defaultShortBreak", Number (of_Z (defaultShortBreak (preferences u))));
                ("defaultLongBreak", Number (of_Z (defaultLongBreak (preferences u))));
                ("studyGoal", Number (of_Z (studyGoal (preferences u)))) ]) ].

Definition session_row (s : StudySession) : object :=
  [ ("id", String (session_id s));
    ("user_id", String (session_user_id s));
    ("session_name", String (session_name s));
    ("subject", String (subject s));
    ("duration", Number (of_Z (duration s)));
    ("start_time", String (start_time s));
    ("end_time", nullable (end_time s));
    ("created_at", String (session_created_at s)) ].

(** *** What the page computes *)

Inductive TimeRange := week | month | year.

Record DayHours := mkDayHours {          (* [{ day, hours, sessions }] *)
  day : jsstring;
  hours : number;
  day_sessions : nat
}.

Record Slice := mkSlice {                (* [{ name, value, color }] *)
  slice_name : jsstring;
  slice_value : number;
  slice_color : jsstring
}.

Record StreakDay := mkStreakDay {        (* [{ date, studied }] *)
  date : jsstring;
  studied : bool
}.

Record AnalyticsData := mkAnalyticsData {
  studyHoursData : list DayHours;
  taskCompletionData : list Slice;
  sessionData : list object;
  streakData : list StreakDay;
  stats : object
}.

Record State := mkState {
  analyticsData : option AnalyticsData;
  loading : bool;
  console : list error
}.

Definition setLoading (v : bool) (st : State) : State :=
  {| analyticsData := analyticsData st; loading := v; console := console st |}.
Definition setAnalyticsData (v : AnalyticsData) (st : State) : State :=
  {| analyticsData := Some v; loading := loading st; console := console st |}.
Definition console_error (e : error) (st : State) : State :=
  {| analyticsData := analyticsData st; loading := loading st;
     console := console st ++ [e] |}.

(** One day, in milliseconds. *)
Definition one_day : Z := 24 * 60 * 60 * 1000.

(** [new Date(v).getTime()] *)
Definition newDate `{Platform} (v : jsval) : jsnumber :=
  match v with
  | String s => Date_parse s
  | Number (Finite q) => Num (if Qle_bool 0 q then Qfloor q else Qceiling q)
  | Null => Num 0
  | Boolean b => Num (if b then 1 else 0)
  | _ => NaN
  end.

(** [d >= t] and [d <= t] between dates; false for an invalid date. *)
Definition date_ge (d : jsnumber) (t : Z) : bool :=
  match d with Num z => t <=? z | NaN => false end.
Definition date_le (d : jsnumber) (t : Z) : bool :=
  match d with Num z => z <=? t | NaN => false end.

(** The operand of an arithmetic operator, as a number.  (A string
    operand of [+] would concatenate; no sum below is given one by the
    rows of the store.) *)
Definition toNumber `{Platform} (v : jsval) : number :=
  match v with
  | Undefined => NotANumber
  | Null => of_Z 0
  | Boolean b => of_Z (if b then 1 else 0)
  | Number n => n
  | String s => StringToNumber s
  | Object _ => NotANumber
  end.

(** [session.completedAt && new Date(session.completedAt) >= since] *)
Definition completed_since `{Platform} (since : Z) (session : object) : bool :=
  truthy (get_own session "completedAt")
  && date_ge (newDate (get_own session "completedAt")) since.

(** [Math.round(x * 10) / 10] *)
Definition round1 (x : number) : number :=
  number_div (Math_round (number_mul x (of_Z 10))) (of_Z 10).

(** The sessions of [filteredSessions] completed on the local day of
    [now - i] days, between its first and its last millisecond. *)
Definition daySessions `{Platform} (now : Z) (i : nat) (filteredSessions : list object)
    : list object :=
  let date := now - Z.of_nat i * one_day in
  let dayStart := Date_setHours date 0 0 0 0 in
  let dayEnd := Date_setHours dayStart 23 59 59 999 in
  filter (fun session =>
            let sessionDate := newDate (get_own session "completedAt") in
            date_ge sessionDate dayStart && date_le sessionDate dayEnd = true)
         filteredSessions.

(** The body of the loop that fills [studyHoursData], for one [i]. *)
Definition studyHoursEntry `{Platform} (timeRange : TimeRange) (now : Z)
    (filteredSessions : list object) (i : nat) : DayHours :=
  let date := now - Z.of_nat i * one_day in
  let dayName :=
    toLocaleDateString (Num date)
      match timeRange with
      | week => WeekdayShort
      | _ => MonthShortDayNumeric
      end in
  let daySessions := daySessions now i filteredSessions in
  let dayHours :=
    fold_left (fun total session =>
                 number_add total
                   (number_div (toNumber (get_own session "totalFocusMinutes")) (of_Z 60)))
              daySessions (of_Z 0) in
  {| day := dayName; hours := round1 dayHours; day_sessions := length daySessions |}.

(** [for (let i = n - 1; i >= 0; i--) { ...push(entry(i)) }] *)
Fixpoint count_down {A} (entry : nat -> A) (n : nat) : list A :=
  match n with
  | O => []
  | S i => entry i :: count_down entry i
  end.

Definition daysToShow (timeRange : TimeRange) : nat :=
  match timeRange with
  | week => 7
  | month => 30
  | year => 365
  end.

Definition studyHours `{Platform} (timeRange : TimeRange) (now : Z)
    (filteredSessions : list object) : list DayHours :=
  count_down (studyHoursEntry timeRange now filteredSessions) (daysToShow timeRange).

(** The body of the loop that fills [streakData], for one [i].  The
    second [setHours] has moved [date] to the end of its day by the time
    it is printed. *)
Definition streakEntry `{Platform} (now : Z) (sessions : list object) (i : nat)
    : StreakDay :=
  let date := now - Z.of_nat i * one_day in
  let dayStart := Date_setHours date 0 0 0 0 in
  let dayEnd := Date_setHours dayStart 23 59 59 999 in
  let dayHadSession :=
    existsb (fun session =>
               if truthy (get_own session "completedAt") then
                 let sessionDate := newDate (get_own session "completedAt") in
                 date_ge sessionDate dayStart && date_le sessionDate dayEnd
               else false)
            sessions in
  {| date := before 84%N (toISOString dayEnd);
     studied := dayHadSession |}.

Definition sessionEntry `{Platform} (session : object) : object :=
  [ ("id", get_own session "id");
    ("name", get_own session "name");
    ("date", String (toLocaleDateString (newDate (get_own session "startTime"))
                       LocaleDefault));
    ("duration", get_own session "totalFocusMinutes");
    ("tasksCompleted", get_own session "tasksCompleted");
    ("pomodoroType", get_own session "pomodoroType") ].

Definition sum_by `{Platform} (f : number -> number) (key : string)
    (sessions : list object) : number :=
  fold_left (fun total session => number_add total (f (toNumber (get_own session key))))
            sessions (of_Z 0).

(** The data set when the fetch, or anything after it, throws. *)
Definition fallback : AnalyticsData :=
  {| studyHoursData := [];
     taskCompletionData :=
       [ mkSlice (utf16 "Completed") (of_Z 0) (utf16 "var(--chart-1)");
         mkSlice (utf16 "Pending") (of_Z 100) (utf16 "var(--chart-2)") ];
     sessionData := [];
     streakData := [];
     stats :=
       [ ("totalStudyTime", Number (of_Z 0));
         ("tasksCompleted", Number (of_Z 0));
         ("cardsMastered", Number (of_Z 0));
         ("studyStreak", Number (of_Z 0));
         ("totalSessions", Number (of_Z 0));
         ("avgSessionLength", Number (of_Z 0));
         ("thisWeekHours", Number (of_Z 0));
         ("thisWeekSessions", Number (of_Z 0)) ] |}.

(** The [try] block of [loadAnalyticsData].  [fetched] is what the race
    between the two fetches and the 20 second timeout settles with: the
    pair of responses, or the error of the first to reject. *)
Definition load `{Platform} (timeRange : TimeRange) (user : jsval)
    (fetched : result (Analytics * list object)) (now : Z) : M State unit :=
  modify (setLoading true) ;;;
  responses <- await fetched ;;
  let sessions := snd responses in
  let weekAgo := now - 7 * one_day in
  let monthAgo := now - 30 * one_day in
  let filterDate :=
    match timeRange with
    | week => weekAgo
    | month => monthAgo
    | year => now - 365 * one_day
    end in
  let filteredSessions := filter (fun s => completed_since filterDate s = true) sessions in
  let studyHoursData := studyHours timeRange now filteredSessions in
  user_stats <- get_prop user "stats" ;;
  completedTasks <- get_prop user_stats "tasksCompleted" ;;
  let completedTasks := toNumber completedTasks in
  let totalTasks := number_add completedTasks (of_Z 10) in
  let percent part :=
    if number_gt totalTasks (of_Z 0)
    then Math_round (number_mul (number_div part totalTasks) (of_Z 100))
    else of_Z 0 in
  let taskCompletionData :=
    [ mkSlice (utf16 "Completed") (percent completedTasks) (utf16 "var(--chart-1)");
      mkSlice (utf16 "Pending") (percent (number_sub totalTasks completedTasks))
        (utf16 "var(--chart-2)") ] in
  let sessionData := sessionEntry <$> filteredSessions in
  let streakData := count_down (streakEntry now sessions) 30 in
  let thisWeekSessions := filter (fun s => completed_since weekAgo s = true) sessions in
  let thisWeekHours :=
    sum_by (fun m => number_div m (of_Z 60)) "totalFocusMinutes" thisWeekSessions in
  let avgSessionLength :=
    match sessions with
    | [] => of_Z 0
    | _ :: _ =>
        number_div (sum_by (fun m => m) "totalFocusMinutes" sessions)
          (of_nat (length sessions))
    end in
  modify (setAnalyticsData
    {| studyHoursData := studyHoursData;
       taskCompletionData := taskCompletionData;
       sessionData := take 10 sessionData;
       streakData := streakData;
       stats :=
         set_own
           (set_own
              (set_own
                 (set_own (spread user_stats)
                    "totalSessions" (Number (of_nat (length sessions))))
                 "avgSessionLength" (Number (Math_round avgSessionLength)))
              "thisWeekHours" (Number (round1 thisWeekHours)))
           "thisWeekSessions" (Number (of_nat (length thisWeekSessions))) |}).

(** [loadAnalyticsData]: [try { ... } catch (error) { ... } finally { ... }] *)
Definition loadAnalyticsData `{Platform} (timeRange : TimeRange) (user : jsval)
    (fetched : result (Analytics * list object)) (now : Z) : M State unit :=
  try_catch (load timeRange user fetched now)
    (fun e =>
       modify (console_error e) ;;;
       modify (setAnalyticsData fallback)) ;;;
  modify (setLoading false).

End AnalyticsPage.

(** ** Regular expressions

    The expressions of the program use character classes, sequence and
    repetition only.  A test asks whether some match exists; derivatives
    answer that without backtracking. *)

Inductive regex : Type :=
| Fail
| Eps
| Class (p : code_unit -> bool)
| Seq (r1 r2 : regex)
| Alt (r1 r2 : regex)
| Star (r : regex).

(** [r+] *)
Definition Plus (r : regex) : regex := Seq r (Star r).

Fixpoint nullable (r : regex) : bool :=
  match r with
  | Fail => false
  | Eps => true
  | Class _ => false
  | Seq r1 r2 => nullable r1 && nullable r2
  | Alt r1 r2 => nullable r1 || nullable r2
  | Star _ => true
  end.

Fixpoint derive (c : code_unit) (r : regex) : regex :=
  match r with
  | Fail => Fail
  | Eps => Fail
  | Class p => if p c then Eps else Fail
  | Seq r1 r2 =>
      if nullable r1
      then Alt (Seq (derive c r1) r2) (derive c r2)
      else Seq (derive c r1) r2
  | Alt r1 r2 => Alt (derive c r1) (derive c r2)
  | Star r' => Seq (derive c r') (Star r')
  end.

(** [/^r$/.test(s)] *)
Definition test_whole (r : regex) (s : jsstring) : bool :=
  nullable (fold_left (fun r c => derive c r) s r).

(** [/r/.test(s)]: a match anywhere in [s]. *)
Definition anything : regex := Star (Class (fun _ => true)).
Definition test (r : regex) (s : jsstring) : bool :=
  test_whole (Seq anything (Seq r anything)) s.

(** The strings an expression matches. *)
Inductive matches : regex -> jsstring -> Prop :=
| matches_eps : matches Eps []
| matches_class p c : p c = true -> matches (Class p) [c]
| matches_seq r1 r2 s1 s2 :
    matches r1 s1 -> matches r2 s2 -> matches (Seq r1 r2) (s1 ++ s2)
| matches_alt_l r1 r2 s : matches r1 s -> matches (Alt r1 r2) s
| matches_alt_r r1 r2 s : matches r2 s -> matches (Alt r1 r2) s
| matches_star_nil r : matches (Star r) []
| matches_star_more r s1 s2 :
    matches r s1 -> matches (Star r) s2 -> matches (Star r) (s1 ++ s2).

(** ** Signing up and signing in ([client.tsx]) *)

Module Auth.

(** [[^\s@]] *)
Definition plain (c : code_unit) : bool := negb (isWhiteSpace c || (c =? 64)%N).

(** [/^[^\s@]+@[^\s@]+\.[^\s@]+$/] *)
Definition emailRegex : regex :=
  Seq (Plus (Class plain))
    (Seq (Class (N.eqb 64))
       (Seq (Plus (Class plain))
          (Seq (Class (N.eqb 46)) (Plus (Class plain))))).

Definition validateEmail (email : jsstring) : bool := test_whole emailRegex email.

(** [[A-Z]], [[a-z]], [\d] and the class of special characters, by their
    code units: [! @ # $ % ^ & * ( ) , . ?], the double quote, and
    [: { } | < >]. *)
Definition upper (c : code_unit) : bool := ((65 <=? c) && (c <=? 90))%N.
Definition lower (c : code_unit) : bool := ((97 <=? c) && (c <=? 122))%N.
Definition digit (c : code_unit) : bool := ((48 <=? c) && (c <=? 57))%N.
Definition special (c : code_unit) : bool :=
  existsb (N.eqb c)
    [33; 64; 35; 36; 37; 94; 38; 42; 40; 41; 44; 46; 63; 34; 58; 123; 125; 124; 60; 62]%N.

(** [validatePassword(password)]: the pair [(isValid, errors)]. *)
Definition validatePassword (password : jsstring) : bool * list string :=
  let errors : list string := [] in
  let errors :=
    if (length password <? 8)%nat
    then errors ++ ["Password must be at least 8 characters long"%string]
    else errors in
  let errors :=
    if negb (test (Class upper) password)
    then errors ++ ["Password must contain at least one uppercase letter"%string]
    else errors in
  let errors :=
    if negb (test (Class lower) password)
    then errors ++ ["Password must contain at least one lowercase letter"%string]
    else errors in
  let errors :=
    if negb (test (Class digit) password)
    then errors ++ ["Password must contain at least one number"%string]
    else errors in
  let errors :=
    if negb (test (Class special) password)
    then errors ++ ["Password must contain at least one special character"%string]
    else errors in
  ((length errors =? 0)%nat, errors).

(** [errors.join(separator)] *)
Definition join (separator : string) (errors : list string) : string :=
  String.concat separator errors.

(** [message.includes(text)] *)
Definition includes (text message : string) : bool :=
  match String.index 0 text message with
  | Some _ => true
  | None => false
  end.

(** What is asked of the authentication service. *)
Inductive AuthRequest : Type :=
| SignUpRequest (email password full_name auth_provider emailRedirectTo : jsstring)
| SignInWithPassword (email password : jsstring).

(** A call of the service: the request is sent, and the service answers
    with data or with an error and its message. *)
Definition ask {A} (request : AuthRequest) (answer : string + A)
    : M (list AuthRequest) (string + A) :=
  fun sent => (sent ++ [request], Ok answer).

(** [signUp(email, password, fullName)]; [origin] is
    [window.location.origin]. *)
Definition signUp {A} (origin : jsstring) (answer : string + A)
    (email password fullName : jsstring) : M (list AuthRequest) A :=
  if negb (validateEmail email)
  then throw (Error "Please enter a valid email address")
  else
    let passwordValidation := validatePassword password in
    if negb (fst passwordValidation)
    then throw (Error (join ". " (snd passwordValidation)))
    else
      if match trim fullName with [] => true | _ :: _ => false end
         || (length fullName <? 2)%nat
      then throw (Error "Full name must be at least 2 characters long")
      else
        response <- ask (SignUpRequest email password (trim fullName) (utf16 "email")
                           origin) answer ;;
        match response with
        | inl message =>
            if includes "email_address_not_confirmed" message
            then throw (Error
                   "Please check your email and click the confirmation link before signing in.")
            else throw (Error message)
        | inr data => ret data
        end.

(** [signIn(email, password)] *)
Definition signIn {A} (answer : string + A) (email password : jsstring)
    : M (list AuthRequest) A :=
  if negb (validateEmail email)
  then throw (Error "Please enter a valid email address")
  else
    match password with
    | [] => throw (Error "Password is required")
    | _ :: _ =>
        response <- ask (SignInWithPassword email password) answer ;;
        match response with
        | inl message =>
            if includes "email_address_not_confirmed" message
            then throw (Error
                   "Please check your email and click the confirmation link to verify your account before signing in.")
            else if includes "Invalid login credentials" message
            then throw (Error
                   "Invalid email or password. Please check your credentials and try again.")
            else throw (Error message)
        | inr data => ret data
        end
    end.

End Auth.

(** ** The user profile ([client.tsx]) *)

Module Profile.
Import Client.

(** The user the authentication service reports, with the fields of its
    metadata the code reads and the providers of its identities. *)
Record AuthUser := mkAuthUser {
  au_id : jsstring;
  au_email : option jsstring;
  meta_full_name : option jsstring;
  meta_avatar_url : option jsstring;
  meta_picture : option jsstring;
  meta_auth_provider : option jsstring;
  identities : list jsstring
}.

(** [a || b] on optional strings: [a] unless it is missing or empty. *)
Definition or_else (a b : option jsstring) : option jsstring :=
  match a with
  | Some (_ :: _) => a
  | _ => b
  end.

(** [getAuthProvider(authUser)] *)
Definition getAuthProvider (authUser : AuthUser) : jsstring :=
  if existsb (fun provider => bool_decide (provider = utf16 "google")) (identities authUser)
  then utf16 "google"
  else if existsb (fun provider => bool_decide (provider = utf16 "apple"))
            (identities authUser)
  then utf16 "apple"
  else utf16 "email".

Record UserData := mkUserData {
  ud_id : jsstring;
  ud_email : option jsstring;
  ud_full_name : option jsstring;
  ud_avatar_url : option jsstring;
  ud_auth_provider : option jsstring;
  ud_preferences : AnalyticsPage.Preferences
}.

(** The row [createUserProfile] asks to insert. *)
Definition userData (authUser : AuthUser) : UserData :=
  {| ud_id := au_id authUser;
     ud_email := au_email authUser;
     ud_full_name :=
       or_else (or_else (meta_full_name authUser) (before 64%N <$> au_email authUser))
         (Some (utf16 "User"));
     ud_avatar_url := or_else (meta_avatar_url authUser) (meta_picture authUser);
     ud_auth_provider :=
       or_else (meta_auth_provider authUser) (Some (getAuthProvider authUser));
     ud_preferences :=
       {| AnalyticsPage.darkMode := false;
          AnalyticsPage.notifications := true;
          AnalyticsPage.defaultPomodoroTime := 25;
          AnalyticsPage.defaultShortBreak := 5;
          AnalyticsPage.defaultLongBreak := 15;
          AnalyticsPage.studyGoal := 20 |} |}.

(** The error a query resolves with, and what the functions throw: an
    [Error] made here, or the error of a query as it came. *)
Record QueryError := mkQueryError {
  error_code : string;
  error_message : string
}.

Inductive thrown : Type :=
| Made (message : string)
| Passed (e : QueryError).

Definition message_of (t : thrown) : string :=
  match t with
  | Made message => message
  | Passed e => error_message e
  end.

(** [createUserProfile(authUser)]; [inserted] is the error of the insert
    into [users], if any. *)
Definition createUserProfile (env : Env) (authUser : AuthUser)
    (inserted : option QueryError) (db : Db) : Db * (thrown + UserData) :=
  match inserted with
  | Some e => (db, inl (Passed e))
  | None => (fst (initializeUserAnalytics env (au_id authUser) db), inr (userData authUser))
  end.

(** [getUserProfile()]; [user] is the signed-in user, [selected] the
    outcome of the select on [users], [inserted] and [inserted_again] the
    outcomes of the insert made in the [try] block and of the one made in
    the [catch] block. *)
Definition getUserProfile (env : Env) (user : option AuthUser)
    (selected : QueryError + UserData) (inserted inserted_again : option QueryError)
    (db : Db) : Db * (thrown + UserData) :=
  match user with
  | None => (db, inl (Made "Not authenticated"))
  | Some user =>
      let tried :=
        match selected with
        | inr data => (db, inr data)
        | inl e =>
            if String.eqb (error_code e) "PGRST116"
            then createUserProfile env user inserted db
            else if String.eqb (error_code e) "PGRST205"
            then (db, inl (Made "DATABASE_NOT_SETUP"))
            else (db, inl (Passed e))
        end in
      match tried with
      | (db', inr data) => (db', inr data)
      | (db', inl error) =>
          if String.eqb (message_of error) "DATABASE_NOT_SETUP"
          then (db', inl error)
          else
            match createUserProfile env user inserted_again db' with
            | (db'', inr data) => (db'', inr data)
            | (db'', inl _) => (db'', inl (Made "DATABASE_NOT_SETUP"))
            end
      end
  end.

End Profile.

(** ** The setup checker *)

Module Setup.

Record SetupStatus := mkSetupStatus {
  tablesExist : bool;
  authEnabled : bool;
  canConnect : bool;
  errors : list string
}.

(** What a probe of the service comes back with: an exception and its
    message, or the error of the query, if any. *)
Inductive probe : Type :=
| Raised (message : string)
| Answered (error : option Profile.QueryError).

(** [checkDatabaseSetup()]; [tables] is the outcome of the select on
    [users], [auth] the message of the exception [getSession()] raised, if
    any. *)
Definition checkDatabaseSetup (tables : probe) (auth : option string) : SetupStatus :=
  let status := mkSetupStatus false false false [] in
  let status :=
    match tables with
    | Answered None =>
        mkSetupStatus true (authEnabled status) true (errors status)
    | Answered (Some error) =>
        if String.eqb (Profile.error_code error) "PGRST205"
        then mkSetupStatus false (authEnabled status) true
               (errors status
                ++ ["Database tables not found. Please run the database schema setup."%string])
        else mkSetupStatus (tablesExist status) (authEnabled status) (canConnect status)
               (errors status
                ++ [("Database connection error: " ++ Profile.error_message error)%string])
    | Raised message =>
        mkSetupStatus (tablesExist status) (authEnabled status) (canConnect status)
          (errors status ++ [("Failed to check database: " ++ message)%string])
    end in
  match auth with
  | None => mkSetupStatus (tablesExist status) true (canConnect status) (errors status)
  | Some message =>
      mkSetupStatus (tablesExist status) (authEnabled status) (canConnect status)
        (errors status ++ [("Auth configuration error: " ++ message)%string])
  end.

Definition cannot_connect : string :=
  "🔴 Cannot connect to Supabase. Check your URL and API keys.".
Definition tables_missing : string :=
  "🔴 Database tables missing. Run the SQL schema from /database-schema.sql in your Supabase SQL Editor.".
Definition where_to_go : string :=
  "📋 Go to: Supabase Dashboard → Your Project → SQL Editor → Paste schema → Run".
Definition auth_not_configured : string :=
  "🔴 Authentication not properly configured.".
Definition setup_complete : string := "✅ Database setup complete!".

(** [getSetupInstructions(status)] *)
Definition getSetupInstructions (status : SetupStatus) : list string :=
  let instructions : list string := [] in
  let instructions :=
    if negb (canConnect status) then instructions ++ [cannot_connect] else instructions in
  let instructions :=
    if negb (tablesExist status)
    then instructions ++ [tables_missing] ++ [where_to_go]
    else instructions in
  let instructions :=
    if negb (authEnabled status)
    then instructions ++ [auth_not_configured]
    else instructions in
  if tablesExist status && authEnabled status && canConnect status
  then instructions ++ [setup_complete]
  else instructions.

End Setup.

(** ** A platform for the examples

    Its local clock is UTC, and it knows the few timestamps the examples
    mention, all of the second week of 1970; it prints and parses nothing
    else. *)

Module Fixture.

Definition timestamps : list (string * Z) :=
  [ ("1970-01-01T00:00:00.000Z", 0);
    ("1970-01-01T00:01:00.000Z", 60000);
    ("1970-01-01T00:30:00.000Z", 1800000);
    ("1970-01-08T09:00:00.000Z", 637200000);
    ("1970-01-08T10:00:00.000Z", 640800000);
    ("1970-01-08T12:00:00.000Z", 648000000) ].

Fixpoint parse (table : list (string * Z)) (s : jsstring) : jsnumber :=
  match table with
  | (text, t) :: table' => if bool_decide (s = utf16 text) then Num t else parse table' s
  | [] => NaN
  end.

Fixpoint print (table : list (string * Z)) (t : Z) : jsstring :=
  match table with
  | (text, t') :: table' => if t =? t' then utf16 text else print table' t
  | [] => []
  end.

Definition weekday (t : Z) : string :=
  nth (Z.to_nat ((t / AnalyticsPage.one_day + 4) mod 7))
      ["Sun"; "Mon"; "Tue"; "Wed"; "Thu"; "Fri"; "Sat"]%string EmptyString.

#[export] Instance utc : Platform := {|
  Date_parse := parse timestamps;
  Date_setHours t h m s ms :=
    t / AnalyticsPage.one_day * AnalyticsPage.one_day
    + ((h * 60 + m) * 60 + s) * 1000 + ms;
  toLocaleDateString t f :=
    match t, f with
    | Num t, WeekdayShort => utf16 (weekday t)
    | Num _, _ => []
    | NaN, _ => utf16 "Invalid Date"
    end;
  toISOString := print timestamps;
  StringToNumber s := match s with [] => of_Z 0 | _ => NotANumber end
|}.

(** The database reads the timestamps of the table above. *)
Definition reads (s : jsstring) : bool :=
  match parse timestamps s with
  | Num _ => true
  | NaN => false
  end.

(** The text V8 gives for the functions of [Object.prototype]. *)
Definition native (name : jsstring) : jsstring :=
  utf16 "function "
  ++ (if bool_decide (name = utf16 "constructor") then utf16 "Object" else name)
  ++ utf16 "() { [native code] }".

Definition alice : jsstring := utf16 "alice".
Definition signed_in : Client.Env :=
  {| Client.auth_user := Some alice;
     Client.now_iso := utf16 "1970-01-08T12:00:00.000Z";
     Client.timestamptz := reads;
     Client.Function_toString := native |}.

(** A session of one hour, closed on 8 January 1970 at 10:00. *)
Definition math : Client.StudySession :=
  {| Client.session_id := utf16 "s1";
     Client.session_user_id := alice;
     Client.session_name := utf16 "Math";
     Client.subject := utf16 "Math";
     Client.duration := 60;
     Client.start_time := utf16 "1970-01-08T09:00:00.000Z";
     Client.end_time := Some (utf16 "1970-01-08T10:00:00.000Z");
     Client.session_created_at := utf16 "1970-01-08T09:00:00.000Z" |}.

(** An open session started one minute past the epoch. *)
Definition early : Client.StudySession :=
  {| Client.session_id := utf16 "s0";
     Client.session_user_id := alice;
     Client.session_name := utf16 "Reading";
     Client.subject := utf16 "General Study";
     Client.duration := 0;
     Client.start_time := utf16 "1970-01-01T00:01:00.000Z";
     Client.end_time := None;
     Client.session_created_at := utf16 "1970-01-01T00:01:00.000Z" |}.

Definition reading : Client.Todo :=
  {| Client.todo_id := utf16 "t1";
     Client.todo_user_id := alice;
     Client.title := utf16 "Finish reading";
     Client.description := None;
     Client.status := Client.pending;
     Client.todo_created_at := utf16 "1970-01-08T09:00:00.000Z";
     Client.completed_at := None |}.


Definition store (t : Client.Todo) : Client.Db :=
  {| Client.sessions := {[ Client.session_id math := math ]};
     Client.todos := {[ Client.todo_id t := t ]};
     Client.analytics := ∅ |}.

Definition profile : AnalyticsPage.User :=
  {| AnalyticsPage.user_id := alice;
     AnalyticsPage.email := utf16 "alice@example.org";
     AnalyticsPage.full_name := utf16 "Alice";
     AnalyticsPage.avatar_url := None;
     AnalyticsPage.auth_provider := AnalyticsPage.email_provider;
     AnalyticsPage.user_created_at := utf16 "1970-01-01T00:00:00.000Z";
     AnalyticsPage.preferences :=
       {| AnalyticsPage.darkMode := false; AnalyticsPage.notifications := true;
          AnalyticsPage.defaultPomodoroTime := 25; AnalyticsPage.defaultShortBreak := 5;
          AnalyticsPage.defaultLongBreak := 15; AnalyticsPage.studyGoal := 20 |} |}.

Definition timer : TimerPage.State := TimerPage.initial 25 5 15.

(** The page at the end of the fourth work phase of a session. *)
Definition working : TimerPage.State :=
  {| TimerPage.timeLeft := Num 0; TimerPage.isActive := true;
     TimerPage.currentPhase := TimerPage.work; TimerPage.cycleCount := 3;
     TimerPage.currentSession := Some early; TimerPage.showSessionDialog := false;
     TimerPage.sessionName := utf16 "Reading";
     TimerPage.sessionSubject := utf16 "General Study";
     TimerPage.workDuration := 25; TimerPage.shortBreakDuration := 5;
     TimerPage.longBreakDuration := 15; TimerPage.console := [] |}.

(** The update that closes a session in which no minute was studied. *)
Definition closing : Client.StudySessionUpdates :=
  {| Client.upd_session_name := None; Client.upd_subject := None;
     Client.upd_duration := Some 0; Client.upd_start_time := None;
     Client.upd_end_time := Some (utf16 "1970-01-08T12:00:00.000Z") |}.

Definition labelled (t : jsstring) : Client.TodoInput :=
  {| Client.in_title := t; Client.in_description := None;
     Client.in_status := Client.pending; Client.in_completed_at := None |}.

(** A session object with the properties the analytics page reads. *)
Definition completed_session : object :=
  [ ("id", String (utf16 "s1"));
    ("name", String (utf16 "Math"));
    ("completedAt", String (utf16 "1970-01-08T10:00:00.000Z"));
    ("totalFocusMinutes", Number (of_Z 90)) ].

Definition blank_page : AnalyticsPage.State :=
  {| AnalyticsPage.analyticsData := None; AnalyticsPage.loading := true;
     AnalyticsPage.console := [] |}.

End Fixture.

(** ** Further values for the examples *)

Module Samples.
Import Fixture.

Definition signed_out : Client.Env :=
  {| Client.auth_user := None;
     Client.now_iso := utf16 "1970-01-08T12:00:00.000Z";
     Client.timestamptz := reads;
     Client.Function_toString := native |}.

Definition bob : jsstring := utf16 "bob".
Definition as_bob : Client.Env :=
  {| Client.auth_user := Some bob;
     Client.now_iso := utf16 "1970-01-08T12:00:00.000Z";
     Client.timestamptz := reads;
     Client.Function_toString := native |}.

(** A session of physics about to be started. *)
Definition physics : Client.StudySessionInput :=
  {| Client.in_session_name := utf16 "Waves";
     Client.in_subject := utf16 "Physics";
     Client.in_duration := 0;
     Client.in_start_time := utf16 "1970-01-08T12:00:00.000Z";
     Client.in_end_time := None |}.

(** The task panel listing the one todo of the store. *)
Definition listing : TimerPage.Panel :=
  {| TimerPage.store := store reading;
     TimerPage.tasks := [reading];
     TimerPage.newTaskTitle := utf16 " Review notes";
     TimerPage.newTaskDescription := [];
     TimerPage.showTaskForm := true;
     TimerPage.panel_console := [] |}.

(** The page three seconds before the end of a work phase. *)
Definition nearly : TimerPage.State := TimerPage.setTimeLeft (Num 3) working.

(** A user object that carries [stats]. *)
Definition with_stats : object :=
  [ ("id", String alice);
    ("stats", Object [ ("tasksCompleted", Number (of_Z 5)) ]) ].

(** The session [math] while it is open, no minute stored yet, and a
    store that holds it. *)
Definition open_math : Client.StudySession :=
  {| Client.session_id := utf16 "s1";
     Client.session_user_id := alice;
     Client.session_name := utf16 "Math";
     Client.subject := utf16 "Math";
     Client.duration := 0;
     Client.start_time := utf16 "1970-01-08T09:00:00.000Z";
     Client.end_time := None;
     Client.session_created_at := utf16 "1970-01-08T09:00:00.000Z" |}.

Definition desk : Client.Db :=
  {| Client.sessions := {[ Client.session_id open_math := open_math ]};
     Client.todos := {[ Client.todo_id reading := reading ]};
     Client.analytics := ∅ |}.

(** An aggregate of Alice: one session of 25 minutes of Math; and the
    store [desk] with it. *)
Definition tally : Client.Analytics :=
  {| Client.analytics_id := utf16 "a1";
     Client.analytics_user_id := alice;
     Client.total_sessions := 1;
     Client.total_study_time := 25;
     Client.total_completed_tasks := 0;
     Client.subjects_breakdown := {[ utf16 "Math" := Client.Minutes 25 ]};
     Client.updated_at := utf16 "1970-01-08T10:00:00.000Z" |}.

Definition ledger : Client.Db :=
  {| Client.sessions := {[ Client.session_id open_math := open_math ]};
     Client.todos := {[ Client.todo_id reading := reading ]};
     Client.analytics := {[ alice := tally ]} |}.

(** The update that closes [open_math] after 30 minutes, naming its
    subject. *)
Definition closing_math : Client.StudySessionUpdates :=
  {| Client.upd_session_name := None; Client.upd_subject := Some (utf16 "Math");
     Client.upd_duration := Some 30; Client.upd_start_time := None;
     Client.upd_end_time := Some (utf16 "1970-01-08T12:00:00.000Z") |}.

(** The page at the end of the first work phase of [open_math]. *)
Definition studying : TimerPage.State :=
  TimerPage.setCurrentSession (Some open_math) working.

Definition address : jsstring := utf16 "alice@example.org".
Definition password : jsstring := utf16 "Passw0rd!".
Definition origin : jsstring := utf16 "https://study.example.org".

End Samples.

(** * Properties *)

(** ** The client: reading and writing the aggregate *)

Section ClientFacts.
Import Client.

Lemma getAnalytics_unfold env db :
  getAnalytics env db =
    match auth_user env with
    | None => (db, Throw (Error "Not authenticated"))
    | Some uid =>
        match analytics db !! uid with
        | Some data => (db, Ok data)
        | None => getAnalytics env (fst (initializeUserAnalytics env uid db))
        end
    end.
Proof.
  funelim (getAnalytics env db).
  - rewrite e. reflexivity.
  - rewrite Hu, e. reflexivity.
  - rewrite Hu, Hrow. reflexivity.
Qed.

Lemma set_analytics_id db : set_analytics (fun tbl => tbl) db = db.
Proof. by destruct db. Qed.


Lemma current_set_sessions env uid f db :
  current env uid (set_sessions f db) = current env uid db.
Proof. reflexivity. Qed.

Lemma current_insert env uid row db :
  current env uid (set_analytics <[uid := row]> db) = row.
Proof. unfold current. simpl. by rewrite lookup_insert_eq. Qed.

Context (env : Env) (uid : jsstring) (Hauth : auth_user env = Some uid).

Lemma getUser_signed_in db : getUser env db = (db, Ok uid).
Proof using Hauth. unfold getUser. rewrite Hauth. reflexivity. Qed.

(** The row is there: it is returned and nothing is written. *)
Lemma getAnalytics_found db row :
  analytics db !! uid = Some row -> getAnalytics env db = (db, Ok row).
Proof using Hauth.
  intros Hrow. rewrite getAnalytics_unfold, Hauth, Hrow. reflexivity.
Qed.

(** The row is missing: the zeroed row is written, then returned by the
    second call. *)
Lemma getAnalytics_created db :
  analytics db !! uid = None ->
  getAnalytics env db =
    (set_analytics <[uid := zeroed env uid db]> db, Ok (zeroed env uid db)).
Proof using Hauth.
  intros Hrow. rewrite getAnalytics_unfold, Hauth, Hrow.
  unfold initializeUserAnalytics. rewrite Hrow. simpl.
  apply getAnalytics_found. simpl. apply lookup_insert_eq.
Qed.

(** For a signed-in caller [getAnalytics] always returns: it resolves to
    the current aggregate and leaves it stored. *)
Lemma getAnalytics_current db :
  getAnalytics env db =
    (set_analytics <[uid := current env uid db]> db, Ok (current env uid db)).
Proof using Hauth.
  unfold current. destruct (analytics db !! uid) as [row|] eqn:Hrow.
  - rewrite (getAnalytics_found _ _ Hrow). f_equal.
    destruct db as [ss ts an]. unfold set_analytics. simpl in *.
    f_equal. symmetry. by apply insert_id.
  - by apply getAnalytics_created.
Qed.

(** The update of the aggregate that closes a session: written when the
    table takes the two counters, and otherwise thrown back with nothing
    written but the row a first read creates. *)
Lemma updateAnalyticsAfterSession_run s d db :
  analytics_refuse (total_sessions (current env uid db) + 1)
    (total_study_time (current env uid db) + d) = None ->
  updateAnalyticsAfterSession env s d db =
    (set_analytics <[uid := after_session env s d (current env uid db)]> db, Ok tt).
Proof using Hauth.
  intros Htaken. unfold updateAnalyticsAfterSession, bind.
  rewrite getUser_signed_in, getAnalytics_current, Htaken.
  unfold modify, set_analytics. simpl. rewrite lookup_insert_eq.
  rewrite insert_insert_eq. reflexivity.
Qed.

Lemma updateAnalyticsAfterSession_refused s d db e :
  analytics_refuse (total_sessions (current env uid db) + 1)
    (total_study_time (current env uid db) + d) = Some e ->
  updateAnalyticsAfterSession env s d db =
    (set_analytics <[uid := current env uid db]> db, Throw e).
Proof using Hauth.
  intros Hrefused. unfold updateAnalyticsAfterSession, bind.
  rewrite getUser_signed_in, getAnalytics_current, Hrefused. reflexivity.
Qed.

Lemma updateAnalyticsAfterTaskCompletion_run db :
  updateAnalyticsAfterTaskCompletion env db =
    (set_analytics <[uid := after_task_completion env (current env uid db)]> db, Ok tt).
Proof using Hauth.
  unfold updateAnalyticsAfterTaskCompletion, bind.
  rewrite getUser_signed_in, getAnalytics_current.
  unfold modify, set_analytics. simpl. rewrite lookup_insert_eq.
  rewrite insert_insert_eq. reflexivity.
Qed.

(** An update of a todo the caller owns writes the row and returns it. *)
Lemma update_todo_row_owned todoId updates row db :
  todos db !! todoId = Some row -> todo_user_id row = uid ->
  update_todo_row env uid todoId updates db =
    (set_todos <[todoId :=
         update_todo_completed_at env row (apply_todo_updates updates row)]> db,
     Ok (update_todo_completed_at env row (apply_todo_updates updates row))).
Proof.
  intros Hrow Hown. unfold update_todo_row, bind, get. rewrite Hrow.
  rewrite decide_True by done. reflexivity.
Qed.



End ClientFacts.

(** Whatever the caller and whatever the outcome, an update of a todo that
    does not carry the status [completed] leaves the table [analytics] as
    it was. *)
Lemma updateTodo_frame env todoId updates db :
  Client.upd_status updates <> Some Client.completed ->
  Client.analytics (fst (Client.updateTodo env todoId updates db)) = Client.analytics db.
Proof.
  intros Hst. unfold Client.updateTodo, bind, Client.getUser.
  destruct (Client.auth_user env) as [uid|]; [|reflexivity].
  simpl. unfold Client.update_todo_row, bind, get.
  destruct (Client.todos db !! todoId) as [row|]; [|reflexivity].
  destruct (decide (Client.todo_user_id row = uid)); [|reflexivity].
  simpl. rewrite decide_False by done. reflexivity.
Qed.

(** ** Closing a session *)

(** Under a key that counts, the plain object behaves as a map from
    subject to minutes. *)
Lemma counts_plus_duration env a subject d :
  Client.counts (Client.subjects_breakdown a) subject = true ->
  Client.plus_duration env (Client.subjects_breakdown a) subject d
  = Client.Minutes (Client.minutes_of subject a + d).
Proof.
  unfold Client.counts, Client.plus_duration, Client.minutes_of.
  destruct (Client.subjects_breakdown a !! subject) as [[m|t]|]; try done.
  intros [Hp Hf]%andb_true_iff.
  apply negb_true_iff in Hp, Hf. by rewrite Hp, Hf.
Qed.

Lemma counts_assign own subject v :
  Client.counts own subject = true -> Client.assign own subject v = <[subject := v]> own.
Proof.
  unfold Client.counts, Client.assign.
  destruct (own !! subject) as [[m|t]|]; try done.
  intros [Hp _]%andb_true_iff. apply negb_true_iff in Hp. by rewrite Hp.
Qed.

(** The breakdown a fold leaves when the subject counts: one entry
    written, a number. *)
Lemma after_session_counted env subject d a :
  Client.counts (Client.subjects_breakdown a) subject = true ->
  Client.subjects_breakdown (Client.after_session env subject d a)
  = <[subject := Client.Minutes (Client.minutes_of subject a + d)]>
      (Client.subjects_breakdown a).
Proof.
  intros Hcounts. unfold Client.after_session. simpl.
  by rewrite (counts_assign _ _ _ Hcounts), (counts_plus_duration env _ _ d Hcounts).
Qed.

(** Writing a number under one key leaves the keys that count counting. *)
Lemma counts_insert own subject m key :
  Client.counts own key = true ->
  Client.counts (<[subject := Client.Minutes m]> own) key = true.
Proof.
  unfold Client.counts. destruct (decide (key = subject)) as [->|Hne].
  - by rewrite lookup_insert_eq.
  - by rewrite lookup_insert_ne.
Qed.

(** Two folds on subjects that count give the same aggregate in either
    order. *)
Lemma after_session_twice env s1 d1 s2 d2 a :
  Client.counts (Client.subjects_breakdown a) s1 = true ->
  Client.counts (Client.subjects_breakdown a) s2 = true ->
  Client.after_session env s2 d2 (Client.after_session env s1 d1 a)
  = Client.after_session env s1 d1 (Client.after_session env s2 d2 a).
Proof.
  intros H1 H2.
  assert (H21 : Client.counts
                  (Client.subjects_breakdown (Client.after_session env s1 d1 a)) s2
                = true)
    by (rewrite (after_session_counted env s1 d1 a H1); by apply counts_insert).
  assert (H12 : Client.counts
                  (Client.subjects_breakdown (Client.after_session env s2 d2 a)) s1
                = true)
    by (rewrite (after_session_counted env s2 d2 a H2); by apply counts_insert).
  pose proof (after_session_counted env s2 d2 _ H21) as Hleft.
  pose proof (after_session_counted env s1 d1 _ H12) as Hright.
  unfold Client.minutes_of in Hleft, Hright.
  rewrite (after_session_counted env s1 d1 a H1) in Hleft.
  rewrite (after_session_counted env s2 d2 a H2) in Hright.
  assert (Hsame : Client.subjects_breakdown
                    (Client.after_session env s2 d2 (Client.after_session env s1 d1 a))
                  = Client.subjects_breakdown
                      (Client.after_session env s1 d1 (Client.after_session env s2 d2 a))).
  { rewrite Hleft, Hright. unfold Client.minutes_of.
    destruct (decide (s1 = s2)) as [->|Hne].
    - rewrite !lookup_insert_eq, !insert_insert_eq. do 2 f_equal. lia.
    - rewrite !lookup_insert_ne by done. by apply insert_insert_ne. }
  unfold Client.after_session in *. simpl in *. rewrite Hsame.
  f_equal; lia.
Qed.

(** The table [analytics] takes counters that stay whole numbers of an
    [INTEGER] column and are not negative. *)
Lemma analytics_taken n t :
  0 <= n <= 2147483647 -> 0 <= t <= 2147483647 -> Client.analytics_refuse n t = None.
Proof.
  intros Hn Ht. unfold Client.analytics_refuse, Client.integer.
  rewrite !(proj2 (Z.leb_le _ _)) by lia. reflexivity.
Qed.

(** The function that folds a closed session into the aggregate, on a
    subject that counts and with counters the table takes: for a
    signed-in owner it resolves, and the owner's aggregate (read as zeroed
    when no row was stored, and stored from then on) has [total_sessions]
    one higher, [total_study_time] higher by [d], and
    [subjects_breakdown[subject]] present and higher by [d] than before, a
    missing key counting for 0.  Nothing else moves. *)
Lemma updateAnalyticsAfterSession_folds env uid db subject d :
  Client.auth_user env = Some uid ->
  let before := Client.current env uid db in
  let db' := fst (Client.updateAnalyticsAfterSession env subject d db) in
  let after := Client.current env uid db' in
  Client.counts (Client.subjects_breakdown before) subject = true ->
  0 <= Client.total_sessions before < 2147483647 ->
  0 <= Client.total_study_time before + d <= 2147483647 ->
  snd (Client.updateAnalyticsAfterSession env subject d db) = Ok tt
  /\ Client.analytics db' !! uid = Some after
  /\ Client.total_sessions after = Client.total_sessions before + 1
  /\ Client.total_study_time after = Client.total_study_time before + d
  /\ Client.subjects_breakdown after !! subject
     = Some (Client.Minutes (Client.minutes_of subject before + d))
  /\ (forall other, other <> subject ->
        Client.subjects_breakdown after !! other
        = Client.subjects_breakdown before !! other)
  /\ Client.total_completed_tasks after = Client.total_completed_tasks before
  /\ (forall owner, owner <> uid ->
        Client.analytics db' !! owner = Client.analytics db !! owner)
  /\ Client.sessions db' = Client.sessions db
  /\ Client.todos db' = Client.todos db.
Proof.
  intros Hauth before db' after Hcounts Hn Ht.
  assert (Htaken : Client.analytics_refuse (Client.total_sessions before + 1)
                     (Client.total_study_time before + d) = None)
    by (apply analytics_taken; lia).
  assert (Hrun := updateAnalyticsAfterSession_run env uid Hauth subject d db Htaken).
  subst db' after. rewrite Hrun. simpl. rewrite current_insert.
  fold before. simpl.
  rewrite (counts_assign _ _ _ Hcounts), (counts_plus_duration env _ _ d Hcounts).
  repeat match goal with |- _ /\ _ => split end; simpl; try reflexivity.
  - apply lookup_insert_eq.
  - apply lookup_insert_eq.
  - intros other Hne. by apply lookup_insert_ne.
  - intros owner Hne. by apply lookup_insert_ne.
Qed.

(** An update of a session of the caller that the table takes is written,
    and returned unless the update of the aggregate throws. *)
Lemma update_session_row_owned env uid sessionId updates row db :
  Client.sessions db !! sessionId = Some row -> Client.session_user_id row = uid ->
  Client.sessions_refuse env (Client.upd_duration updates) (Client.upd_start_time updates)
    (Client.upd_end_time updates) (Client.apply_session_updates updates row) = None ->
  Client.update_session_row env uid sessionId updates db
  = (Client.set_sessions <[sessionId := Client.apply_session_updates updates row]> db,
     Ok (Client.apply_session_updates updates row)).
Proof.
  intros Hrow Hown Htaken. unfold Client.update_session_row, bind, get.
  rewrite Hrow, decide_True by done. by rewrite Htaken.
Qed.

(** What an update of a session leaves for a signed-in caller: the store
    as it was, when no row of the caller has the id or the table refuses
    the update; or the store with the row updated and, when the update
    closes the session, with the aggregate read and, unless the table
    refuses that, folded. *)
Lemma updateStudySession_cases env uid sessionId updates db :
  Client.auth_user env = Some uid ->
  let left_behind := fst (Client.updateStudySession env sessionId updates db) in
  left_behind = db
  \/ exists row,
       Client.sessions db !! sessionId = Some row
       /\ Client.session_user_id row = uid
       /\ let written :=
            Client.set_sessions
              <[sessionId := Client.apply_session_updates updates row]> db in
          left_behind = written
          \/ left_behind
             = Client.set_analytics <[uid := Client.current env uid db]> written
          \/ left_behind
             = Client.set_analytics
                 <[uid := Client.after_session env
                            (Client.property_key (Client.upd_subject updates))
                            (default 0 (Client.upd_duration updates))
                            (Client.current env uid db)]> written.
Proof.
  intros Hauth. cbv zeta. unfold Client.updateStudySession, bind.
  rewrite (getUser_signed_in env uid Hauth).
  unfold Client.update_session_row, bind, get.
  destruct (Client.sessions db !! sessionId) as [row|] eqn:Hrow; [|by left].
  destruct (decide (Client.session_user_id row = uid)) as [Hown|]; [|by left].
  destruct (Client.sessions_refuse _ _ _ _ _); [by left|].
  right. exists row. split; [reflexivity|]. split; [exact Hown|].
  simpl.
  destruct (Client.truthy_string (Client.upd_end_time updates)
            && Client.truthy_number (Client.upd_duration updates)); [|by left].
  set (written := Client.set_sessions _ db).
  destruct (Client.analytics_refuse
              (Client.total_sessions (Client.current env uid written) + 1)
              (Client.total_study_time (Client.current env uid written)
               + default 0 (Client.upd_duration updates))) as [err|] eqn:Htaken.
  - rewrite (updateAnalyticsAfterSession_refused env uid Hauth _ _ _ _ Htaken).
    right. left. reflexivity.
  - rewrite (updateAnalyticsAfterSession_run env uid Hauth _ _ _ Htaken).
    right. right. reflexivity.
Qed.

(** The table [sessions] takes the update that closes a session with a
    duration that is a whole number of an [INTEGER] column, not negative,
    at a time the database reads. *)
Lemma closing_update_taken env updates row e d :
  Client.upd_end_time updates = Some e -> Client.timestamptz env e = true ->
  Client.upd_start_time updates = None ->
  Client.upd_duration updates = Some d -> 0 <= d <= 2147483647 ->
  Client.sessions_refuse env (Client.upd_duration updates) (Client.upd_start_time updates)
    (Client.upd_end_time updates) (Client.apply_session_updates updates row) = None.
Proof.
  intros He Hread Hs Hd Hrange.
  unfold Client.sessions_refuse, Client.sessions_types, Client.sessions_check,
    Client.integer.
  rewrite He, Hs, Hd. simpl. rewrite Hread, Hd. simpl.
  rewrite !(proj2 (Z.leb_le _ _)) by lia. reflexivity.
Qed.

(** C2.  The page closes a session, as [handleEndSession] does, with an
    update that carries the end time and the duration [d] and names no
    subject.  The store takes the update and the aggregate of the owner
    gains a session and [d] minutes of study time; but the minutes are
    filed under the key [undefined], and the entry of the subject of the
    session is what it was. *)
Theorem closed_session_is_filed_under_undefined env uid db st session t row :
  Client.auth_user env = Some uid ->
  Client.sessions db !! Client.session_id session = Some row ->
  Client.session_user_id row = uid ->
  let updates := TimerPage.endSessionUpdates (Client.now_iso env) st session t in
  let d := Client.duration session
           + (TimerPage.phase_duration st (TimerPage.currentPhase st) * 60 - t) / 60 in
  let before := Client.current env uid db in
  let db' := fst (Client.updateStudySession env (Client.session_id session) updates db) in
  let after := Client.current env uid db' in
  Client.now_iso env <> [] -> Client.timestamptz env (Client.now_iso env) = true ->
  0 < d <= 2147483647 ->
  0 <= Client.total_sessions before < 2147483647 ->
  0 <= Client.total_study_time before ->
  Client.total_study_time before + d <= 2147483647 ->
  Client.counts (Client.subjects_breakdown before) (utf16 "undefined") = true ->
  Client.subject row <> utf16 "undefined" ->
  (exists data,
     snd (Client.updateStudySession env (Client.session_id session) updates db) = Ok data
     /\ Client.sessions db' !! Client.session_id session = Some data
     /\ Client.subject data = Client.subject row
     /\ Client.duration data = d
     /\ Client.end_time data = Some (Client.now_iso env))
  /\ Client.total_sessions after = Client.total_sessions before + 1
  /\ Client.total_study_time after = Client.total_study_time before + d
  /\ Client.subjects_breakdown after !! Client.subject row
     = Client.subjects_breakdown before !! Client.subject row
  /\ Client.subjects_breakdown after !! utf16 "undefined"
     = Some (Client.Minutes (Client.minutes_of (utf16 "undefined") before + d)).
Proof.
  intros Hauth Hrow Hown updates d before db' after Hnow Hread Hd Hn Ht0 Ht Hcounts Hsubject.
  assert (Htaken : Client.sessions_refuse env (Client.upd_duration updates)
                     (Client.upd_start_time updates) (Client.upd_end_time updates)
                     (Client.apply_session_updates updates row) = None).
  { apply (closing_update_taken env updates row (Client.now_iso env) d);
      try reflexivity; [assumption | lia]. }
  assert (Hrun : Client.updateStudySession env (Client.session_id session) updates db
                 = (Client.set_analytics
                      <[uid := Client.after_session env (utf16 "undefined") d before]>
                      (Client.set_sessions
                         <[Client.session_id session :=
                             Client.apply_session_updates updates row]> db),
                    Ok (Client.apply_session_updates updates row))).
  { unfold Client.updateStudySession, bind.
    rewrite (getUser_signed_in env uid Hauth).
    rewrite (update_session_row_owned env uid _ updates row db Hrow Hown Htaken).
    change (Client.upd_end_time updates) with (Some (Client.now_iso env)).
    change (Client.upd_duration updates) with (Some d).
    change (Client.upd_subject updates) with (@None jsstring).
    unfold Client.truthy_string, Client.truthy_number.
    rewrite bool_decide_false by done.
    assert ((d =? 0) = false) as -> by lia.
    cbn [negb andb].
    change (default 0 (Some d)) with d.
    change (Client.property_key None) with (utf16 "undefined").
    rewrite (updateAnalyticsAfterSession_run env uid Hauth); [reflexivity|].
    rewrite current_set_sessions. apply analytics_taken; fold before; lia. }
  subst db' after. rewrite Hrun. cbn [fst snd]. rewrite current_insert.
  split.
  { eexists. split; [reflexivity|]. split; [apply lookup_insert_eq|]. by repeat split. }
  cbn [Client.after_session Client.total_sessions Client.total_study_time
       Client.subjects_breakdown].
  rewrite (counts_assign _ _ _ Hcounts), (counts_plus_duration env _ _ d Hcounts).
  split; [reflexivity|]. split; [reflexivity|]. split.
  - by apply lookup_insert_ne.
  - apply lookup_insert_eq.
Qed.

(** C10.  An update of a session whose payload lacks a non-empty
    [end_time] or a nonzero [duration] (in particular one that closes the
    session with a duration of 0) leaves the table [analytics] exactly as
    it was, whoever calls and whether or not the update itself succeeds. *)
Theorem zero_duration_close_leaves_analytics env sessionId updates db :
  Client.upd_duration updates = Some 0 \/ Client.upd_duration updates = None
  \/ Client.upd_end_time updates = Some [] \/ Client.upd_end_time updates = None ->
  Client.analytics (fst (Client.updateStudySession env sessionId updates db))
  = Client.analytics db.
Proof.
  intros Hguard.
  assert (Hcond : Client.truthy_string (Client.upd_end_time updates)
                  && Client.truthy_number (Client.upd_duration updates) = false).
  { destruct Hguard as [H|[H|[H|H]]]; rewrite H; simpl;
      try reflexivity; apply andb_false_r. }
  unfold Client.updateStudySession, bind, Client.getUser.
  destruct (Client.auth_user env) as [uid|]; [|reflexivity].
  simpl. unfold Client.update_session_row, bind, get.
  destruct (Client.sessions db !! sessionId) as [row|]; [|reflexivity].
  destruct (decide (Client.session_user_id row = uid)); [|reflexivity].
  destruct (Client.sessions_refuse _ _ _ _ _); [reflexivity|].
  simpl. rewrite Hcond. reflexivity.
Qed.

(** The other direction: with both fields present and truthy, the session
    found and the update taken by the tables, the aggregate is folded. *)
Lemma closing_update_folds env uid sessionId updates row e d db :
  Client.auth_user env = Some uid ->
  Client.sessions db !! sessionId = Some row -> Client.session_user_id row = uid ->
  Client.upd_end_time updates = Some e -> e <> [] ->
  Client.upd_duration updates = Some d -> d <> 0 ->
  Client.sessions_refuse env (Client.upd_duration updates) (Client.upd_start_time updates)
    (Client.upd_end_time updates) (Client.apply_session_updates updates row) = None ->
  Client.analytics_refuse (Client.total_sessions (Client.current env uid db) + 1)
    (Client.total_study_time (Client.current env uid db) + d) = None ->
  Client.analytics (fst (Client.updateStudySession env sessionId updates db))
  = <[uid := Client.after_session env (Client.property_key (Client.upd_subject updates)) d
               (Client.current env uid db)]> (Client.analytics db).
Proof.
  intros Hauth Hrow Hown He Hne Hd Hnz Hsession Htaken.
  unfold Client.updateStudySession, bind.
  rewrite (getUser_signed_in env uid Hauth).
  rewrite (update_session_row_owned env uid _ updates row db Hrow Hown Hsession).
  rewrite He, Hd. simpl. rewrite bool_decide_false by done.
  assert ((d =? 0) = false) as -> by lia. simpl.
  rewrite (updateAnalyticsAfterSession_run env uid Hauth); [reflexivity|].
  by rewrite current_set_sessions.
Qed.

(** ** Completing a task *)




(** ** Creating a todo *)

Lemma trimStart_nil s : trimStart s = [] <-> forallb isWhiteSpace s = true.
Proof.
  induction s as [|c s IH]; [done|].
  change (trimStart (c :: s)) with (if isWhiteSpace c then trimStart s else c :: s).
  change (forallb isWhiteSpace (c :: s))
    with (isWhiteSpace c && forallb isWhiteSpace s).
  destruct (isWhiteSpace c); simpl; [exact IH | split; discriminate].
Qed.

Lemma trimStart_head s c r : trimStart s = c :: r -> isWhiteSpace c = false.
Proof.
  induction s as [|d s IH]; [discriminate|].
  change (trimStart (d :: s)) with (if isWhiteSpace d then trimStart s else d :: s).
  destruct (isWhiteSpace d) eqn:Hd; [exact IH | congruence].
Qed.

Lemma forallb_rev_true {A} (f : A -> bool) (l : list A) :
  forallb f (rev l) = true <-> forallb f l = true.
Proof.
  rewrite !forallb_forall. split; intros H x Hx; apply H.
  - by apply in_rev in Hx.
  - by apply in_rev.
Qed.



(** ** The timer page *)

Section TimerFacts.
Import TimerPage.
Context `{Platform}.

(** [checkActiveSession] never throws, and touches neither the phase,
    nor the cycle count, nor the running flag; it never forgets the
    session. *)
Lemma checkActiveSession_frame active now st :
  let st' := fst (checkActiveSession active now st) in
  snd (checkActiveSession active now st) = Ok tt
  /\ currentPhase st' = currentPhase st
  /\ cycleCount st' = cycleCount st
  /\ isActive st' = isActive st
  /\ (currentSession st <> None -> currentSession st' <> None).
Proof.
  destruct active as [[s|]|e]; cbn; repeat split; auto; discriminate.
Qed.

(** What [checkActiveSession] does when an open session is found. *)
Lemma checkActiveSession_found s now st :
  let r := checkActiveSession (Ok (Some s)) now st in
  snd r = Ok tt
  /\ console (fst r) = console st
  /\ currentSession (fst r) = Some s
  /\ timeLeft (fst r) = remainingTime (workDuration st) now (Client.start_time s).
Proof. cbn. repeat split. Qed.

(** The time left for a start time that parses. *)
Lemma remainingTime_parsed wd now start t0 :
  Date_parse start = Num t0 ->
  remainingTime wd now start = Num (Z.max 0 (wd * 60 - (now - t0) / 60000 * 60)).
Proof. intros Hp. unfold remainingTime. rewrite Hp. reflexivity. Qed.

Lemma remainingTime_unparsable wd now start :
  Date_parse start = NaN -> remainingTime wd now start = NaN.
Proof. intros Hp. unfold remainingTime. rewrite Hp. reflexivity. Qed.

(** Every handler keeps a running timer attached to a session. *)
Lemma handle_keeps_session e st :
  (isActive st = true -> currentSession st <> None) ->
  isActive (fst (handle e st)) = true -> currentSession (fst (handle e st)) <> None.
Proof.
  intros Hinv.
  destruct e as [active now|persisted active now|created| | | |persisted|name|subject];
    simpl.
  - destruct (checkActiveSession_frame active now st) as (_ & _ & _ & Ha & Hs).
    rewrite Ha. auto.
  - unfold tick, bind, get.
    destruct (isActive st && positive (timeLeft st)) eqn:Hrun.
    { cbn. intros Ha. apply Hinv. by apply andb_true_iff in Hrun as [-> _]. }
    destruct (is_zero (timeLeft st) && isActive st); [|exact Hinv].
    unfold handlePhaseComplete, bind, modify, get. cbn.
    destruct (currentSession st) as [cur|] eqn:Hs; cbn; [|discriminate].
    destruct (currentPhase st); cbn.
    + destruct persisted as [p|err]; cbn; [|discriminate].
      destruct active as [[s|]|err]; cbn; discriminate.
    + destruct active as [[s|]|err]; cbn; discriminate.
    + destruct active as [[s|]|err]; cbn; discriminate.
  - unfold startSession, bind, get.
    destruct (trim (sessionName st)); cbn; [exact Hinv|].
    destruct created as [s|err]; cbn; [discriminate | exact Hinv].
  - unfold handleStart, bind, get.
    destruct (currentSession st) as [cur|] eqn:Hs; cbn;
      [rewrite Hs; discriminate | rewrite Hs; exact Hinv].
  - discriminate.
  - discriminate.
  - unfold handleEndSession, bind, get.
    destruct (currentSession st) as [cur|] eqn:Hs; cbn; [|rewrite Hs; exact Hinv].
    destruct persisted as [p|err]; cbn; [discriminate | rewrite Hs; exact Hinv].
  - exact Hinv.
  - exact Hinv.
Qed.

(** From the page as first rendered, the timer only ever runs inside a
    session. *)
Lemma running_timer_has_session a b c st :
  reachable (initial a b c) st -> isActive st = true -> currentSession st <> None.
Proof.
  induction 1 as [|st e Hreach IH]; [discriminate|].
  by apply handle_keeps_session.
Qed.

(** What [handlePhaseComplete] does inside a session, in the terms of the
    code: [%] is [Z.rem]. *)
Lemma handlePhaseComplete_in_session st session persisted active now :
  currentSession st = Some session ->
  (currentPhase st = work -> exists stored, persisted = Ok stored) ->
  let st' := fst (handlePhaseComplete persisted active now st) in
  snd (handlePhaseComplete persisted active now st) = Ok tt
  /\ match currentPhase st with
     | work =>
         cycleCount st' = cycleCount st + 1
         /\ currentPhase st'
            = if Z.rem (cycleCount st + 1) 4 =? 0 then long_break else short_break
     | short_break | long_break =>
         cycleCount st' = cycleCount st /\ currentPhase st' = work
     end.
Proof.
  intros Hsession Hstored.
  unfold handlePhaseComplete, bind, modify, get. cbn. rewrite Hsession.
  destruct (currentPhase st) eqn:Hphase.
  - destruct (Hstored eq_refl) as [stored ->]. cbn.
    match goal with
    | |- context [checkActiveSession ?a ?n ?s] =>
        destruct (checkActiveSession_frame a n s) as (Hok & Hp & Hn & _)
    end.
    cbn in *. rewrite Hok, Hp, Hn. auto.
  - cbn.
    match goal with
    | |- context [checkActiveSession ?a ?n ?s] =>
        destruct (checkActiveSession_frame a n s) as (Hok & Hp & Hn & _)
    end.
    cbn in *. rewrite Hok, Hp, Hn. auto.
  - cbn.
    match goal with
    | |- context [checkActiveSession ?a ?n ?s] =>
        destruct (checkActiveSession_frame a n s) as (Hok & Hp & Hn & _)
    end.
    cbn in *. rewrite Hok, Hp, Hn. auto.
Qed.

(** C1.  Inside a session, with a cycle count [c >= 0]: completing a
    work phase (its minutes once stored) sets the count to [c + 1] and
    the phase to [long-break] when [(c + 1) mod 4 = 0], to [short-break]
    otherwise; completing either break sets the phase to [work] and
    leaves the count at [c]. *)
Theorem phase_cycle st session persisted active now c :
  0 <= c ->
  cycleCount st = c ->
  currentSession st = Some session ->
  (currentPhase st = work -> exists stored, persisted = Ok stored) ->
  let st' := fst (handlePhaseComplete persisted active now st) in
  snd (handlePhaseComplete persisted active now st) = Ok tt
  /\ match currentPhase st with
     | work =>
         cycleCount st' = c + 1
         /\ currentPhase st' = if (c + 1) mod 4 =? 0 then long_break else short_break
     | short_break | long_break =>
         cycleCount st' = c /\ currentPhase st' = work
     end.
Proof.
  intros Hc Hcount Hsession Hstored.
  pose proof (handlePhaseComplete_in_session st session persisted active now
                Hsession Hstored) as Hnext.
  rewrite Hcount in Hnext. rewrite Z.rem_mod_nonneg in Hnext by lia.
  exact Hnext.
Qed.

(** The same, as the page meets it: the timer of a reachable page has
    run down to zero and the next evaluation of the effect completes the
    phase. *)
Lemma phase_cycle_on_tick a b d st persisted active now :
  reachable (initial a b d) st ->
  isActive st = true -> timeLeft st = Num 0 -> 0 <= cycleCount st ->
  (currentPhase st = work -> exists stored, persisted = Ok stored) ->
  let st' := fst (tick persisted active now st) in
  match currentPhase st with
  | work =>
      cycleCount st' = cycleCount st + 1
      /\ currentPhase st'
         = if (cycleCount st + 1) mod 4 =? 0 then long_break else short_break
  | short_break | long_break =>
      cycleCount st' = cycleCount st /\ currentPhase st' = work
  end.
Proof.
  intros Hreach Hactive Hzero Hc Hstored.
  destruct (currentSession st) as [session|] eqn:Hs.
  2: { by destruct (running_timer_has_session _ _ _ _ Hreach Hactive). }
  unfold tick, bind, get. rewrite Hactive, Hzero. cbn -[handlePhaseComplete].
  pose proof (handlePhaseComplete_in_session st session persisted active now
                Hs Hstored) as [_ Hnext].
  rewrite Z.rem_mod_nonneg in Hnext by lia. exact Hnext.
Qed.

(** C3.  When the start time of the open session parses to a time not
    after [now] and the work duration is positive, reconciliation sets
    the time left to
    [max 0 (workDuration * 60 - floor ((now - start) / 60000) * 60)],
    which lies between 0 and [workDuration * 60], and is 0 as soon as
    the elapsed time reaches the work duration. *)
Theorem reconciled_time_in_range s now st t0 :
  Date_parse (Client.start_time s) = Num t0 ->
  t0 <= now ->
  0 < workDuration st ->
  exists r,
    timeLeft (fst (checkActiveSession (Ok (Some s)) now st)) = Num r
    /\ r = Z.max 0 (workDuration st * 60 - (now - t0) / 60000 * 60)
    /\ 0 <= r <= workDuration st * 60
    /\ (workDuration st * 60000 <= now - t0 -> r = 0).
Proof.
  intros Hparse Hstart Hwd.
  destruct (checkActiveSession_found s now st) as (_ & _ & _ & ->).
  rewrite (remainingTime_parsed _ _ _ _ Hparse).
  eexists. split; [reflexivity|]. split; [reflexivity|].
  assert (0 <= (now - t0) / 60000) by (apply Z.div_pos; lia).
  split; [lia|].
  intros Helapsed.
  assert (workDuration st <= (now - t0) / 60000)
    by (apply Z.div_le_lower_bound; lia).
  lia.
Qed.

(** C4, as the code has it.  There is no check of the start time: when
    it lies after [now], or is not a date at all, reconciliation raises
    nothing and logs nothing, keeps the session, and sets the time left:
    to [max 0 (workDuration * 60 - floor ((now - start) / 60000) * 60)],
    at least a minute more than the work phase lasts, for a start in the
    future; to [NaN] for a start that is not a date. *)
Theorem reconciliation_does_not_validate s now st :
  future_or_unparsable now (Date_parse (Client.start_time s)) ->
  let r := checkActiveSession (Ok (Some s)) now st in
  snd r = Ok tt
  /\ console (fst r) = console st
  /\ currentSession (fst r) = Some s
  /\ match Date_parse (Client.start_time s) with
     | Num t0 =>
         exists v, timeLeft (fst r) = Num v
                   /\ v = Z.max 0 (workDuration st * 60 - (now - t0) / 60000 * 60)
                   /\ workDuration st * 60 + 60 <= v
     | NaN => timeLeft (fst r) = NaN
     end.
Proof.
  intros Hbad r.
  destruct (checkActiveSession_found s now st) as (Hok & Hlog & Hs & Ht).
  subst r. repeat match goal with |- _ /\ _ => split end; try assumption.
  rewrite Ht. destruct (Date_parse (Client.start_time s)) as [t0|] eqn:Hparse.
  - rewrite (remainingTime_parsed _ _ _ _ Hparse).
    eexists. split; [reflexivity|]. split; [reflexivity|].
    simpl in Hbad.
    assert ((now - t0) / 60000 < 0) by (apply Z.div_lt_upper_bound; lia).
    lia.
  - by apply remainingTime_unparsable.
Qed.

End TimerFacts.

(** ** The analytics page *)

Section AnalyticsFacts.
Import AnalyticsPage.
Context `{Platform}.

(** A row of [sessions] has no property [completedAt]: the page takes
    no stored session for a completed one. *)
Lemma completed_since_row since s : completed_since since (session_row s) = false.
Proof. reflexivity. Qed.

Lemma no_row_is_completed since (rows : list Client.StudySession) :
  filter (fun s => completed_since since s = true) (session_row <$> rows) = [].
Proof.
  induction rows as [|s rows IH]; [reflexivity|].
  rewrite fmap_cons, filter_cons_False; [exact IH|].
  rewrite completed_since_row. discriminate.
Qed.

(** A day without sessions: no hours, no sessions. *)
Lemma studyHoursEntry_nil timeRange now i :
  hours (studyHoursEntry timeRange now [] i) = of_Z 0
  /\ day_sessions (studyHoursEntry timeRange now [] i) = 0%nat.
Proof. split; reflexivity. Qed.

Lemma count_down_length {A} (entry : nat -> A) n : length (count_down entry n) = n.
Proof. induction n; simpl; congruence. Qed.

(** The loop fills one entry per day, from [n - 1] days ago to today. *)
Lemma count_down_lookup {A} (entry : nat -> A) n k :
  (k < n)%nat -> count_down entry n !! k = Some (entry (n - 1 - k)%nat).
Proof.
  revert k. induction n as [|n IH]; intros k Hk; [lia|].
  destruct k as [|k]; simpl.
  - f_equal. f_equal. lia.
  - rewrite IH by lia. f_equal. f_equal. lia.
Qed.

(** A user's row has no property [stats]: reading [user.stats.tasksCompleted]
    throws, whatever was fetched. *)
Lemma load_throws_for_a_user timeRange u a sessions now st :
  load timeRange (Object (user_row u)) (Ok (a, sessions)) now st
  = (setLoading true st, Throw (TypeError "Cannot read properties of undefined")).
Proof. reflexivity. Qed.

(** C6, on the code.  With the rows of [sessions] as they are stored,
    whatever they are: the loop for the week does fill 7 entries, oldest
    first and ending today, but every one of them has [hours = 0] and no
    session, since no row passes the test on [completedAt]; and the page
    never shows them, since reading [user.stats] then throws and the
    fallback, whose series is empty, is what is set. *)
Theorem week_hours_ignore_stored_sessions (rows : list Client.StudySession)
    (u : User) (a : Client.Analytics) now st :
  let filteredSessions :=
    filter (fun s => completed_since (now - 7 * one_day) s = true)
           (session_row <$> rows) in
  let series := studyHours week now filteredSessions in
  length series = 7%nat
  /\ (forall k, (k < 7)%nat ->
        series !! k
        = Some {| day := toLocaleDateString
                           (Num (now - Z.of_nat (6 - k) * one_day)) WeekdayShort;
                  hours := of_Z 0;
                  day_sessions := 0 |})
  /\ fst (loadAnalyticsData week (Object (user_row u))
            (Ok (a, session_row <$> rows)) now st)
     = {| analyticsData := Some fallback;
          loading := false;
          console := console st
                     ++ [TypeError "Cannot read properties of undefined"] |}
  /\ studyHoursData fallback = [].
Proof.
  intros filteredSessions series. subst series filteredSessions.
  rewrite no_row_is_completed.
  repeat match goal with |- _ /\ _ => split end.
  - apply count_down_length.
  - intros k Hk. unfold studyHours. simpl daysToShow.
    rewrite count_down_lookup by exact Hk. reflexivity.
  - unfold loadAnalyticsData, try_catch, bind.
    rewrite load_throws_for_a_user. reflexivity.
  - reflexivity.
Qed.

(** C7, as the code has it.  When the fetch fails, by an error or by the
    timeout, nothing is thrown to the caller: the error is logged,
    loading ends, and the data set is the fixed fallback, whose task
    split is 0 completed / 100 pending, whose statistics are all 0, and
    whose daily-hours series, streak calendar and session list are
    empty. *)
Theorem failed_fetch_sets_fallback timeRange user e now st :
  loadAnalyticsData timeRange user (Throw e) now st
  = ({| analyticsData := Some fallback; loading := false;
        console := console st ++ [e] |}, Ok tt)
  /\ studyHoursData fallback = []
  /\ streakData fallback = []
  /\ sessionData fallback = []
  /\ slice_value <$> taskCompletionData fallback = [of_Z 0; of_Z 100]
  /\ Forall (fun p => snd p = Number (of_Z 0)) (stats fallback).
Proof.
  repeat match goal with |- _ /\ _ => split end; try reflexivity.
  repeat constructor.
Qed.

End AnalyticsFacts.

(** ** Worked examples *)

Section Examples.
Import Fixture.

(** The fourth work phase of a session ends: the count goes from 3 to 4
    and a long break follows. *)
Lemma phase_cycle_example :
  0 <= 3
  /\ TimerPage.cycleCount working = 3
  /\ TimerPage.currentSession working = Some early
  /\ (let st' := fst (TimerPage.handlePhaseComplete (Ok early) (Ok (Some early))
                        1800000 working) in
      TimerPage.cycleCount st' = 4
      /\ TimerPage.currentPhase st' = TimerPage.long_break).
Proof.
  assert (H0 : 0 <= 3) by lia.
  assert (Hstored : TimerPage.currentPhase working = TimerPage.work ->
                    exists stored, Ok early = Ok stored)
    by (intros _; exists early; reflexivity).
  pose proof (phase_cycle working early (Ok early) (Ok (Some early)) 1800000 3
                H0 eq_refl eq_refl Hstored) as [_ Hnext].
  split; [exact H0|]. split; [reflexivity|]. split; [reflexivity|].
  exact Hnext.
Defined.

(** Alice ends the session [open_math], of subject Math, at the end of
    its first work phase of 25 minutes.  The aggregate gains a session and
    25 minutes, filed under [undefined]; nothing is filed under Math. *)
Lemma closed_session_example :
  Client.auth_user signed_in = Some alice
  /\ Client.sessions Samples.desk !! utf16 "s1" = Some Samples.open_math
  /\ Client.timestamptz signed_in (Client.now_iso signed_in) = true
  /\ Client.upd_duration
       (TimerPage.endSessionUpdates (Client.now_iso signed_in) Samples.studying
          Samples.open_math 0) = Some 25
  /\ (let updates := TimerPage.endSessionUpdates (Client.now_iso signed_in)
                        Samples.studying Samples.open_math 0 in
      let db' := fst (Client.updateStudySession signed_in (utf16 "s1") updates
                        Samples.desk) in
      let after := Client.current signed_in alice db' in
      Client.total_sessions after = 1
      /\ Client.total_study_time after = 25
      /\ Client.subjects_breakdown after !! utf16 "Math" = None
      /\ Client.subjects_breakdown after !! utf16 "undefined" = Some (Client.Minutes 25)).
Proof.
  assert (Hrow : Client.sessions Samples.desk !! utf16 "s1" = Some Samples.open_math)
    by apply lookup_singleton_eq.
  assert (Hd : 0 < 25 <= 2147483647) by lia.
  assert (Hn : 0 <= 0 < 2147483647) by lia.
  assert (Ht0 : 0 <= 0) by lia.
  assert (Ht : 0 + 25 <= 2147483647) by lia.
  pose proof (closed_session_is_filed_under_undefined signed_in alice Samples.desk
                Samples.studying Samples.open_math 0 Samples.open_math
                eq_refl Hrow eq_refl ltac:(discriminate) eq_refl Hd Hn Ht0 Ht eq_refl
                ltac:(discriminate))
    as (_ & Hsessions & Htime & Hmath & Hundefined).
  split; [reflexivity|]. split; [exact Hrow|]. split; [reflexivity|].
  split; [reflexivity|]. intros updates db' after.
  split; [exact Hsessions|]. split; [exact Htime|].
  split; [exact Hmath | exact Hundefined].
Defined.

(** On a subject that counts, the function itself files the minutes under
    the subject: 25 minutes of Math with no aggregate stored yet. *)
Example named_subject_is_filed :
  let db' := fst (Client.updateAnalyticsAfterSession signed_in (utf16 "Math") 25
                    (store reading)) in
  let after := Client.current signed_in alice db' in
  Client.total_sessions after = 1
  /\ Client.total_study_time after = 25
  /\ Client.subjects_breakdown after !! utf16 "Math" = Some (Client.Minutes 25).
Proof. vm_compute. repeat split. Qed.

(** The subject [__proto__] is filed nowhere: the aggregate gains the 25
    minutes and its breakdown stays empty. *)
Example proto_subject_is_not_filed :
  let db' := fst (Client.updateAnalyticsAfterSession signed_in (utf16 "__proto__") 25
                    (store reading)) in
  let after := Client.current signed_in alice db' in
  Client.total_study_time after = 25
  /\ Client.subjects_breakdown after = ∅.
Proof. vm_compute. repeat split. Qed.

(** The subject [constructor] is filed as a string, to which a second
    session appends its minutes; two sessions of 25 and 30 minutes leave a
    different string in each order. *)
Example constructor_subject_is_filed_as_text :
  let close d db := fst (Client.updateAnalyticsAfterSession signed_in
                           (utf16 "constructor") d db) in
  let filed db :=
    Client.subjects_breakdown (Client.current signed_in alice db)
      !! utf16 "constructor" in
  filed (close 30 (close 25 (store reading)))
  = Some (Client.Text (utf16 "function Object() { [native code] }2530"))
  /\ filed (close 25 (close 30 (store reading)))
     = Some (Client.Text (utf16 "function Object() { [native code] }3025")).
Proof. vm_compute. split; reflexivity. Qed.

(** Half an hour after the epoch, a session started at 00:01 with a
    work phase of 25 minutes has no time left. *)
Lemma reconciled_time_example :
  Date_parse (Client.start_time early) = Num 60000
  /\ 60000 <= 1800000
  /\ 0 < TimerPage.workDuration timer
  /\ exists r,
       TimerPage.timeLeft
         (fst (TimerPage.checkActiveSession (Ok (Some early)) 1800000 timer)) = Num r
       /\ 0 <= r <= 25 * 60
       /\ r = 0.
Proof.
  assert (Hp : Date_parse (Client.start_time early) = Num 60000) by reflexivity.
  assert (Hle : 60000 <= 1800000) by lia.
  assert (Hwd : 0 < TimerPage.workDuration timer) by (simpl; lia).
  destruct (reconciled_time_in_range early 1800000 timer 60000 Hp Hle Hwd)
    as (r & Hr & _ & Hrange & Hzero).
  split; [exact Hp|]. split; [exact Hle|]. split; [exact Hwd|].
  exists r. split; [exact Hr|]. split; [exact Hrange|].
  apply Hzero. simpl. lia.
Defined.

(** C4, counterexample.  At the epoch, the open session [early] starts a
    minute in the future.  Reconciliation neither throws nor logs: it
    sets 1560 seconds on a timer whose work phase lasts 1500. *)
Lemma future_start_is_reconciled :
  let r := TimerPage.checkActiveSession (Ok (Some early)) 0 timer in
  TimerPage.future_or_unparsable 0 (Date_parse (Client.start_time early))
  /\ snd r = Ok tt
  /\ TimerPage.console (fst r) = []
  /\ TimerPage.timeLeft (fst r) = Num 1560
  /\ TimerPage.workDuration timer * 60 = 1500.
Proof. vm_compute. repeat split. Qed.

Lemma reconciliation_example :
  TimerPage.future_or_unparsable 0 (Date_parse (Client.start_time early))
  /\ exists v,
       TimerPage.timeLeft
         (fst (TimerPage.checkActiveSession (Ok (Some early)) 0 timer)) = Num v
       /\ 25 * 60 + 60 <= v.
Proof.
  assert (Hf : TimerPage.future_or_unparsable 0
                 (Date_parse (Client.start_time early))) by (vm_compute; reflexivity).
  split; [exact Hf|].
  destruct (reconciliation_does_not_validate early 0 timer Hf) as (_ & _ & _ & Hv).
  destruct Hv as (v & Hv & _ & Hlow). exists v. split; [exact Hv | exact Hlow].
Defined.




(** Alice ends the session [math] with no minute to add. *)
Lemma zero_duration_close_example :
  Client.upd_duration closing = Some 0
  /\ Client.analytics
       (fst (Client.updateStudySession signed_in (utf16 "s1") closing (store reading)))
     = Client.analytics (store reading).
Proof.
  split; [reflexivity|].
  apply (zero_duration_close_leaves_analytics signed_in (utf16 "s1") closing
           (store reading)).
  left. reflexivity.
Defined.

(** C6, at a failing input.  On 8 January 1970 at noon the store holds
    one session, closed at 10:00 after 60 minutes.  The entry of the loop
    for that day, a Thursday, has no hours and no session, where an
    hour and a session are due; and the page is given the fallback. *)
Example stored_hour_is_not_counted :
  let rows := AnalyticsPage.session_row <$> [math] in
  let filteredSessions :=
    filter (fun s => AnalyticsPage.completed_since
                       (648000000 - 7 * AnalyticsPage.one_day) s = true) rows in
  last (AnalyticsPage.studyHours AnalyticsPage.week 648000000 filteredSessions)
  = Some {| AnalyticsPage.day := utf16 "Thu";
            AnalyticsPage.hours := of_Z 0;
            AnalyticsPage.day_sessions := 0 |}
  /\ AnalyticsPage.analyticsData
       (fst (AnalyticsPage.loadAnalyticsData AnalyticsPage.week
               (Object (AnalyticsPage.user_row profile))
               (Ok (Client.zeroed signed_in alice (store reading), rows))
               648000000 blank_page))
     = Some AnalyticsPage.fallback.
Proof. vm_compute. split; reflexivity. Qed.

(** The loop does count a session whose object carries [completedAt] and
    [totalFocusMinutes]: 90 minutes are 1.5 hours. *)
Example completed_session_is_counted :
  last (AnalyticsPage.studyHours AnalyticsPage.week 648000000 [completed_session])
  = Some {| AnalyticsPage.day := utf16 "Thu";
            AnalyticsPage.hours := Finite (3 # 2);
            AnalyticsPage.day_sessions := 1 |}.
Proof. vm_compute. reflexivity. Qed.

(** C7, counterexample.  The fetch times out for the week view: the data
    set has no entry at all in its daily-hours series, where 7 zero
    entries are announced, and none in its streak calendar, where 30
    are. *)
Lemma timeout_series_are_empty :
  exists data,
    AnalyticsPage.analyticsData
      (fst (AnalyticsPage.loadAnalyticsData AnalyticsPage.week
              (Object (AnalyticsPage.user_row profile))
              (Throw (Error "Analytics timeout")) 648000000 blank_page))
    = Some data
    /\ length (AnalyticsPage.studyHoursData data) = 0%nat
    /\ length (AnalyticsPage.streakData data) = 0%nat
    /\ AnalyticsPage.daysToShow AnalyticsPage.week = 7%nat.
Proof. eexists. repeat split. Qed.

End Examples.

(** * Further properties of the client *)

Lemma getAnalytics_signed_out env db :
  Client.auth_user env = None ->
  Client.getAnalytics env db = (db, Throw (Error "Not authenticated")).
Proof. intros Hout. rewrite getAnalytics_unfold, Hout. reflexivity. Qed.

Lemma run_signed_out env c db :
  Client.auth_user env = None -> Client.run env c db = db.
Proof.
  intros Hout.
  pose proof (getAnalytics_signed_out env db Hout) as Hget.
  destruct c; simpl;
    unfold Client.createStudySession, Client.updateStudySession, Client.createTodo,
      Client.updateTodo, Client.deleteTodo, bind, Client.getUser;
    rewrite ?Hout, ?Hget; reflexivity.
Qed.

Section ClientFurther.
Import Client.

(** X1.  Without a signed-in user every call of the client is refused with
    [Not authenticated] before it reads or writes anything. *)
Theorem signed_out_calls_are_refused env db :
  auth_user env = None ->
  (forall c, run env c db = db)
  /\ (forall d, snd (createStudySession env d db) = Throw (Error "Not authenticated"))
  /\ (forall i u, snd (updateStudySession env i u db) = Throw (Error "Not authenticated"))
  /\ (forall t, snd (createTodo env t db) = Throw (Error "Not authenticated"))
  /\ (forall i u, snd (updateTodo env i u db) = Throw (Error "Not authenticated"))
  /\ (forall i, snd (deleteTodo env i db) = Throw (Error "Not authenticated"))
  /\ snd (getAnalytics env db) = Throw (Error "Not authenticated").
Proof.
  intros Hout.
  assert (Hget : getAnalytics env db = (db, Throw (Error "Not authenticated")))
    by (by apply getAnalytics_signed_out).
  repeat match goal with |- _ /\ _ => split end; intros;
    try (by apply run_signed_out); rewrite ?Hget;
    unfold createStudySession, updateStudySession, createTodo, updateTodo, deleteTodo,
      bind, getUser; rewrite ?Hout; reflexivity.
Qed.

(** X2.  A session whose duration is a whole number of an [INTEGER]
    column, not negative, and whose times the database reads, is stored
    for a signed-in caller under an identifier no session had; the row
    returned is the row stored, and nothing else is touched.  No look is
    taken at the sessions the caller already has, open or not.  Any other
    session is refused with the error of the database, and nothing is
    written. *)
Theorem createStudySession_stores_a_new_row env uid sessionData db :
  auth_user env = Some uid ->
  (0 <= in_duration sessionData <= 2147483647 ->
   timestamptz env (in_start_time sessionData) = true ->
   (forall e, in_end_time sessionData = Some e -> timestamptz env e = true) ->
   exists data,
     createStudySession env sessionData db
     = (set_sessions <[session_id data := data]> db, Ok data)
     /\ sessions db !! session_id data = None
     /\ session_user_id data = uid
     /\ duration data = in_duration sessionData
     /\ end_time data = in_end_time sessionData
     /\ (forall other, other <> session_id data ->
           sessions (fst (createStudySession env sessionData db)) !! other
           = sessions db !! other))
  /\ (in_duration sessionData < 0 \/ 2147483647 < in_duration sessionData
      \/ timestamptz env (in_start_time sessionData) = false
      \/ (exists e, in_end_time sessionData = Some e /\ timestamptz env e = false) ->
      exists code,
        createStudySession env sessionData db = (db, Throw (PostgrestError code))).
Proof.
  intros Hauth. unfold createStudySession, bind.
  rewrite (getUser_signed_in env uid Hauth). cbn [get].
  unfold sessions_refuse, sessions_types, sessions_check, integer.
  cbn [from_option duration]. split.
  - intros Hd Hstart Hend.
    rewrite !(proj2 (Z.leb_le _ _)) by lia. rewrite Hstart.
    assert (from_option (timestamptz env) true (in_end_time sessionData) = true) as ->.
    { destruct (in_end_time sessionData) as [e|]; [by apply Hend | reflexivity]. }
    cbn [negb andb].
    eexists. split; [reflexivity|]. simpl.
    repeat match goal with |- _ /\ _ => split end; try reflexivity.
    + apply not_elem_of_dom, is_fresh.
    + intros other Hne. by apply lookup_insert_ne.
  - intros Hrefused.
    destruct ((-2147483648 <=? in_duration sessionData)
              && (in_duration sessionData <=? 2147483647)) eqn:Hint;
      cbn [negb]; [|eauto].
    destruct (timestamptz env (in_start_time sessionData)
              && from_option (timestamptz env) true (in_end_time sessionData))
      eqn:Htimes; cbn [negb]; [|eauto].
    destruct (0 <=? in_duration sessionData) eqn:Hcheck; [|eauto].
    exfalso.
    apply andb_true_iff in Hint as [_ Hmax%Z.leb_le].
    apply andb_true_iff in Htimes as [Hstart Hend].
    apply Z.leb_le in Hcheck.
    destruct Hrefused as [H|[H|[H|(e & He & H)]]]; [lia|lia|congruence|].
    rewrite He in Hend. simpl in Hend. congruence.
Qed.

(** X3.  An update never reaches a row the caller does not own: for a session
    or a todo that is missing or belongs to someone else the update is
    refused with [PGRST116], and the store, aggregates included, stays as
    it was, whatever the payload. *)
Theorem updates_need_an_own_row env uid rowId db :
  auth_user env = Some uid ->
  (forall updates,
     (forall row, sessions db !! rowId = Some row -> session_user_id row <> uid) ->
     updateStudySession env rowId updates db = (db, Throw (PostgrestError "PGRST116")))
  /\ (forall updates,
        (forall row, todos db !! rowId = Some row -> todo_user_id row <> uid) ->
        updateTodo env rowId updates db = (db, Throw (PostgrestError "PGRST116"))).
Proof.
  intros Hauth. split; intros updates Hforeign.
  - unfold updateStudySession, bind. rewrite (getUser_signed_in env uid Hauth).
    unfold update_session_row, bind, get.
    destruct (sessions db !! rowId) as [row|] eqn:Hrow; [|reflexivity].
    rewrite decide_False by (by apply Hforeign). reflexivity.
  - unfold updateTodo, bind. rewrite (getUser_signed_in env uid Hauth).
    unfold update_todo_row, bind, get.
    destruct (todos db !! rowId) as [row|] eqn:Hrow; [|reflexivity].
    rewrite decide_False by (by apply Hforeign). reflexivity.
Qed.

(** X4.  [deleteTodo] always resolves for a signed-in caller.  An own todo is
    removed and only that one; a todo that is missing or belongs to someone
    else is left alone, without any error.  In no case is an aggregate
    touched: deleting a completed todo does not lower the counter. *)
Theorem deleteTodo_removes_an_own_todo_only env uid todoId db :
  auth_user env = Some uid ->
  let db' := fst (deleteTodo env todoId db) in
  snd (deleteTodo env todoId db) = Ok tt
  /\ analytics db' = analytics db
  /\ sessions db' = sessions db
  /\ (forall other, other <> todoId -> todos db' !! other = todos db !! other)
  /\ (forall row, todos db !! todoId = Some row ->
        todos db' !! todoId = if decide (todo_user_id row = uid) then None else Some row)
  /\ (todos db !! todoId = None -> db' = db).
Proof.
  intros Hauth db'. subst db'.
  assert (Hrun : deleteTodo env todoId db
                 = (set_todos (fun tbl =>
                      match tbl !! todoId with
                      | Some row =>
                          if decide (todo_user_id row = uid) then delete todoId tbl else tbl
                      | None => tbl
                      end) db, Ok tt)).
  { unfold deleteTodo, bind. rewrite (getUser_signed_in env uid Hauth). reflexivity. }
  rewrite Hrun. cbn [fst snd]. unfold set_todos. cbn [todos analytics sessions].
  repeat match goal with |- _ /\ _ => split end; try reflexivity.
  - intros other Hne. destruct (todos db !! todoId) as [row|]; [|reflexivity].
    destruct (decide (todo_user_id row = uid)); [|reflexivity].
    by apply lookup_delete_ne.
  - intros row Hrow. rewrite Hrow.
    destruct (decide (todo_user_id row = uid)); [apply lookup_delete_eq | exact Hrow].
  - intros Hnone. rewrite Hnone. by destruct db.
Qed.

(** X5.  Reading the aggregate twice is reading it once: the second read
    returns the same row and writes nothing, and no read ever changes a row
    that was stored, of the caller or of anyone else. *)
Theorem getAnalytics_is_idempotent env uid db :
  auth_user env = Some uid ->
  let first := getAnalytics env db in
  getAnalytics env (fst first) = first
  /\ (forall owner row, analytics db !! owner = Some row ->
        analytics (fst first) !! owner = Some row)
  /\ (forall owner, owner <> uid ->
        analytics (fst first) !! owner = analytics db !! owner).
Proof.
  intros Hauth first. subst first.
  pose proof (getAnalytics_current env uid Hauth db) as Hfirst.
  rewrite !Hfirst. simpl.
  repeat match goal with |- _ /\ _ => split end.
  - apply (getAnalytics_found env uid Hauth). simpl. apply lookup_insert_eq.
  - intros owner row Hrow. destruct (decide (owner = uid)) as [->|Hne].
    + rewrite lookup_insert_eq. unfold current. by rewrite Hrow.
    + by rewrite lookup_insert_ne.
  - intros owner Hne. by apply lookup_insert_ne.
Qed.

(** X6.  Two closed sessions whose subjects count, with durations that are
    not negative and counters that stay within an [INTEGER] column, fold
    into the aggregate in either order with the same result, for the
    same subject or for two: all four updates resolve and the two stores
    are equal. *)
Theorem session_closes_commute env uid db s1 d1 s2 d2 :
  auth_user env = Some uid ->
  let before := current env uid db in
  let close s d db := updateAnalyticsAfterSession env s d db in
  counts (subjects_breakdown before) s1 = true ->
  counts (subjects_breakdown before) s2 = true ->
  0 <= d1 -> 0 <= d2 ->
  0 <= total_sessions before -> total_sessions before + 2 <= 2147483647 ->
  0 <= total_study_time before ->
  total_study_time before + d1 + d2 <= 2147483647 ->
  snd (close s1 d1 db) = Ok tt
  /\ snd (close s2 d2 (fst (close s1 d1 db))) = Ok tt
  /\ snd (close s2 d2 db) = Ok tt
  /\ snd (close s1 d1 (fst (close s2 d2 db))) = Ok tt
  /\ fst (close s2 d2 (fst (close s1 d1 db))) = fst (close s1 d1 (fst (close s2 d2 db))).
Proof.
  intros Hauth before close H1 H2 Hd1 Hd2 Hn0 Hn Ht0 Ht. subst close. cbv beta.
  assert (Hfirst : forall s d, 0 <= d -> total_study_time before + d <= 2147483647 ->
            updateAnalyticsAfterSession env s d db
            = (set_analytics <[uid := after_session env s d before]> db, Ok tt)).
  { intros s d Hd Hmax. apply (updateAnalyticsAfterSession_run env uid Hauth).
    apply analytics_taken; fold before; lia. }
  assert (Hsecond : forall s d s' d',
            0 <= d -> 0 <= d' -> total_study_time before + d + d' <= 2147483647 ->
            updateAnalyticsAfterSession env s' d'
              (set_analytics <[uid := after_session env s d before]> db)
            = (set_analytics
                 <[uid := after_session env s' d' (after_session env s d before)]> db,
               Ok tt)).
  { intros s d s' d' Hd Hd' Hmax.
    rewrite (updateAnalyticsAfterSession_run env uid Hauth).
    - rewrite current_insert. unfold set_analytics. simpl.
      by rewrite insert_insert_eq.
    - rewrite current_insert. apply analytics_taken; simpl; lia. }
  rewrite !Hfirst by lia. cbn [fst snd].
  rewrite !Hsecond by lia. cbn [fst snd].
  repeat match goal with |- _ /\ _ => split end; try reflexivity.
  by rewrite (after_session_twice env s1 d1 s2 d2 before H1 H2).
Qed.

End ClientFurther.

(** ** What a call may do to the aggregates *)

(** The table [analytics] after a call: as before, or with the caller's
    row replaced by what was read, folded or not. *)
Lemma run_analytics_shape env c db :
  Client.analytics (Client.run env c db) = Client.analytics db
  \/ exists uid f,
       Client.auth_user env = Some uid
       /\ Client.analytics (Client.run env c db)
          = <[uid := f (Client.current env uid db)]> (Client.analytics db)
       /\ ((forall a, f a = a)
           \/ (exists i u d,
                 c = Client.UpdateStudySession i u
                 /\ forall a,
                      f a = Client.after_session env
                              (Client.property_key (Client.upd_subject u)) d a)
           \/ (forall a, f a = Client.after_task_completion env a)).
Proof.
  destruct (Client.auth_user env) as [uid|] eqn:Hauth.
  2: { left. by rewrite (run_signed_out env c db Hauth). }
  destruct c as [d|i u|t|i u|i|]; simpl.
  - left. unfold Client.createStudySession, bind.
    rewrite (getUser_signed_in env uid Hauth). simpl.
    by destruct (Client.sessions_refuse _ _ _ _ _).
  - destruct (updateStudySession_cases env uid i u db Hauth)
      as [->|(row & _ & _ & [->| [->| ->]])]; [by left|by left| |].
    + right. exists uid, (fun a => a). split; [reflexivity|].
      split; [reflexivity|]. by left.
    + right. exists uid. eexists. split; [reflexivity|]. split; [reflexivity|].
      right. left. exists i, u. eauto.
  - left. unfold Client.createTodo, bind.
    rewrite (getUser_signed_in env uid Hauth).
    destruct (trim (Client.in_title t)); reflexivity.
  - destruct (decide (Client.upd_status u = Some Client.completed)) as [Hst|Hst].
    2: { left. by apply updateTodo_frame. }
    unfold Client.updateTodo, bind.
    rewrite (getUser_signed_in env uid Hauth).
    unfold Client.update_todo_row, bind, get.
    destruct (Client.todos db !! i) as [row|]; [|by left].
    destruct (decide (Client.todo_user_id row = uid)); [|by left].
    simpl. rewrite decide_True by done.
    rewrite (updateAnalyticsAfterTaskCompletion_run env uid Hauth). simpl.
    right. exists uid. eexists. split; [reflexivity|]. split; [reflexivity|].
    right. right. reflexivity.
  - left. unfold Client.deleteTodo, bind.
    rewrite (getUser_signed_in env uid Hauth). reflexivity.
  - rewrite (getAnalytics_current env uid Hauth). simpl.
    right. exists uid, (fun a => a). split; [reflexivity|]. split; [reflexivity|].
    by left.
Qed.

(** Adding up a breakdown after one entry was written. *)
Lemma breakdown_total_insert a subject v :
  map_fold (fun _ v total => Client.minutes v + total) 0
    (<[subject := v]> (Client.subjects_breakdown a))
  = Client.breakdown_total a - Client.minutes_of subject a + Client.minutes v.
Proof.
  unfold Client.breakdown_total, Client.minutes_of.
  destruct (Client.subjects_breakdown a !! subject) as [old|] eqn:Hold.
  - rewrite <- insert_delete_eq.
    rewrite map_fold_insert_L; [|intros; lia|apply lookup_delete_eq].
    rewrite (map_fold_delete_L _ _ subject old (Client.subjects_breakdown a));
      [|intros; lia|exact Hold].
    destruct old; simpl; lia.
  - rewrite map_fold_insert_L; [|intros; lia|exact Hold].
    lia.
Qed.

(** In a breakdown of numbers, every key counts that names no property of
    [Object.prototype]. *)
Lemma numeric_counts a key :
  Client.numeric a ->
  Client.proto key = false -> Client.inherited_function key = false ->
  Client.counts (Client.subjects_breakdown a) key = true.
Proof.
  intros Hnumeric Hp Hf. unfold Client.counts.
  destruct (Client.subjects_breakdown a !! key) as [v|] eqn:Hv.
  - by destruct (Hnumeric key v Hv) as [m ->].
  - by rewrite Hp, Hf.
Qed.

Section ClientInvariants.
Import Client.

(** X7.  Whatever calls are made, by whomever and with whatever payloads,
    as long as no session update names a property of [Object.prototype]
    as its subject: the breakdown of every stored aggregate holds numbers
    only and the study time stays their sum.  A row is created so, and
    every fold adds the same minutes to both; an update the tables refuse
    adds to neither. *)
Theorem aggregates_stay_balanced env c db :
  ordinary c ->
  (forall owner row, analytics db !! owner = Some row -> balanced row) ->
  forall owner row, analytics (run env c db) !! owner = Some row -> balanced row.
Proof.
  intros Hordinary Hinv owner row.
  assert (Hcur : forall uid, balanced (current env uid db)).
  { intros uid. unfold current. destruct (analytics db !! uid) as [r|] eqn:Hr.
    - by apply (Hinv uid).
    - split; [intros key v Hv; simpl in Hv; by rewrite lookup_empty in Hv|].
      unfold breakdown_total. simpl. by rewrite map_fold_empty. }
  destruct (run_analytics_shape env c db) as [->|(uid & f & _ & -> & Hf)];
    [apply Hinv|].
  destruct (decide (owner = uid)) as [->|Hne].
  2: { rewrite lookup_insert_ne by done. apply Hinv. }
  rewrite lookup_insert_eq. intros [= <-].
  specialize (Hcur uid).
  destruct Hf as [Hf|[(i & u & d & -> & Hf)|Hf]]; rewrite Hf.
  - exact Hcur.
  - destruct Hcur as [Hnumeric Hsum]. destruct Hordinary as [Hp Hi].
    pose proof (after_session_counted env (property_key (upd_subject u)) d _
                  (numeric_counts _ _ Hnumeric Hp Hi)) as Hbreakdown.
    split.
    + intros key v. rewrite Hbreakdown.
      destruct (decide (key = property_key (upd_subject u))) as [->|Hkey].
      * rewrite lookup_insert_eq. intros [= <-]. eauto.
      * rewrite lookup_insert_ne by done. apply Hnumeric.
    + unfold breakdown_total. rewrite Hbreakdown, breakdown_total_insert.
      simpl. lia.
  - exact Hcur.
Qed.

(** X8.  A call made by one owner changes no row of another: not a session,
    not a todo, not the aggregate. *)
Theorem calls_touch_own_rows_only env uid c db :
  auth_user env = Some uid ->
  (forall i row, sessions db !! i = Some row -> session_user_id row <> uid ->
     sessions (run env c db) !! i = Some row)
  /\ (forall i row, todos db !! i = Some row -> todo_user_id row <> uid ->
        todos (run env c db) !! i = Some row)
  /\ (forall owner, owner <> uid ->
        analytics (run env c db) !! owner = analytics db !! owner).
Proof.
  intros Hauth. split; [|split].
  - intros i row Hrow Hother. destruct c as [d|j u|t|j u|j|]; simpl.
    + unfold createStudySession, bind. rewrite (getUser_signed_in env uid Hauth).
      simpl. destruct (sessions_refuse _ _ _ _ _); [exact Hrow|].
      simpl. rewrite lookup_insert_ne; [exact Hrow|]. intros <-.
      apply (is_fresh (dom (sessions db))). apply elem_of_dom. eauto.
    + destruct (updateStudySession_cases env uid j u db Hauth)
        as [->|(r & Hr & Hown & Hleft)]; [exact Hrow|].
      assert (i <> j) by (intros ->; congruence).
      destruct Hleft as [->|[->| ->]]; simpl; by rewrite lookup_insert_ne.
    + unfold createTodo, bind. rewrite (getUser_signed_in env uid Hauth).
      destruct (trim (in_title t)); exact Hrow.
    + unfold updateTodo, bind. rewrite (getUser_signed_in env uid Hauth).
      unfold update_todo_row, bind, get.
      destruct (todos db !! j) as [r|]; [|exact Hrow].
      destruct (decide (todo_user_id r = uid)); [|exact Hrow].
      simpl. destruct (decide (upd_status u = Some completed)); [|exact Hrow].
      rewrite (updateAnalyticsAfterTaskCompletion_run env uid Hauth). exact Hrow.
    + unfold deleteTodo, bind. rewrite (getUser_signed_in env uid Hauth). exact Hrow.
    + rewrite (getAnalytics_current env uid Hauth). exact Hrow.
  - intros i row Hrow Hother. destruct c as [d|j u|t|j u|j|]; simpl.
    + unfold createStudySession, bind. rewrite (getUser_signed_in env uid Hauth).
      simpl. by destruct (sessions_refuse _ _ _ _ _).
    + destruct (updateStudySession_cases env uid j u db Hauth)
        as [->|(r & _ & _ & [->|[->| ->]])]; exact Hrow.
    + unfold createTodo, bind. rewrite (getUser_signed_in env uid Hauth).
      destruct (trim (in_title t)); [exact Hrow|].
      simpl. rewrite lookup_insert_ne; [exact Hrow|]. intros <-.
      apply (is_fresh (dom (todos db))). apply elem_of_dom. eauto.
    + unfold updateTodo, bind. rewrite (getUser_signed_in env uid Hauth).
      unfold update_todo_row, bind, get.
      destruct (todos db !! j) as [r|] eqn:Hr; [|exact Hrow].
      destruct (decide (todo_user_id r = uid)) as [Hown|]; [|exact Hrow].
      simpl.
      assert (i <> j) by (intros ->; congruence).
      destruct (decide (upd_status u = Some completed)).
      * rewrite (updateAnalyticsAfterTaskCompletion_run env uid Hauth). simpl.
        by rewrite lookup_insert_ne.
      * simpl. by rewrite lookup_insert_ne.
    + unfold deleteTodo, bind. rewrite (getUser_signed_in env uid Hauth).
      simpl. destruct (todos db !! j) as [r|] eqn:Hr; [|exact Hrow].
      destruct (decide (todo_user_id r = uid)) as [Hown|]; [|exact Hrow].
      rewrite lookup_delete_ne; [exact Hrow|]. intros ->. congruence.
    + rewrite (getAnalytics_current env uid Hauth). exact Hrow.
  - intros owner Hne.
    destruct (run_analytics_shape env c db) as [->|(uid' & f & Hauth' & -> & _)];
      [reflexivity|].
    rewrite lookup_insert_ne; [reflexivity|]. congruence.
Qed.

End ClientInvariants.

(** ** Titles and completion times *)

Lemma trimStart_split s :
  exists l, s = l ++ trimStart s /\ forallb isWhiteSpace l = true.
Proof.
  induction s as [|c s (l & Hl & Hws)].
  - by exists [].
  - change (trimStart (c :: s)) with (if isWhiteSpace c then trimStart s else c :: s).
    destruct (isWhiteSpace c) eqn:Hc.
    + exists (c :: l). split; [by rewrite Hl at 1|].
      change (isWhiteSpace c && forallb isWhiteSpace l = true). by rewrite Hc.
    + by exists [].
Qed.

(** [trimStart] leaves alone a string that does not start with white
    space. *)
Lemma trimStart_tight c s : isWhiteSpace c = false -> trimStart (c :: s) = c :: s.
Proof.
  intros Hc.
  change (trimStart (c :: s)) with (if isWhiteSpace c then trimStart s else c :: s).
  by rewrite Hc.
Qed.

(** A trimmed string is empty, or begins and ends with characters that
    are not white space. *)
Lemma trim_ends s :
  trim s = []
  \/ exists first middle last,
       isWhiteSpace first = false /\ isWhiteSpace last = false
       /\ (trim s = [first] /\ first = last \/ trim s = first :: middle ++ [last]).
Proof.
  unfold trim, trimEnd.
  destruct (trimStart s) as [|c t] eqn:Hs; [by left|].
  pose proof (trimStart_head _ _ _ Hs) as Hc.
  destruct (trimStart (rev (c :: t))) as [|d u] eqn:Hr.
  { apply trimStart_nil in Hr. apply (proj1 (forallb_rev_true _ _)) in Hr.
    change (isWhiteSpace c && forallb isWhiteSpace t = true) in Hr.
    rewrite Hc in Hr. discriminate. }
  pose proof (trimStart_head _ _ _ Hr) as Hd.
  destruct (trimStart_split (rev (c :: t))) as (l & Hl & _).
  rewrite Hr in Hl. apply (f_equal (@rev _)) in Hl.
  rewrite rev_involutive, rev_app_distr in Hl.
  right. destruct (rev (d :: u)) as [|e v] eqn:He.
  { apply (f_equal (@rev _)) in He. rewrite rev_involutive in He. discriminate. }
  simpl in Hl. injection Hl as Hce _. subst e.
  simpl in He.
  destruct (rev u) as [|e' w] eqn:Hu; simpl in He.
  - injection He as Hdc Hv. subst d v. exists c, [], c. auto.
  - injection He as He' Hv. subst e' v. exists c, w, d. auto.
Qed.

Lemma trimEnd_tight m z : isWhiteSpace z = false -> trimEnd (m ++ [z]) = m ++ [z].
Proof.
  intros Hz. unfold trimEnd. rewrite rev_app_distr.
  change (rev [z] ++ rev m) with (z :: rev m).
  rewrite (trimStart_tight _ _ Hz).
  change (rev (z :: rev m)) with (rev (rev m) ++ [z]).
  by rewrite rev_involutive.
Qed.

(** Trimming twice is trimming once. *)
Lemma trim_idempotent s : trim (trim s) = trim s.
Proof.
  destruct (trim_ends s) as [->|(a & m & z & Ha & Hz & [[-> _]| ->])];
    [reflexivity| |]; unfold trim.
  - rewrite (trimStart_tight _ _ Ha). by apply (trimEnd_tight []).
  - rewrite (trimStart_tight _ _ Ha). by apply (trimEnd_tight (a :: m)).
Qed.

(** What trimming removes is white space, at the two ends. *)
Lemma trim_split s :
  exists l r, s = l ++ trim s ++ r
              /\ forallb isWhiteSpace l = true /\ forallb isWhiteSpace r = true.
Proof.
  unfold trim, trimEnd.
  destruct (trimStart_split s) as (l & Hl & Hlw).
  destruct (trimStart_split (rev (trimStart s))) as (r & Hr & Hrw).
  exists l, (rev r). split; [|split; [exact Hlw | by apply forallb_rev_true]].
  rewrite Hl at 1. f_equal.
  apply (f_equal (@rev _)) in Hr. rewrite rev_involutive, rev_app_distr in Hr.
  exact Hr.
Qed.

Section TitlesAndDates.
Import Client.

(** X9.  The title of a created todo is the title given without the white
    space around it: it begins and ends with characters that are not white
    space, and giving a stored title again stores it unchanged. *)
Theorem created_title_is_tight env uid db todo data db' :
  auth_user env = Some uid ->
  createTodo env todo db = (db', Ok data) ->
  (exists l r, in_title todo = l ++ title data ++ r
               /\ forallb isWhiteSpace l = true /\ forallb isWhiteSpace r = true)
  /\ (exists first rest, title data = first :: rest /\ isWhiteSpace first = false)
  /\ (exists rest last, title data = rest ++ [last] /\ isWhiteSpace last = false)
  /\ trim (title data) = title data.
Proof.
  intros Hauth. unfold createTodo, bind.
  rewrite (getUser_signed_in env uid Hauth).
  destruct (trim (in_title todo)) as [|c r] eqn:Htrim; [discriminate|].
  intros [= <- <-]. cbn [title]. rewrite <- Htrim.
  split; [apply trim_split|].
  destruct (trim_ends (in_title todo))
    as [Hnil|(a & m & z & Ha & Hz & [[Hone <-]|Hmany])]; [congruence| |].
  - rewrite Hone. repeat split.
    + by exists a, [].
    + by exists [], a.
    + rewrite <- Hone. apply trim_idempotent.
  - repeat split.
    + rewrite Hmany. by exists a, (m ++ [z]).
    + rewrite Hmany. by exists (a :: m), z.
    + apply trim_idempotent.
Qed.

(** X10.  The todos the page makes keep their completion time in step with
    their status: a todo created by [handleCreateTask] is pending and
    undated, and after a toggle in either direction of a todo in step the
    stored todo has the status asked for and is in step again. *)
Theorem page_keeps_todos_dated env uid db newTaskTitle newTaskDescription
        todoId row checked :
  auth_user env = Some uid ->
  (forall data db',
     createTodo env (TimerPage.newTaskInput newTaskTitle newTaskDescription) db
     = (db', Ok data) ->
     status data = pending /\ dated data)
  /\ (todos db !! todoId = Some row -> todo_user_id row = uid -> dated row ->
      exists row',
        todos (fst (updateTodo env todoId
                      (TimerPage.toggleUpdates (now_iso env) checked) db)) !! todoId
        = Some row'
        /\ status row' = (if checked then completed else pending)
        /\ dated row').
Proof.
  intros Hauth. split.
  - intros data db'. unfold createTodo, bind.
    rewrite (getUser_signed_in env uid Hauth).
    destruct (trim _); [discriminate|]. intros [= <- <-].
    split; [reflexivity|]. unfold dated. simpl. split; [discriminate|].
    intros [? [=]].
  - intros Hrow Hown [Hd1 Hd2].
    assert (Hrun : todos (fst (updateTodo env todoId
                       (TimerPage.toggleUpdates (now_iso env) checked) db)) !! todoId
                   = Some (update_todo_completed_at env row
                             (apply_todo_updates
                                (TimerPage.toggleUpdates (now_iso env) checked) row))).
    { unfold updateTodo, bind. rewrite (getUser_signed_in env uid Hauth).
      rewrite (update_todo_row_owned env uid todoId _ row db Hrow Hown).
      destruct checked; simpl.
      - rewrite (updateAnalyticsAfterTaskCompletion_run env uid Hauth). simpl.
        apply lookup_insert_eq.
      - apply lookup_insert_eq. }
    eexists. split; [exact Hrun|].
    unfold dated, update_todo_completed_at.
    destruct checked; simpl; destruct (status row) eqn:Hst; simpl.
    + split; [reflexivity|]. split; eauto.
    + split; [reflexivity|]. split; eauto.
    + split; [reflexivity|]. split; [discriminate|].
      intros Hsome. destruct (completed_at row) eqn:Hc; [|by destruct Hsome].
      by apply Hd2.
    + split; [reflexivity|]. split; [discriminate|]. intros [? [=]].
Qed.

End TitlesAndDates.

(** * Further properties of the timer page *)

Section TimerFurther.
Import TimerPage.
Context `{Platform}.




Lemma callback_outside_its_guard st :
  timeLeft st = Num 0 -> timeLeft (fst (intervalCallback st)) = Num (-1).
Proof. intros Hzero. unfold intervalCallback, bind, get. cbn. by rewrite Hzero. Qed.


(** X12.  The reconciliation that follows a completed phase overwrites the time
    of the next phase.  When the store still reports the session and it
    began at least [workDuration] minutes before, the phase that follows,
    break or work, is left with no time at all; so after a work phase,
    pressing start completes the break at the first evaluation of the
    effect and the page is back in a work phase, the count unchanged. *)
Theorem completed_phase_leaves_no_time st session stored s t0 now active' now' :
  currentSession st = Some session ->
  Date_parse (Client.start_time s) = Num t0 ->
  workDuration st * 60000 <= now - t0 ->
  let st1 := fst (handlePhaseComplete (Ok stored) (Ok (Some s)) now st) in
  let st2 := fst (handleStart st1) in
  let st3 := fst (tick (Ok stored) active' now' st2) in
  timeLeft st1 = Num 0
  /\ isActive st1 = false
  /\ (currentPhase st = work ->
      currentPhase st1 <> work
      /\ currentPhase st3 = work
      /\ cycleCount st3 = cycleCount st1).
Proof.
  intros Hsession Hparse Helapsed st1 st2 st3.
  assert (Hzero : remainingTime (workDuration st) now (Client.start_time s) = Num 0).
  { unfold remainingTime, floor_div, Math_max, lift2. rewrite Hparse. f_equal.
    assert (workDuration st <= (now - t0) / 60000)
      by (apply Z.div_le_lower_bound; lia).
    lia. }
  assert (Hst1 : st1 = setTimeLeft (Num 0)
            (setSessionSubject (Client.subject s)
              (setSessionName (Client.session_name s)
                (setCurrentSession (Some s)
                  (setTimeLeft (Num (phase_duration st
                      (match currentPhase st with
                       | work => if Z.rem (cycleCount st + 1) 4 =? 0
                                 then long_break else short_break
                       | _ => work
                       end) * 60))
                    (setCurrentPhase
                       (match currentPhase st with
                        | work => if Z.rem (cycleCount st + 1) 4 =? 0
                                  then long_break else short_break
                        | _ => work
                        end)
                       (setCycleCount
                          (match currentPhase st with
                           | work => cycleCount st + 1
                           | _ => cycleCount st
                           end)
                          (setIsActive false st)))))))).
  { subst st1. unfold handlePhaseComplete, bind, modify, get. cbn -[remainingTime].
    rewrite Hsession.
    destruct (currentPhase st); cbn -[remainingTime]; rewrite Hzero; reflexivity. }
  split; [by rewrite Hst1|]. split; [by rewrite Hst1|].
  intros Hwork.
  assert (Hnext : currentPhase st1 <> work).
  { rewrite Hst1, Hwork. cbn. by destruct (Z.rem (cycleCount st + 1) 4 =? 0). }
  split; [exact Hnext|].
  subst st3 st2. unfold handleStart, bind, get.
  assert (Hs1 : currentSession st1 = Some s) by (by rewrite Hst1).
  rewrite Hs1. cbn -[tick].
  unfold tick, bind, get.
  assert (Ht1 : timeLeft (setIsActive true st1) = Num 0) by (by rewrite Hst1).
  rewrite Ht1. cbn -[handlePhaseComplete].
  destruct (handlePhaseComplete_in_session (setIsActive true st1) s (Ok stored)
              active' now' Hs1) as [_ Hstep].
  { intros Hw. by destruct Hnext. }
  change (currentPhase (setIsActive true st1)) with (currentPhase st1) in Hstep.
  change (cycleCount (setIsActive true st1)) with (cycleCount st1) in Hstep.
  destruct (currentPhase st1); [by destruct Hnext | exact (conj (proj2 Hstep) (proj1 Hstep))
                                | exact (conj (proj2 Hstep) (proj1 Hstep))].
Qed.

(** X13.  While the timer runs, each second takes one off the time left and
    nothing else changes: [n] ticks bring [n] seconds down to 0, still
    running, in the same phase and cycle of the same session. *)
Theorem countdown_reaches_zero st n persisted active now :
  isActive st = true ->
  timeLeft st = Num (Z.of_nat n) ->
  Nat.iter n (fun st => fst (tick persisted active now st)) st = setTimeLeft (Num 0) st.
Proof.
  revert st. induction n as [|n IH]; intros st Hactive Hleft.
  - simpl. destruct st. simpl in *. by rewrite Hleft.
  - rewrite Nat.iter_succ_r.
    assert (Hstep : fst (tick persisted active now st)
                    = setTimeLeft (Num (Z.of_nat n)) st).
    { unfold tick, bind, get. rewrite Hactive, Hleft.
      unfold positive. rewrite (proj2 (Z.ltb_lt 0 (Z.of_nat (S n)))) by lia.
      cbn -[Z.of_nat Z.sub]. do 2 f_equal. lia. }
    rewrite Hstep, IH; [reflexivity | exact Hactive | reflexivity].
Qed.

(** X14.  A failed call to the store never advances the page.  A session that
    cannot be created or closed leaves the state as it was and the error on
    the console.  Work minutes that cannot be stored leave the timer
    stopped in the same phase, cycle and time, and the error escapes the
    handler. *)
Theorem failed_calls_do_not_advance st session e active now :
  (trim (sessionName st) <> [] ->
   startSession (Throw e) st = (console_error e st, Ok tt))
  /\ (currentSession st = Some session ->
      handleEndSession (Throw e) st = (console_error e st, Ok tt))
  /\ (currentSession st = Some session -> currentPhase st = work ->
      handlePhaseComplete (Throw e) active now st = (setIsActive false st, Throw e)).
Proof.
  split; [|split].
  - intros Hname. unfold startSession, bind, get.
    destruct (trim (sessionName st)); [done | reflexivity].
  - intros Hs. unfold handleEndSession, bind, get. rewrite Hs. reflexivity.
  - intros Hs Hw. unfold handlePhaseComplete, bind, modify, get. cbn.
    rewrite Hs, Hw. reflexivity.
Qed.

(** X15.  Ending a session, once the store has closed it, puts the page back to
    rest: no session, not running, a work phase with its full time, a
    cycle count of 0 and an empty session name; pressing start then opens
    the session dialog and starts nothing. *)
Theorem ended_session_rests_the_page st session stored :
  currentSession st = Some session ->
  let st' := fst (handleEndSession (Ok stored) st) in
  currentSession st' = None
  /\ isActive st' = false
  /\ currentPhase st' = work
  /\ cycleCount st' = 0
  /\ timeLeft st' = Num (workDuration st * 60)
  /\ sessionName st' = []
  /\ isActive (fst (handleStart st')) = false
  /\ showSessionDialog (fst (handleStart st')) = true
  /\ currentSession (fst (handleStart st')) = None.
Proof.
  intros Hs. unfold handleEndSession, bind, get. rewrite Hs. cbn.
  repeat split.
Qed.

End TimerFurther.

(** ** The task panel *)

Section PanelFacts.
Import Client TimerPage.

Lemma update_todo_completed_at_id env OLD NEW :
  todo_id (update_todo_completed_at env OLD NEW) = todo_id NEW.
Proof. unfold update_todo_completed_at. by destruct (status NEW), (status OLD). Qed.

Lemma update_todo_completed_at_status env OLD NEW :
  status (update_todo_completed_at env OLD NEW) = status NEW.
Proof.
  unfold update_todo_completed_at.
  destruct (status NEW) eqn:Hnew, (status OLD); simpl; congruence.
Qed.

(** With the table [analytics] answering, the call is [updateTodo]. *)
Lemma updateTodo_on_Answers env todoId updates :
  updateTodo_on Answers env todoId updates = updateTodo env todoId updates.
Proof. reflexivity. Qed.

(** What an update of a todo leaves in the store.  It throws with nothing
    written when no todo of the caller has the id.  Otherwise the row is
    written; the row is returned, unless the update completes the todo
    and the table [analytics] answers with an error, which is thrown. *)
Lemma updateTodo_on_outcome answer env todoId updates db :
  let out := updateTodo_on answer env todoId updates db in
  ((forall row, todos db !! todoId = Some row ->
      Some (todo_user_id row) <> auth_user env)
   /\ fst out = db /\ exists e, snd out = Throw e)
  \/ exists row,
       todos db !! todoId = Some row
       /\ Some (todo_user_id row) = auth_user env
       /\ let data := update_todo_completed_at env row (apply_todo_updates updates row) in
          todos (fst out) = <[todoId := data]> (todos db)
          /\ sessions (fst out) = sessions db
          /\ (snd out = Ok data
                /\ (answer = Answers \/ upd_status updates <> Some completed)
              \/ (exists e, snd out = Throw e)
                 /\ answer <> Answers /\ upd_status updates = Some completed).
Proof.
  cbv zeta. unfold updateTodo_on, bind, getUser.
  destruct (auth_user env) as [uid|] eqn:Hauth.
  2: { left. split; [done|]. split; [reflexivity|]. eauto. }
  simpl. unfold update_todo_row, bind, get.
  destruct (todos db !! todoId) as [row|] eqn:Hrow.
  2: { left. split; [done|]. split; [reflexivity|]. eauto. }
  destruct (decide (todo_user_id row = uid)) as [Hown|Hother].
  2: { left. split; [intros r [= <-]; congruence|]. split; [reflexivity|]. eauto. }
  right. exists row. split; [reflexivity|]. split; [by rewrite Hown|].
  simpl. destruct (decide (upd_status updates = Some completed)) as [Hst|Hst].
  - destruct answer as [|e|e]; simpl.
    + rewrite (updateAnalyticsAfterTaskCompletion_run env uid Hauth). simpl.
      split; [reflexivity|]. split; [reflexivity|]. left. split; [reflexivity|by left].
    + unfold bind, getUser. rewrite Hauth. simpl.
      split; [reflexivity|]. split; [reflexivity|]. right. eauto.
    + unfold bind. rewrite (getUser_signed_in env uid Hauth).
      rewrite (getAnalytics_current env uid Hauth). simpl.
      split; [reflexivity|]. split; [reflexivity|]. right. eauto.
  - simpl. split; [reflexivity|]. split; [reflexivity|]. left.
    split; [reflexivity|by right].
Qed.

(** What [createTodo] leaves in the store. *)
Lemma createTodo_outcome env todo db :
  (exists e, createTodo env todo db = (db, Throw e))
  \/ exists data,
       createTodo env todo db = (set_todos <[todo_id data := data]> db, Ok data)
       /\ todos db !! todo_id data = None.
Proof.
  unfold createTodo, bind, getUser.
  destruct (auth_user env) as [uid|]; [|left; eauto].
  simpl. destruct (trim (in_title todo)) as [|c l]; [left; eauto|].
  right.
  exists {| todo_id := fresh (dom (todos db)); todo_user_id := uid; title := c :: l;
            description := in_description todo; status := in_status todo;
            todo_created_at := now_iso env; completed_at := in_completed_at todo |}.
  split; [reflexivity|]. apply not_elem_of_dom, is_fresh.
Qed.

(** What [deleteTodo] leaves in the store. *)
Lemma deleteTodo_outcome env todoId db :
  (exists e, deleteTodo env todoId db = (db, Throw e))
  \/ snd (deleteTodo env todoId db) = Ok tt
     /\ sessions (fst (deleteTodo env todoId db)) = sessions db
     /\ (todos (fst (deleteTodo env todoId db)) = todos db
         \/ todos (fst (deleteTodo env todoId db)) = delete todoId (todos db)).
Proof.
  unfold deleteTodo, bind, getUser.
  destruct (auth_user env) as [uid|]; [|left; eauto].
  right. simpl. split; [reflexivity|]. split; [reflexivity|].
  destruct (todos db !! todoId) as [row|]; [|by left].
  destruct (decide (todo_user_id row = uid)); [by right | by left].
Qed.

(** X16.  Through every action of the panel, a list that shows the todos as
    they are stored goes on doing so: a created todo is listed as stored, a
    toggled one is replaced by the stored row, a deleted one has left the
    list, and a call that throws before it writes leaves both as they
    were.  The one exception is the completion of a todo during which the
    table [analytics] answers with an error: the todo is stored as
    completed, the list keeps the row it had, and the other rows of the
    list are still the stored ones.  The store stays keyed by id
    throughout. *)
Theorem panel_list_mirrors_the_store env e p :
  keyed (store p) -> mirrors p ->
  let p' := fst (panel_handle env e p) in
  keyed (store p')
  /\ (~ fails_late env e p -> mirrors p')
  /\ (forall taskId checked answer,
        e = ToggleTask taskId checked answer -> fails_late env e p ->
        exists row row',
          tasks p' = tasks p
          /\ mirrors_but taskId p'
          /\ todos (store p) !! taskId = Some row
          /\ todos (store p') !! taskId = Some row'
          /\ status row' = completed
          /\ (status row = pending -> row' <> row)).
Proof.
  intros [Hks Hkt] Hm. cbv zeta.
  destruct e as [|taskId checked answer|taskId|t|d]; simpl.
  - unfold handleCreateTask, bind, get.
    destruct (trim (newTaskTitle p)); [done|].
    unfold try_catch, bind, call.
    destruct (createTodo_outcome env (newTaskInput (newTaskTitle p) (newTaskDescription p))
                (store p)) as [[e ->]|(data & -> & Hfresh)]; cbn.
    + split; [done|]. split; [intros _; exact Hm | done].
    + split; [|split; [intros _|done]].
      * split; [exact Hks|]. intros i row. simpl.
        destruct (decide (todo_id data = i)) as [<-|Hne].
        -- rewrite lookup_insert_eq. by intros [= ->].
        -- rewrite lookup_insert_ne by done. apply Hkt.
      * intros t. unfold mirrors in Hm. simpl.
        rewrite elem_of_app, list_elem_of_singleton. intros [Hin| ->].
        -- rewrite lookup_insert_ne; [by apply Hm|].
           intros Heq. specialize (Hm t Hin). congruence.
        -- apply lookup_insert_eq.
  - unfold handleToggleTask, try_catch, bind, call.
    pose proof (updateTodo_on_outcome answer env taskId
                  (toggleUpdates (now_iso env) checked) (store p)) as Hout.
    cbv zeta in Hout.
    destruct (updateTodo_on answer env taskId (toggleUpdates (now_iso env) checked)
                (store p)) as [db' out].
    cbn [fst snd] in Hout.
    destruct Hout as [(Hnone & -> & e & ->)
                     |(row & Hrow & Hown & Htodos & Hsess & Hresult)].
    { cbn. split; [done|]. split; [intros _; exact Hm|].
      intros ? ? ? [= <- <- <-].
      destruct checked; [|done]. destruct answer as [|e'|e']; [done| |];
        intros (r & Hr & Hauth); by destruct (Hnone r Hr). }
    set (data := update_todo_completed_at env row
                   (apply_todo_updates (toggleUpdates (now_iso env) checked) row))
      in *.
    assert (Hdata : todo_id data = taskId).
    { subst data. rewrite update_todo_completed_at_id. simpl. by apply Hkt. }
    assert (Hkeyed : keyed db').
    { split; [rewrite Hsess; exact Hks|]. rewrite Htodos. intros i r.
      destruct (decide (taskId = i)) as [<-|Hne].
      - rewrite lookup_insert_eq. by intros [= <-].
      - rewrite lookup_insert_ne by done. apply Hkt. }
    destruct Hresult as [[-> Hanswer]|((e & ->) & Hanswer & Hst)]; cbn.
    + split; [exact Hkeyed|]. split.
      * intros _ t. cbn. rewrite Htodos, list_elem_of_fmap.
        intros (t0 & -> & Hin). destruct (decide (todo_id t0 = taskId)).
        -- rewrite Hdata. apply lookup_insert_eq.
        -- rewrite lookup_insert_ne by done. by apply Hm.
      * intros ? ? ? [= <- <- <-]. destruct checked; [|done].
        destruct Hanswer as [-> | Hst]; [done|]. by destruct Hst.
    + split; [exact Hkeyed|].
      assert (Hlate : fails_late env (ToggleTask taskId checked answer) p).
      { destruct checked; [|discriminate Hst].
        destruct answer; [by destruct Hanswer| |]; simpl; eauto. }
      split; [intros Hnot; by destruct Hnot|]. intros ? ? ? [= <- <- <-] _.
      exists row, data. cbn.
      split; [reflexivity|]. split.
      { intros t Hin Hne. cbn. rewrite Htodos, lookup_insert_ne by done. by apply Hm. }
      split; [exact Hrow|]. split; [rewrite Htodos; apply lookup_insert_eq|].
      assert (Hcompleted : status data = completed).
      { subst data. rewrite update_todo_completed_at_status. simpl.
        by destruct checked. }
      split; [exact Hcompleted|]. intros Hpending Heq. congruence.
  - unfold handleDeleteTask, try_catch, bind, call.
    destruct (deleteTodo_outcome env taskId (store p))
      as [[e ->]|(Hok & Hsess & Htodos)]; cbn.
    + split; [done|]. split; [intros _; exact Hm | done].
    + rewrite Hok. cbn. split; [|split; [intros _|done]].
      * split; [rewrite Hsess; exact Hks|]. intros i r.
        destruct Htodos as [-> | ->]; [apply Hkt|].
        intros Hl. apply lookup_delete_Some in Hl as [_ Hl]. by apply Hkt.
      * intros t. cbn. rewrite list_elem_of_filter. intros [Hne Hin].
        destruct Htodos as [-> | ->]; [by apply Hm|].
        rewrite lookup_delete_ne by done. by apply Hm.
  - split; [done|]. split; [intros _; exact Hm | done].
  - split; [done|]. split; [intros _; exact Hm | done].
Qed.

End PanelFacts.

(** ** What the page shows of the timer *)

Section DisplayFacts.
Import TimerPage.

(** A number under a hundred is printed on two places: its tens and its
    units. *)
Lemma two_places n :
  0 <= n < 100 ->
  padStart2 (toString (Num n)) = [Z.to_N (48 + n / 10); Z.to_N (48 + n mod 10)].
Proof.
  intros Hrange.
  assert (Hall : forallb (fun k =>
            bool_decide
              (padStart2 (toString (Num (Z.of_nat k)))
               = [Z.to_N (48 + Z.of_nat k / 10); Z.to_N (48 + Z.of_nat k mod 10)]))
          (seq 0 (Z.to_nat 100)) = true) by (vm_compute; reflexivity).
  rewrite forallb_forall in Hall.
  assert (Hin : In (Z.to_nat n) (seq 0 (Z.to_nat 100))) by (apply in_seq; lia).
  apply Hall in Hin. rewrite Z2Nat.id in Hin by lia.
  by apply bool_decide_eq_true in Hin.
Qed.

(** X17.  Under a hundred minutes the time is shown as [MM:SS]: two digits of
    minutes, a colon, two digits of seconds, so that the seconds can be
    read back from the five characters. *)
Theorem formatTime_shows_minutes_and_seconds seconds :
  0 <= seconds < 6000 ->
  formatTime (Num seconds)
  = [ Z.to_N (48 + seconds / 60 / 10); Z.to_N (48 + seconds / 60 mod 10); 58%N;
      Z.to_N (48 + seconds mod 60 / 10); Z.to_N (48 + seconds mod 60 mod 10) ].
Proof.
  intros Hrange. unfold formatTime, floor_div, lift2.
  assert (Hmins : 0 <= seconds / 60 < 100).
  { split; [apply Z.div_pos; lia | apply Z.div_lt_upper_bound; lia]. }
  assert (Hsecs : 0 <= seconds mod 60 < 100).
  { pose proof (Z.mod_pos_bound seconds 60 ltac:(lia)). lia. }
  rewrite Z.rem_mod_nonneg by lia.
  rewrite (two_places _ Hmins), (two_places _ Hsecs). reflexivity.
Qed.

(** A time left that is not a number is shown as such. *)
Lemma formatTime_NaN : formatTime NaN = utf16 "NaN:NaN".
Proof. reflexivity. Qed.

End DisplayFacts.

Section ProgressFacts.
Import TimerPage.

Lemma progress_value st t p :
  timeLeft st = Num t ->
  phase_duration st (currentPhase st) * 60 = Z.pos p ->
  exists q,
    progressPercentage st = Finite q
    /\ (q == ((Z.pos p - t) * 100) # p)%Q.
Proof.
  intros Ht Hd. unfold progressPercentage. rewrite Ht, Hd.
  unfold number_mul, number_div, number_sub, number_op, to_number, of_Z.
  assert (Hnz : Qeq_bool (inject_Z (Z.pos p)) 0 = false).
  { apply not_true_is_false. intros Heq. apply Qeq_bool_eq in Heq.
    unfold Qeq in Heq. simpl in Heq. lia. }
  rewrite Hnz. eexists. split; [reflexivity|].
  rewrite !Qred_correct.
  rewrite Qmake_Qdiv, inject_Z_mult.
  unfold Z.sub. rewrite inject_Z_plus, inject_Z_opp.
  assert (~ inject_Z (Z.pos p) == 0)%Q.
  { intros Heq. unfold Qeq in Heq. simpl in Heq. lia. }
  field. assumption.
Qed.

(** X18.  The progress shown is not clamped: with a positive phase duration it
    lies between 0 and 100 exactly when the time left lies between 0 and
    the duration of the phase. *)
Theorem progress_is_in_range_with_the_time_left st t :
  timeLeft st = Num t ->
  0 < phase_duration st (currentPhase st) ->
  exists q,
    progressPercentage st = Finite q
    /\ ((0 <= q /\ q <= 100)%Q <-> 0 <= t <= phase_duration st (currentPhase st) * 60).
Proof.
  intros Ht Hd.
  destruct (phase_duration st (currentPhase st) * 60) as [|p|p] eqn:Hfull; try lia.
  destruct (progress_value st t p Ht Hfull) as (q & Hq & Hval).
  exists q. split; [exact Hq|].
  rewrite Hval. unfold Qle. simpl. lia.
Qed.

End ProgressFacts.

(** * Further properties of the analytics page *)

Lemma get_own_set_own_eq o key v : get_own (set_own o key v) key = v.
Proof.
  induction o as [|[k w] o IH]; simpl.
  - by rewrite String.eqb_refl.
  - destruct (String.eqb k key) eqn:Hk; simpl; rewrite Hk; [reflexivity | exact IH].
Qed.

Lemma get_own_set_own_ne o key key' v :
  key <> key' -> get_own (set_own o key v) key' = get_own o key'.
Proof.
  intros Hne. induction o as [|[k w] o IH]; simpl.
  - destruct (String.eqb key key') eqn:Hk; [|reflexivity].
    apply String.eqb_eq in Hk. contradiction.
  - destruct (String.eqb k key) eqn:Hk; simpl.
    + apply String.eqb_eq in Hk. subst k.
      destruct (String.eqb key key') eqn:Hk'; [|reflexivity].
      apply String.eqb_eq in Hk'. contradiction.
    + destruct (String.eqb k key'); [reflexivity | exact IH].
Qed.

(** [Math.round((part / total) * 100)] for whole numbers: the quotient
    of [200 part + total] by [2 total]. *)
Lemma percent_value qk qt k total :
  (qk == inject_Z k)%Q -> (qt == inject_Z total)%Q -> 0 < total ->
  Math_round (number_mul (number_div (Finite qk) (Finite qt)) (of_Z 100))
  = of_Z ((200 * k + total) / (2 * total)).
Proof.
  intros Hk Ht Hpos.
  assert (Hnz : ~ (qt == 0)%Q).
  { rewrite Ht. unfold Qeq. simpl. lia. }
  unfold Math_round, number_mul, number_div, number_op, of_Z.
  destruct (Qeq_bool qt 0) eqn:Hz; [by apply Qeq_bool_eq in Hz|].
  f_equal. f_equal.
  destruct total as [|p|p]; try lia.
  assert (Hval : (Qred (Qred (qk / qt) * inject_Z 100) + (1 # 2)
                  == (200 * k + Z.pos p) # (2 * p))%Q).
  { rewrite !Qred_correct, Hk, Ht, (Qmake_Qdiv (200 * k + Z.pos p) (2 * p)).
    rewrite inject_Z_plus, inject_Z_mult.
    change (inject_Z (Z.pos (2 * p))) with (inject_Z (2 * Z.pos p)).
    rewrite inject_Z_mult.
    assert (~ inject_Z (Z.pos p) == 0)%Q by (unfold Qeq; simpl; lia).
    field. assumption. }
  rewrite (Qfloor_comp _ _ Hval). reflexivity.
Qed.

Section AnalyticsFurther.
Import AnalyticsPage.
Context `{Platform}.

(** What [load] sets for a user object whose [stats] can be read. *)
Lemma load_with_stats timeRange u a sessions now st :
  get_own u "stats" <> Undefined -> get_own u "stats" <> Null ->
  exists data,
    loadAnalyticsData timeRange (Object u) (Ok (a, sessions)) now st
    = ({| analyticsData := Some data; loading := false; console := console st |}, Ok tt)
    /\ studyHoursData data
       = studyHours timeRange now
           (filter (fun s => completed_since
                               match timeRange with
                               | week => now - 7 * one_day
                               | month => now - 30 * one_day
                               | year => now - 365 * one_day
                               end s = true) sessions)
    /\ streakData data = count_down (streakEntry now sessions) 30
    /\ (exists all, sessionData data = take 10 all)
    /\ get_own (stats data) "totalSessions" = Number (of_nat (length sessions))
    /\ (forall n, get_own (spread (get_own u "stats")) "tasksCompleted" = Number (of_Z n)
          -> 0 <= n ->
          slice_value <$> taskCompletionData data
          = [ of_Z ((200 * n + (n + 10)) / (2 * (n + 10)));
              of_Z ((200 * 10 + (n + 10)) / (2 * (n + 10))) ]).
Proof.
  intros Hu Hn.
  unfold loadAnalyticsData, load, try_catch, bind, modify, await, get_prop.
  cbn [fst snd]. 
  destruct (get_own u "stats") as [| |b|m|s|o] eqn:Hstats; try done.
  all: cbn -[studyHours count_down streakEntry take percent_value Math_round
            number_mul number_div number_add number_sub number_gt of_Z of_nat
            set_own get_own filter sum_by round1 one_day].
  all: eexists; split; [reflexivity|]; cbn [studyHoursData streakData sessionData stats
                                           taskCompletionData].
  all: repeat match goal with |- _ /\ _ => split end; try reflexivity; eauto.
  all: try (rewrite !get_own_set_own_ne by discriminate; apply get_own_set_own_eq).
  all: try (cbn [spread get_own]; intros n [=]; fail).
  intros n Hn0 Hpos. cbn [spread] in Hn0. rewrite Hn0.
  cbn [list_fmap fmap slice_value toNumber].
  set (qt := Qred (inject_Z n + inject_Z 10)).
  assert (Hqt : (qt == inject_Z (n + 10))%Q)
    by (subst qt; rewrite Qred_correct, inject_Z_plus; reflexivity).
  change (number_add (of_Z n) (of_Z 10)) with (Finite qt).
  assert (Hgt : number_gt (Finite qt) (of_Z 0) = true).
  { unfold number_gt, of_Z. apply negb_true_iff, not_true_is_false.
    intros Hle. apply Qle_bool_iff in Hle. rewrite Hqt in Hle.
    unfold Qle in Hle. simpl in Hle. lia. }
  rewrite Hgt. f_equal; [|f_equal].
  - apply percent_value; [reflexivity | exact Hqt | lia].
  - unfold number_sub, number_op, of_Z at 1.
    apply percent_value; [|exact Hqt | lia].
    rewrite Qred_correct, Hqt, inject_Z_plus. ring.
Qed.

(** X19.  When the user object carries [stats], the page is given one daily
    entry for each of the 7, 30 or 365 days of the range and 30 days of
    streak calendar, whatever the sessions fetched, and never more than the
    first 10 sessions; the number of sessions it reports is the number
    fetched. *)
Theorem loaded_series_have_fixed_lengths timeRange u a sessions now st :
  get_own u "stats" <> Undefined -> get_own u "stats" <> Null ->
  exists data,
    fst (loadAnalyticsData timeRange (Object u) (Ok (a, sessions)) now st)
    = {| analyticsData := Some data; loading := false; console := console st |}
    /\ length (studyHoursData data) = daysToShow timeRange
    /\ length (streakData data) = 30%nat
    /\ (length (sessionData data) <= 10)%nat
    /\ get_own (stats data) "totalSessions" = Number (of_nat (length sessions)).
Proof.
  intros Hu Hn.
  destruct (load_with_stats timeRange u a sessions now st Hu Hn)
    as (data & Hrun & Hhours & Hstreak & (all & Hsess) & Htotal & _).
  exists data. rewrite Hrun. split; [reflexivity|].
  rewrite Hhours, Hstreak, Hsess. unfold studyHours.
  rewrite !count_down_length, length_take.
  repeat split; [lia | exact Htotal].
Qed.

(** X20.  The task split is computed against the completed tasks plus ten.  For
    a whole number [n >= 0] of completed tasks, both percentages lie
    between 0 and 100 and they add up to 100, or to 101 when both halves
    round up. *)
Theorem task_split_adds_up timeRange u a sessions now st n :
  get_own (spread (get_own u "stats")) "tasksCompleted" = Number (of_Z n) ->
  0 <= n ->
  exists data finished waiting,
    analyticsData (fst (loadAnalyticsData timeRange (Object u) (Ok (a, sessions)) now st))
    = Some data
    /\ slice_value <$> taskCompletionData data = [of_Z finished; of_Z waiting]
    /\ finished = (200 * n + (n + 10)) / (2 * (n + 10))
    /\ waiting = (200 * 10 + (n + 10)) / (2 * (n + 10))
    /\ 0 <= finished <= 100 /\ 0 <= waiting <= 100
    /\ (finished + waiting = 100 \/ finished + waiting = 101).
Proof.
  intros Htasks Hn.
  assert (Hu : get_own u "stats" <> Undefined)
    by (intros Heq; rewrite Heq in Htasks; discriminate).
  assert (Hnull : get_own u "stats" <> Null)
    by (intros Heq; rewrite Heq in Htasks; discriminate).
  destruct (load_with_stats timeRange u a sessions now st Hu Hnull)
    as (data & Hrun & _ & _ & _ & _ & Hsplit).
  exists data, ((200 * n + (n + 10)) / (2 * (n + 10))),
    ((200 * 10 + (n + 10)) / (2 * (n + 10))).
  rewrite Hrun. split; [reflexivity|]. split; [by apply Hsplit|].
  split; [reflexivity|]. split; [reflexivity|].
  set (D := 2 * (n + 10)).
  assert (HD : 0 < D) by (subst D; lia).
  pose proof (Z.div_mod (200 * n + (n + 10)) D ltac:(lia)) as Ha.
  pose proof (Z.mod_pos_bound (200 * n + (n + 10)) D HD) as Hra.
  pose proof (Z.div_mod (200 * 10 + (n + 10)) D ltac:(lia)) as Hb.
  pose proof (Z.mod_pos_bound (200 * 10 + (n + 10)) D HD) as Hrb.
  assert (0 <= (200 * n + (n + 10)) / D) by (apply Z.div_pos; lia).
  assert (0 <= (200 * 10 + (n + 10)) / D) by (apply Z.div_pos; lia).
  subst D. nia.
Qed.



End AnalyticsFurther.

(** ** Regular expressions: a test finds exactly the matches *)

Lemma matches_seq_inv r1 r2 s :
  matches (Seq r1 r2) s -> exists s1 s2, s = s1 ++ s2 /\ matches r1 s1 /\ matches r2 s2.
Proof. inversion 1; subst; eauto. Qed.

Lemma matches_alt_inv r1 r2 s : matches (Alt r1 r2) s -> matches r1 s \/ matches r2 s.
Proof. inversion 1; subst; auto. Qed.

Lemma matches_class_inv p s : matches (Class p) s -> exists c, s = [c] /\ p c = true.
Proof. inversion 1; subst; eauto. Qed.

Lemma nullable_matches r : nullable r = true <-> matches r [].
Proof.
  induction r as [| |p|r1 IH1 r2 IH2|r1 IH1 r2 IH2|r IH]; simpl.
  - split; [discriminate|]. inversion 1.
  - split; [constructor|reflexivity].
  - split; [discriminate|]. inversion 1.
  - rewrite andb_true_iff, IH1, IH2. split.
    + intros [H1 H2]. apply (matches_seq r1 r2 [] []); assumption.
    + intros (s1 & s2 & Heq & H1 & H2)%matches_seq_inv.
      symmetry in Heq. apply app_eq_nil in Heq. destruct Heq; subst. by split.
  - rewrite orb_true_iff, IH1, IH2. split.
    + intros [H1|H2]; [by apply matches_alt_l | by apply matches_alt_r].
    + apply matches_alt_inv.
  - split; [constructor|reflexivity].
Qed.

Lemma matches_star_cons r c s :
  matches (Star r) (c :: s) ->
  exists s1 s2, s = s1 ++ s2 /\ matches r (c :: s1) /\ matches (Star r) s2.
Proof.
  intros Hm. remember (Star r) as r' eqn:Hr. remember (c :: s) as s' eqn:Hs.
  revert s Hs.
  induction Hm as [| | | | | |r0 s1 s2 H1 _ H2 IH2]; try discriminate.
  injection Hr as ->. intros s Hs.
  destruct s1 as [|d s1]; simpl in Hs.
  - by apply IH2.
  - injection Hs as -> <-. by exists s1, s2.
Qed.

Lemma derive_matches c r s : matches (derive c r) s <-> matches r (c :: s).
Proof.
  revert s. induction r as [| |p|r1 IH1 r2 IH2|r1 IH1 r2 IH2|r IH]; intros s; simpl.
  - split; inversion 1.
  - split; inversion 1.
  - destruct (p c) eqn:Hp; split.
    + inversion 1; subst. by constructor.
    + intros (d & Heq & _)%matches_class_inv. injection Heq as -> ->. constructor.
    + inversion 1.
    + intros (d & Heq & Hd)%matches_class_inv. injection Heq as -> ->. congruence.
  - assert (Hseq : matches (Seq (derive c r1) r2) s -> matches (Seq r1 r2) (c :: s)).
    { intros (s1 & s2 & -> & H1 & H2)%matches_seq_inv.
      apply (matches_seq r1 r2 (c :: s1) s2); [by apply IH1 | assumption]. }
    split.
    + destruct (nullable r1) eqn:Hn; [|exact Hseq].
      intros [H1|H2]%matches_alt_inv; [by apply Hseq|].
      apply (matches_seq r1 r2 [] (c :: s)); [by apply nullable_matches | by apply IH2].
    + intros (s1 & s2 & Heq & H1 & H2)%matches_seq_inv.
      destruct s1 as [|d s1]; simpl in Heq.
      * subst s2. apply nullable_matches in H1. rewrite H1.
        apply matches_alt_r. by apply IH2.
      * injection Heq as <- ->.
        assert (matches (Seq (derive c r1) r2) (s1 ++ s2))
          by (apply matches_seq; [by apply IH1 | assumption]).
        destruct (nullable r1); [by apply matches_alt_l | assumption].
  - split.
    + intros [H1|H2]%matches_alt_inv;
        [apply matches_alt_l; by apply IH1 | apply matches_alt_r; by apply IH2].
    + intros [H1|H2]%matches_alt_inv;
        [apply matches_alt_l; by apply IH1 | apply matches_alt_r; by apply IH2].
  - split.
    + intros (s1 & s2 & -> & H1 & H2)%matches_seq_inv.
      apply (matches_star_more r (c :: s1) s2); [by apply IH | assumption].
    + intros (s1 & s2 & -> & H1 & H2)%matches_star_cons.
      apply matches_seq; [by apply IH | assumption].
Qed.

Lemma test_whole_matches r s : test_whole r s = true <-> matches r s.
Proof.
  unfold test_whole. revert r. induction s as [|c s IH]; intros r; simpl.
  - apply nullable_matches.
  - rewrite IH. apply derive_matches.
Qed.

Lemma matches_anything s : matches anything s.
Proof.
  unfold anything. induction s as [|c s IH]; [constructor|].
  apply (matches_star_more _ [c] s); [by constructor | assumption].
Qed.

(** An unanchored test finds a match somewhere in the string. *)
Lemma test_matches r s :
  test r s = true <-> exists s1 s2 s3, s = s1 ++ s2 ++ s3 /\ matches r s2.
Proof.
  unfold test. rewrite test_whole_matches. split.
  - intros (s1 & s23 & -> & _ & (s2 & s3 & -> & H2 & _)%matches_seq_inv)%matches_seq_inv.
    by exists s1, s2, s3.
  - intros (s1 & s2 & s3 & -> & H2).
    apply matches_seq; [apply matches_anything|].
    apply matches_seq; [assumption | apply matches_anything].
Qed.

Lemma test_class p s : test (Class p) s = existsb p s.
Proof.
  apply eq_true_iff_eq. rewrite test_matches, existsb_exists. split.
  - intros (s1 & s2 & s3 & -> & (c & -> & Hp)%matches_class_inv).
    exists c. split; [|assumption]. apply in_or_app. right. by left.
  - intros (c & (s1 & s3 & ->)%in_split & Hp).
    exists s1, [c], s3. split; [reflexivity | by constructor].
Qed.

Lemma matches_star_class p s :
  matches (Star (Class p)) s <-> Forall (fun c => p c = true) s.
Proof.
  split.
  - induction s as [|c s IH]; [constructor|].
    intros (s1 & s2 & -> & (d & Heq & Hd)%matches_class_inv & H2)%matches_star_cons.
    injection Heq as -> ->. constructor; [assumption | by apply IH].
  - induction 1 as [|c s Hc _ IH]; [constructor|].
    apply (matches_star_more _ [c] s); [by constructor | assumption].
Qed.

Lemma matches_plus_class p s :
  matches (Plus (Class p)) s <-> s <> [] /\ Forall (fun c => p c = true) s.
Proof.
  unfold Plus. split.
  - intros (s1 & s2 & -> & (c & -> & Hc)%matches_class_inv & H2)%matches_seq_inv.
    apply matches_star_class in H2.
    split; [discriminate | by constructor].
  - intros [Hne Hall]. destruct s as [|c s]; [congruence|].
    inversion Hall; subst.
    apply (matches_seq _ _ [c] s); [by constructor | by apply matches_star_class].
Qed.

(** ** Signing up and signing in *)

Section AuthFacts.
Import Auth.

Lemma validatePassword_tests password :
  fst (validatePassword password)
  = negb (length password <? 8)%nat && existsb upper password && existsb lower password
    && existsb digit password && existsb special password.
Proof.
  unfold validatePassword. rewrite !test_class.
  destruct (length password <? 8)%nat, (existsb upper password),
    (existsb lower password), (existsb digit password), (existsb special password);
    reflexivity.
Qed.

Lemma existsb_Exists (p : code_unit -> bool) s :
  existsb p s = true <-> Exists (fun c => p c = true) s.
Proof.
  rewrite existsb_exists, Exists_exists. split.
  - intros (c & Hin & Hc). exists c. split; [by apply list_elem_of_In | assumption].
  - intros (c & Hin & Hc). exists c. split; [by apply list_elem_of_In | assumption].
Qed.

Lemma grown_list_differs {X} (l : list X) x : l ++ [x] <> l.
Proof.
  intros Heq. apply (f_equal length) in Heq. rewrite length_app in Heq. simpl in Heq. lia.
Qed.

(** X21.  [validateEmail] accepts exactly the addresses made of a local part,
    an at sign, a domain, a full stop and a rest, the three parts not
    empty and free of white space and of at signs. *)
Theorem validateEmail_accepts_one_shape email :
  validateEmail email = true <->
  exists local domain rest,
    email = local ++ 64%N :: domain ++ 46%N :: rest
    /\ local <> [] /\ domain <> [] /\ rest <> []
    /\ Forall (fun c => plain c = true) (local ++ domain ++ rest).
Proof.
  unfold validateEmail, emailRegex. rewrite test_whole_matches. split.
  - intros (l & s1 & -> & [Hl Hlp]%matches_plus_class
            & (a & s2 & -> & (c & -> & Hc)%matches_class_inv
               & (d & s3 & -> & [Hd Hdp]%matches_plus_class
                  & (f & t & -> & (c' & -> & Hc')%matches_class_inv
                     & [Ht Htp]%matches_plus_class)%matches_seq_inv)%matches_seq_inv
              )%matches_seq_inv)%matches_seq_inv.
    apply N.eqb_eq in Hc, Hc'. subst c c'.
    exists l, d, t. repeat match goal with |- _ /\ _ => split end; try assumption.
    + reflexivity.
    + rewrite !Forall_app. auto.
  - intros (l & d & t & -> & Hl & Hd & Ht & Hall).
    rewrite !Forall_app in Hall. destruct Hall as (Hlp & Hdp & Htp).
    apply matches_seq; [by apply matches_plus_class|].
    apply (matches_seq _ _ [64%N]); [by constructor|].
    apply matches_seq; [by apply matches_plus_class|].
    apply (matches_seq _ _ [46%N]); [by constructor|].
    by apply matches_plus_class.
Qed.

(** X22.  [validatePassword] finds a password valid exactly when it has eight
    code units or more and holds a capital letter, a small letter, a digit
    and one of the special characters. *)
Theorem validatePassword_accepts password :
  fst (validatePassword password) = true <->
  (8 <= length password)%nat
  /\ Exists (fun c => upper c = true) password
  /\ Exists (fun c => lower c = true) password
  /\ Exists (fun c => digit c = true) password
  /\ Exists (fun c => special c = true) password.
Proof.
  rewrite validatePassword_tests, !andb_true_iff, negb_true_iff, Nat.ltb_ge,
    !existsb_Exists.
  tauto.
Qed.

(** X23.  [signUp] either sends one request, for an address and a password
    its validators accept and with the full name trimmed and not empty, or
    throws an [Error] and sends nothing. *)
Theorem signUp_sends_only_validated_input {A} origin (answer : string + A)
    email password fullName sent :
  let out := signUp origin answer email password fullName sent in
  (validateEmail email = true
   /\ fst (validatePassword password) = true
   /\ trim fullName <> [] /\ (2 <= length fullName)%nat
   /\ fst out
      = sent ++ [SignUpRequest email password (trim fullName) (utf16 "email") origin])
  \/ (fst out = sent /\ exists message, snd out = Throw (Error message)).
Proof.
  cbv zeta. unfold signUp, throw.
  generalize (validatePassword password). intros [valid errors].
  destruct (validateEmail email); simpl; [|right; eauto].
  destruct valid; simpl; [|right; eauto].
  destruct (trim fullName) as [|c t] eqn:Htrim; simpl; [right; eauto|].
  destruct (length fullName <? 2)%nat eqn:Hlen; simpl; [right; eauto|].
  apply Nat.ltb_ge in Hlen. left.
  repeat match goal with |- _ /\ _ => split end; try done.
  unfold bind, ask. destruct answer as [message|data]; [|reflexivity].
  by destruct (includes _ message).
Qed.

(** X24.  An address and a password that [signUp] let through to the service
    pass the checks of [signIn] as well, which then asks the service. *)
Theorem signUp_input_passes_signIn {A B} origin (a : string + A) (b : string + B)
    email password fullName sent sent' :
  fst (signUp origin a email password fullName sent) <> sent ->
  fst (signIn b email password sent') = sent' ++ [SignInWithPassword email password].
Proof.
  intros Hsent. unfold signUp, throw in Hsent.
  pose proof (validatePassword_tests password) as Htests.
  destruct (validatePassword password) as [valid errors].
  destruct (validateEmail email) eqn:Hemail; simpl in Hsent; [|contradiction].
  destruct valid; simpl in Hsent; [|contradiction].
  simpl in Htests. symmetry in Htests.
  rewrite !andb_true_iff, negb_true_iff, Nat.ltb_ge in Htests.
  destruct Htests as [[[[Hlen _] _] _] _].
  unfold signIn, throw. rewrite Hemail. simpl.
  destruct password as [|c password]; [simpl in Hlen; lia|].
  unfold bind, ask. destruct b as [message|data]; [|reflexivity].
  destruct (includes _ message); [reflexivity|].
  by destruct (includes _ message).
Qed.

End AuthFacts.

(** ** The user profile *)

Section ProfileFacts.
Import Client Profile.

Lemma or_else_filled a b n :
  b = Some n -> n <> [] -> exists m, or_else a b = Some m /\ m <> [].
Proof.
  intros -> Hn. destruct a as [[|c s]|]; simpl; eauto.
Qed.

(** X25.  The profile row made for a user always carries a full name and a
    provider, neither empty, whatever the authentication service
    reported. *)
Theorem new_profile_is_named authUser :
  exists name provider,
    ud_full_name (userData authUser) = Some name /\ name <> []
    /\ ud_auth_provider (userData authUser) = Some provider /\ provider <> []
    /\ (meta_auth_provider authUser = None ->
        provider = utf16 "google" \/ provider = utf16 "apple" \/ provider = utf16 "email").
Proof.
  destruct (or_else_filled
              (or_else (meta_full_name authUser) (before 64%N <$> au_email authUser))
              (Some (utf16 "User")) (utf16 "User") eq_refl) as (name & Hname & Hne);
    [discriminate|].
  exists name.
  assert (Hp : getAuthProvider authUser = utf16 "google"
               \/ getAuthProvider authUser = utf16 "apple"
               \/ getAuthProvider authUser = utf16 "email").
  { unfold getAuthProvider. repeat case_match; auto. }
  assert (Hpne : getAuthProvider authUser <> []).
  { destruct Hp as [-> | [-> | ->]]; discriminate. }
  destruct (or_else_filled (meta_auth_provider authUser)
              (Some (getAuthProvider authUser)) _ eq_refl Hpne) as (provider & Hprov & Hpr).
  exists provider. simpl. repeat match goal with |- _ /\ _ => split end; try assumption.
  intros Hnone. simpl in Hprov. rewrite Hnone in Hprov. simpl in Hprov.
  injection Hprov as <-. exact Hp.
Qed.

Lemma createUserProfile_outcome env authUser inserted db :
  (exists e, createUserProfile env authUser inserted db = (db, inl (Passed e)))
  \/ exists db', createUserProfile env authUser inserted db = (db', inr (userData authUser))
                 /\ is_Some (analytics db' !! au_id authUser).
Proof.
  unfold createUserProfile. destruct inserted as [e|]; [left; eauto|].
  right. eexists. split; [reflexivity|].
  unfold initializeUserAnalytics.
  destruct (analytics db !! au_id authUser) eqn:Hrow; simpl.
  - rewrite Hrow. eauto.
  - rewrite lookup_insert_eq. eauto.
Qed.

(** X26.  For a signed-in user [getUserProfile] resolves to the row it
    selected, or to a row it made, and then the user has an analytics
    row; when it throws, the message is DATABASE_NOT_SETUP whatever went
    wrong, and nothing was written. *)
Theorem getUserProfile_outcomes env user selected inserted inserted_again db :
  let out := getUserProfile env (Some user) selected inserted inserted_again db in
  match snd out with
  | inl t => message_of t = "DATABASE_NOT_SETUP"%string /\ fst out = db
  | inr data =>
      selected = inr data /\ fst out = db
      \/ (exists e, selected = inl e) /\ data = userData user
         /\ is_Some (analytics (fst out) !! au_id user)
  end.
Proof.
  cbv zeta. unfold getUserProfile.
  assert (Hagain : forall error,
    let out :=
      (if String.eqb (message_of error) "DATABASE_NOT_SETUP"
       then (db, inl error)
       else match createUserProfile env user inserted_again db with
            | (db'', inr data) => (db'', inr data)
            | (db'', inl _) => (db'', inl (Made "DATABASE_NOT_SETUP"))
            end) : Db * (thrown + UserData) in
    match snd out with
    | inl t => message_of t = "DATABASE_NOT_SETUP"%string /\ fst out = db
    | inr data => data = userData user /\ is_Some (analytics (fst out) !! au_id user)
    end).
  { intros error. simpl.
    destruct (String.eqb (message_of error) "DATABASE_NOT_SETUP") eqn:Hm.
    - apply String.eqb_eq in Hm. by split.
    - destruct (createUserProfile_outcome env user inserted_again db)
        as [[e ->]|(db' & -> & Hrow)]; simpl; by split. }
  destruct selected as [e|data]; simpl; [|by left].
  destruct (String.eqb (error_code e) "PGRST116").
  - destruct (createUserProfile_outcome env user inserted db)
      as [[e' ->]|(db' & -> & Hrow)]; simpl.
    + specialize (Hagain (Passed e')). simpl in Hagain.
      destruct (if String.eqb (error_message e') "DATABASE_NOT_SETUP" then _ else _)
        as [db2 [t|data]]; simpl in *; [assumption|].
      right. split; [eauto|assumption].
    + right. split; [eauto|]. by split.
  - destruct (String.eqb (error_code e) "PGRST205").
    + simpl. by split.
    + specialize (Hagain (Passed e)). simpl in Hagain.
      destruct (if String.eqb (error_message e) "DATABASE_NOT_SETUP" then _ else _)
        as [db2 [t|data]]; simpl in *; [assumption|].
      right. split; [eauto|assumption].
Qed.

End ProfileFacts.

(** ** The setup checker *)

Section SetupFacts.
Import Setup.

(** X27.  The instructions are never empty, and they end with the line that
    says the setup is complete exactly when the three checks passed; in
    that case it is the only line. *)
Theorem instructions_are_never_empty status :
  getSetupInstructions status <> []
  /\ (In setup_complete (getSetupInstructions status)
      <-> tablesExist status = true /\ authEnabled status = true
          /\ canConnect status = true)
  /\ (In setup_complete (getSetupInstructions status) ->
      getSetupInstructions status = [setup_complete]).
Proof.
  destruct status as [[] [] [] errs]; vm_compute;
    (split; [discriminate|]); split;
    try (split; [intros H; repeat destruct H as [H|H]; try discriminate H; try done
               | intros (? & ? & ?); try discriminate; auto]);
    intros H; repeat destruct H as [H|H]; try discriminate H; try done.
Qed.

(** X28.  [checkDatabaseSetup] reports no error exactly when the instructions
    drawn from its status are the single line that the setup is complete;
    and it never reports tables without a connection. *)
Theorem setup_is_complete_exactly_without_errors tables auth :
  let status := checkDatabaseSetup tables auth in
  (errors status = [] <-> getSetupInstructions status = [setup_complete])
  /\ (tablesExist status = true -> canConnect status = true).
Proof.
  cbv zeta. unfold checkDatabaseSetup.
  destruct tables as [message|[error|]], auth as [message'|]; simpl;
    try destruct (String.eqb (Profile.error_code error) "PGRST205"); simpl;
    (split; [split; intros Heq; try discriminate Heq; try reflexivity;
             try (vm_compute in Heq; discriminate Heq)
            | try done]).
Qed.

End SetupFacts.

(** * Further examples *)

Section FurtherExamples.
Import Fixture Samples.

(** Nobody is signed in: deleting a todo changes nothing. *)
Lemma signed_out_example :
  Client.auth_user signed_out = None
  /\ Client.run signed_out (Client.DeleteTodo (utf16 "t1")) (store reading) = store reading
  /\ snd (Client.getAnalytics signed_out (store reading))
     = Throw (Error "Not authenticated").
Proof.
  destruct (signed_out_calls_are_refused signed_out (store reading) eq_refl)
    as (Hrun & _ & _ & _ & _ & _ & Hget).
  split; [reflexivity|]. split; [apply Hrun | exact Hget].
Defined.

(** Alice starts a session of physics while [open_math] is open. *)
Lemma createStudySession_example :
  Client.auth_user signed_in = Some alice
  /\ 0 <= Client.in_duration physics <= 2147483647
  /\ Client.timestamptz signed_in (Client.in_start_time physics) = true
  /\ Client.end_time <$> Client.sessions desk !! utf16 "s1" = Some None
  /\ exists data,
       snd (Client.createStudySession signed_in physics desk) = Ok data
       /\ Client.sessions desk !! Client.session_id data = None
       /\ Client.session_user_id data = alice.
Proof.
  assert (Hd : 0 <= Client.in_duration physics <= 2147483647) by (simpl; lia).
  destruct (createStudySession_stores_a_new_row signed_in alice physics desk eq_refl)
    as [Hstored _].
  destruct (Hstored Hd eq_refl ltac:(discriminate))
    as (data & Hrun & Hnew & Hown & _).
  split; [reflexivity|]. split; [exact Hd|]. split; [reflexivity|].
  split; [reflexivity|].
  exists data. rewrite Hrun.
  split; [reflexivity|]. split; [exact Hnew | exact Hown].
Defined.

(** Bob tries to close the session of Alice. *)
Lemma foreign_update_example :
  Client.auth_user as_bob = Some bob
  /\ Client.updateStudySession as_bob (utf16 "s1") closing (store reading)
     = (store reading, Throw (PostgrestError "PGRST116")).
Proof.
  destruct (updates_need_an_own_row as_bob bob (utf16 "s1") (store reading) eq_refl)
    as [Hsession _].
  split; [reflexivity|]. apply Hsession.
  intros row Hrow.
  assert (Hmath : Client.sessions (store reading) !! utf16 "s1" = Some math)
    by apply lookup_singleton_eq.
  rewrite Hmath in Hrow. injection Hrow as <-. discriminate.
Defined.

(** Alice deletes her todo. *)
Lemma deleteTodo_example :
  Client.auth_user signed_in = Some alice
  /\ snd (Client.deleteTodo signed_in (utf16 "t1") (store reading)) = Ok tt
  /\ Client.todos (fst (Client.deleteTodo signed_in (utf16 "t1") (store reading)))
       !! utf16 "t1" = None.
Proof.
  destruct (deleteTodo_removes_an_own_todo_only signed_in alice (utf16 "t1")
              (store reading) eq_refl) as (Hok & _ & _ & _ & Hgone & _).
  split; [reflexivity|]. split; [exact Hok|].
  rewrite (Hgone reading (lookup_singleton_eq _ _)).
  by rewrite decide_True.
Defined.

(** Alice reads her aggregate twice. *)
Lemma getAnalytics_twice_example :
  Client.auth_user signed_in = Some alice
  /\ Client.getAnalytics signed_in (fst (Client.getAnalytics signed_in (store reading)))
     = Client.getAnalytics signed_in (store reading).
Proof.
  destruct (getAnalytics_is_idempotent signed_in alice (store reading) eq_refl)
    as (Hsame & _).
  split; [reflexivity | exact Hsame].
Defined.

(** 25 minutes of Math and 30 of Physics, in either order, on top of the
    25 minutes of Math of [ledger]. *)
Lemma session_closes_example :
  Client.auth_user signed_in = Some alice
  /\ Client.counts (Client.subjects_breakdown tally) (utf16 "Math") = true
  /\ Client.counts (Client.subjects_breakdown tally) (utf16 "Physics") = true
  /\ fst (Client.updateAnalyticsAfterSession signed_in (utf16 "Physics") 30
            (fst (Client.updateAnalyticsAfterSession signed_in (utf16 "Math") 25
                    ledger)))
     = fst (Client.updateAnalyticsAfterSession signed_in (utf16 "Math") 25
              (fst (Client.updateAnalyticsAfterSession signed_in (utf16 "Physics") 30
                      ledger))).
Proof.
  split; [reflexivity|]. split; [reflexivity|]. split; [reflexivity|].
  apply (session_closes_commute signed_in alice ledger (utf16 "Math") 25
           (utf16 "Physics") 30 eq_refl eq_refl eq_refl);
    change (Client.current signed_in alice ledger) with tally; simpl; lia.
Defined.

(** Alice closes [open_math] after 30 minutes, naming Math: the aggregate
    of [ledger] goes from 25 minutes, all of Math, to 55, all of Math. *)
Lemma balanced_example :
  Client.ordinary (Client.UpdateStudySession (utf16 "s1") closing_math)
  /\ Client.balanced tally
  /\ (let db' := Client.run signed_in
                   (Client.UpdateStudySession (utf16 "s1") closing_math) ledger in
      exists row,
        Client.analytics db' !! alice = Some row
        /\ Client.total_study_time row = 55
        /\ Client.balanced row).
Proof.
  assert (Hordinary : Client.ordinary
                        (Client.UpdateStudySession (utf16 "s1") closing_math))
    by (split; reflexivity).
  assert (Htally : Client.balanced tally).
  { split; [|reflexivity]. intros key v Hv. simpl in Hv.
    apply lookup_singleton_Some in Hv as [_ <-]. eauto. }
  assert (Hinv : forall owner row,
            Client.analytics ledger !! owner = Some row -> Client.balanced row).
  { intros owner row Hrow. simpl in Hrow.
    apply lookup_singleton_Some in Hrow as [_ <-]. exact Htally. }
  split; [exact Hordinary|]. split; [exact Htally|]. intros db'.
  assert (Hrow : exists row, Client.analytics db' !! alice = Some row
                             /\ Client.total_study_time row = 55).
  { eexists. split; [vm_compute; reflexivity | reflexivity]. }
  destruct Hrow as (row & Hrow & Htime).
  exists row. split; [exact Hrow|]. split; [exact Htime|].
  apply (aggregates_stay_balanced signed_in _ ledger Hordinary Hinv alice row Hrow).
Defined.

(** Bob asks to delete the todo of Alice. *)
Lemma own_rows_example :
  Client.auth_user as_bob = Some bob
  /\ Client.todos (Client.run as_bob (Client.DeleteTodo (utf16 "t1")) (store reading))
       !! utf16 "t1" = Some reading.
Proof.
  destruct (calls_touch_own_rows_only as_bob bob (Client.DeleteTodo (utf16 "t1"))
              (store reading) eq_refl) as (_ & Htodos & _).
  split; [reflexivity|].
  apply Htodos; [apply lookup_singleton_eq | discriminate].
Defined.

(** A title given with blanks around it. *)
Lemma created_title_example :
  Client.auth_user signed_in = Some alice
  /\ exists data,
       snd (Client.createTodo signed_in (labelled (utf16 "  Finish reading "))
              (store reading)) = Ok data
       /\ trim (Client.title data) = Client.title data.
Proof.
  split; [reflexivity|].
  destruct (Client.createTodo signed_in (labelled (utf16 "  Finish reading "))
              (store reading)) as [db' [data|e]] eqn:Hrun.
  - exists data. split; [reflexivity|].
    apply (created_title_is_tight signed_in alice (store reading)
             (labelled (utf16 "  Finish reading ")) data db' eq_refl Hrun).
  - discriminate Hrun.
Defined.

(** Alice ticks her todo. *)
Lemma dated_example :
  Client.auth_user signed_in = Some alice
  /\ Client.todos (store reading) !! utf16 "t1" = Some reading
  /\ Client.dated reading
  /\ exists row',
       Client.todos
         (fst (Client.updateTodo signed_in (utf16 "t1")
                 (TimerPage.toggleUpdates (Client.now_iso signed_in) true)
                 (store reading))) !! utf16 "t1" = Some row'
       /\ Client.status row' = Client.completed
       /\ Client.dated row'.
Proof.
  assert (Hrow : Client.todos (store reading) !! utf16 "t1" = Some reading)
    by apply lookup_singleton_eq.
  assert (Hdated : Client.dated reading).
  { split; [discriminate|]. intros [x Hx]. discriminate. }
  destruct (page_keeps_todos_dated signed_in alice (store reading) [] []
              (utf16 "t1") reading true eq_refl) as [_ Htoggle].
  split; [reflexivity|]. split; [exact Hrow|]. split; [exact Hdated|].
  apply (Htoggle Hrow eq_refl Hdated).
Defined.


(** Half an hour after the epoch the fourth work phase of [early] ends:
    the long break that follows has no time. *)
Lemma completed_phase_example :
  TimerPage.currentSession working = Some early
  /\ Date_parse (Client.start_time early) = Num 60000
  /\ TimerPage.workDuration working * 60000 <= 1800000 - 60000
  /\ (let st1 := fst (TimerPage.handlePhaseComplete (Ok early) (Ok (Some early))
                        1800000 working) in
      TimerPage.timeLeft st1 = Num 0 /\ TimerPage.isActive st1 = false).
Proof.
  assert (Hlate : TimerPage.workDuration working * 60000 <= 1800000 - 60000)
    by (simpl; lia).
  assert (Hp : Date_parse (Client.start_time early) = Num 60000) by reflexivity.
  destruct (completed_phase_leaves_no_time working early early early 60000 1800000
              (Ok (Some early)) 1800000 eq_refl Hp Hlate) as (Hzero & Hstopped & _).
  split; [reflexivity|]. split; [exact Hp|]. split; [exact Hlate|].
  split; [exact Hzero | exact Hstopped].
Defined.

(** Three seconds are left and three ticks pass. *)
Lemma countdown_example :
  TimerPage.isActive nearly = true
  /\ TimerPage.timeLeft nearly = Num (Z.of_nat 3)
  /\ Nat.iter 3 (fun st => fst (TimerPage.tick (Ok early) (Ok (Some early)) 1800000 st))
       nearly
     = TimerPage.setTimeLeft (Num 0) nearly.
Proof.
  split; [reflexivity|]. split; [reflexivity|].
  apply (countdown_reaches_zero nearly 3 (Ok early) (Ok (Some early)) 1800000
           eq_refl eq_refl).
Defined.

(** The store cannot be reached when the work phase of [working] ends. *)
Lemma failed_call_example :
  TimerPage.currentSession working = Some early
  /\ TimerPage.currentPhase working = TimerPage.work
  /\ TimerPage.handlePhaseComplete (Throw (Error "Failed to fetch")) (Ok (Some early))
       1800000 working
     = (TimerPage.setIsActive false working, Throw (Error "Failed to fetch")).
Proof.
  destruct (failed_calls_do_not_advance working early (Error "Failed to fetch")
              (Ok (Some early)) 1800000) as (_ & _ & Hphase).
  split; [reflexivity|]. split; [reflexivity|].
  apply (Hphase eq_refl eq_refl).
Defined.

(** Alice ends the session [early]. *)
Lemma ended_session_example :
  TimerPage.currentSession working = Some early
  /\ (let st' := fst (TimerPage.handleEndSession (Ok early) working) in
      TimerPage.currentSession st' = None
      /\ TimerPage.timeLeft st' = Num 1500
      /\ TimerPage.showSessionDialog (fst (TimerPage.handleStart st')) = true).
Proof.
  destruct (ended_session_rests_the_page working early early eq_refl)
    as (Hnone & _ & _ & _ & Htime & _ & _ & Hdialog & _).
  split; [reflexivity|].
  split; [exact Hnone|]. split; [exact Htime | exact Hdialog].
Defined.

(** Alice ticks her todo while the table [analytics] cannot be reached:
    the todo is stored as completed and the panel goes on listing it as
    pending. *)
Lemma panel_example :
  Client.keyed (TimerPage.store listing)
  /\ TimerPage.mirrors listing
  /\ (let e := TimerPage.ToggleTask (utf16 "t1") true
                 (Client.UpdateFails (Error "Failed to fetch")) in
      let p' := fst (TimerPage.panel_handle signed_in e listing) in
      TimerPage.fails_late signed_in e listing
      /\ Client.keyed (TimerPage.store p')
      /\ TimerPage.tasks p' = [reading]
      /\ exists row', Client.todos (TimerPage.store p') !! utf16 "t1" = Some row'
                      /\ Client.status row' = Client.completed
                      /\ row' <> reading).
Proof.
  assert (Hkeyed : Client.keyed (TimerPage.store listing)).
  { split; intros i row Hrow; simpl in Hrow;
      apply lookup_singleton_Some in Hrow as [<- <-]; reflexivity. }
  assert (Hmirrors : TimerPage.mirrors listing).
  { intros t Ht. simpl in Ht. apply list_elem_of_singleton in Ht as ->.
    apply lookup_singleton_eq. }
  split; [exact Hkeyed|]. split; [exact Hmirrors|]. intros e p'.
  assert (Hlate : TimerPage.fails_late signed_in e listing).
  { exists reading. split; [apply lookup_singleton_eq | reflexivity]. }
  destruct (panel_list_mirrors_the_store signed_in e listing Hkeyed Hmirrors)
    as (Hkeyed' & _ & Hstale).
  destruct (Hstale _ _ _ eq_refl Hlate)
    as (row & row' & Htasks & _ & Hrow & Hrow' & Hcompleted & Hdiffer).
  split; [exact Hlate|]. split; [exact Hkeyed'|]. split; [exact Htasks|].
  exists row'. split; [exact Hrow'|]. split; [exact Hcompleted|].
  assert (row = reading) as ->.
  { assert (Hreading : Client.todos (TimerPage.store listing) !! utf16 "t1"
                       = Some reading) by apply lookup_singleton_eq.
    congruence. }
  by apply Hdiffer.
Defined.

(** 1500 seconds are shown as 25:00. *)
Lemma formatTime_example :
  0 <= 1500 < 6000
  /\ TimerPage.formatTime (Num 1500) = utf16 "25:00".
Proof.
  assert (Hrange : 0 <= 1500 < 6000) by lia.
  split; [exact Hrange|].
  apply (formatTime_shows_minutes_and_seconds 1500 Hrange).
Defined.

(** The page as first rendered has made no progress. *)
Lemma progress_example :
  TimerPage.timeLeft timer = Num 1500
  /\ 0 < TimerPage.phase_duration timer (TimerPage.currentPhase timer)
  /\ exists q, TimerPage.progressPercentage timer = Finite q /\ (0 <= q /\ q <= 100)%Q.
Proof.
  assert (Hpos : 0 < TimerPage.phase_duration timer (TimerPage.currentPhase timer))
    by (simpl; lia).
  destruct (progress_is_in_range_with_the_time_left timer 1500 eq_refl Hpos)
    as (q & Hq & Hrange).
  split; [reflexivity|]. split; [exact Hpos|].
  exists q. split; [exact Hq|]. apply Hrange. simpl. lia.
Defined.

(** A week of analytics for a user object with [stats] and one session
    fetched. *)
Lemma loaded_series_example :
  get_own with_stats "stats" <> Undefined
  /\ get_own with_stats "stats" <> Null
  /\ exists data,
       AnalyticsPage.analyticsData
         (fst (AnalyticsPage.loadAnalyticsData AnalyticsPage.week (Object with_stats)
                 (Ok (Client.zeroed signed_in alice (store reading), [completed_session]))
                 648000000 blank_page))
       = Some data
       /\ length (AnalyticsPage.studyHoursData data) = 7%nat
       /\ length (AnalyticsPage.streakData data) = 30%nat.
Proof.
  assert (Hu : get_own with_stats "stats" <> Undefined) by discriminate.
  assert (Hn : get_own with_stats "stats" <> Null) by discriminate.
  destruct (loaded_series_have_fixed_lengths AnalyticsPage.week with_stats
              (Client.zeroed signed_in alice (store reading)) [completed_session]
              648000000 blank_page Hu Hn) as (data & Hrun & Hdays & Hstreak & _).
  split; [exact Hu|]. split; [exact Hn|].
  exists data. rewrite Hrun. split; [reflexivity|]. split; [exact Hdays | exact Hstreak].
Defined.

(** Five tasks completed: 33 per cent against 67. *)
Lemma task_split_example :
  get_own (spread (get_own with_stats "stats")) "tasksCompleted" = Number (of_Z 5)
  /\ 0 <= 5
  /\ exists data,
       AnalyticsPage.analyticsData
         (fst (AnalyticsPage.loadAnalyticsData AnalyticsPage.week (Object with_stats)
                 (Ok (Client.zeroed signed_in alice (store reading), [completed_session]))
                 648000000 blank_page))
       = Some data
       /\ AnalyticsPage.slice_value <$> AnalyticsPage.taskCompletionData data
          = [of_Z 33; of_Z 67].
Proof.
  assert (H5 : 0 <= 5) by lia.
  destruct (task_split_adds_up AnalyticsPage.week with_stats
              (Client.zeroed signed_in alice (store reading)) [completed_session]
              648000000 blank_page 5 eq_refl H5)
    as (data & finished & waiting & Hdata & Hslices & -> & -> & _).
  split; [reflexivity|]. split; [exact H5|].
  exists data. split; [exact Hdata | exact Hslices].
Defined.

(** An address of the accepted shape. *)
Lemma validateEmail_example :
  Auth.validateEmail address = true.
Proof.
  apply (proj2 (validateEmail_accepts_one_shape address)).
  exists (utf16 "alice"), (utf16 "example"), (utf16 "org").
  split; [reflexivity|]. split; [discriminate|]. split; [discriminate|].
  split; [discriminate|].
  repeat constructor.
Defined.

(** A password of nine code units with all that is asked for. *)
Lemma validatePassword_example :
  Auth.validatePassword password = (true, []).
Proof.
  assert (Hvalid : fst (Auth.validatePassword password) = true).
  { apply (proj2 (validatePassword_accepts password)).
    split; [simpl; lia|].
    repeat split; apply Exists_exists.
    - exists 80%N. split; [|reflexivity]. apply list_elem_of_In. simpl. tauto.
    - exists 97%N. split; [|reflexivity]. apply list_elem_of_In. simpl. tauto.
    - exists 48%N. split; [|reflexivity]. apply list_elem_of_In. simpl. tauto.
    - exists 33%N. split; [|reflexivity]. apply list_elem_of_In. simpl. tauto. }
  reflexivity.
Defined.

(** Alice signs up; the same address and password then pass the checks of
    [signIn]. *)
Lemma signIn_example :
  fst (Auth.signUp origin (inr tt) address password (utf16 " Alice ") []) <> []
  /\ fst (Auth.signIn (inl "Invalid login credentials"%string : string + unit)
            address password [])
     = [Auth.SignInWithPassword address password].
Proof.
  assert (Hsent : fst (Auth.signUp origin (inr tt) address password (utf16 " Alice ") [])
                  <> []) by (vm_compute; discriminate).
  split; [exact Hsent|].
  apply (signUp_input_passes_signIn origin (inr tt) _ address password (utf16 " Alice ")
           [] [] Hsent).
Defined.

End FurtherExamples.
